(** * School tuition chatbot

    A shallow embedding of the ledger lookup and the debt calculator
    (src/services/studentService.js), of the workbook cache
    (studentExcelService), of the Dropbox download cache and of the
    conversation automaton (src/controllers/botController.js), with the
    properties the specification states about them.

    Conventions.  A JavaScript string is a [string] holding its UTF-8 bytes;
    a JavaScript number is a binary64 [float]; a thrown error is the left
    injection of a sum; module-level variables, files and the services'
    stores are fields of an explicit world record threaded through the
    calls. *)

From Stdlib Require Import ZArith Floats DecimalString String Ascii List Lia Bool.
From stdpp Require Import base option list gmap strings.
Import ListNotations.

(** ** The JavaScript built-ins the program calls *)

Module JS.

Local Open Scope N_scope.

Definition codigo (c : ascii) : N := N_of_ascii c.

Definition esDigito (c : ascii) : bool :=
  (48 <=? codigo c) && (codigo c <=? 57).

(** One WhiteSpace or LineTerminator code point at the head of [s], if any:
    TAB LF VT FF CR SP, U+00A0, U+1680, U+2000..U+200A, U+2028, U+2029,
    U+202F, U+205F, U+3000, U+FEFF. *)
Definition quitarBlanco (s : string) : option string :=
  match s with
  | EmptyString => None
  | String c r =>
    let b := codigo c in
    if ((9 <=? b) && (b <=? 13)) || (b =? 32) then Some r
    else match r with
    | EmptyString => None
    | String c2 r2 =>
      let b2 := codigo c2 in
      if (b =? 194) && (b2 =? 160) then Some r2
      else match r2 with
      | EmptyString => None
      | String c3 r3 =>
        let b3 := codigo c3 in
        if (b =? 225) && (b2 =? 154) && (b3 =? 128) then Some r3
        else if (b =? 226) && (b2 =? 128) &&
                (((128 <=? b3) && (b3 <=? 138)) || (b3 =? 168) || (b3 =? 169) || (b3 =? 175))
        then Some r3
        else if (b =? 226) && (b2 =? 129) && (b3 =? 159) then Some r3
        else if (b =? 227) && (b2 =? 128) && (b3 =? 128) then Some r3
        else if (b =? 239) && (b2 =? 187) && (b3 =? 191) then Some r3
        else None
      end
    end
  end.

Fixpoint trimStartAux (n : nat) (s : string) : string :=
  match n with
  | O => s
  | S n' => match quitarBlanco s with
            | Some r => trimStartAux n' r
            | None => s
            end
  end.

Definition trimStart (s : string) : string := trimStartAux (String.length s) s.

Definition soloBlancos (s : string) : bool :=
  match trimStart s with EmptyString => true | _ => false end.

Fixpoint trimEnd (s : string) : string :=
  match s with
  | EmptyString => EmptyString
  | String c r => if soloBlancos s then EmptyString else String c (trimEnd r)
  end.

(** String.prototype.trim *)
Definition trim (s : string) : string := trimEnd (trimStart s).

(** String.prototype.toLowerCase on the ASCII and Latin-1 letters (code
    points above U+00FF are left as they are). *)
Fixpoint toLowerCase (s : string) : string :=
  match s with
  | EmptyString => EmptyString
  | String c r =>
    let b := codigo c in
    if (65 <=? b) && (b <=? 90) then String (ascii_of_N (b + 32)) (toLowerCase r)
    else if b =? 195 then
      match r with
      | EmptyString => String c EmptyString
      | String c2 r2 =>
        let b2 := codigo c2 in
        if (128 <=? b2) && (b2 <=? 158) && negb (b2 =? 151)
        then String c (String (ascii_of_N (b2 + 32)) (toLowerCase r2))
        else String c (String c2 (toLowerCase r2))
      end
    else String c (toLowerCase r)
  end.

(** String.prototype.toUpperCase on the same range; U+00DF gives "SS",
    U+00FF gives U+0178 and U+00B5 gives U+039C. *)
Fixpoint toUpperCase (s : string) : string :=
  match s with
  | EmptyString => EmptyString
  | String c r =>
    let b := codigo c in
    if (97 <=? b) && (b <=? 122) then String (ascii_of_N (b - 32)) (toUpperCase r)
    else if b =? 195 then
      match r with
      | EmptyString => String c EmptyString
      | String c2 r2 =>
        let b2 := codigo c2 in
        if (160 <=? b2) && (b2 <=? 190) && negb (b2 =? 183)
        then String c (String (ascii_of_N (b2 - 32)) (toUpperCase r2))
        else if b2 =? 159 then String "S" (String "S" (toUpperCase r2))
        else if b2 =? 191 then String (ascii_of_N 197) (String (ascii_of_N 184) (toUpperCase r2))
        else String c (String c2 (toUpperCase r2))
      end
    else if b =? 194 then
      match r with
      | EmptyString => String c EmptyString
      | String c2 r2 =>
        if codigo c2 =? 181
        then String (ascii_of_N 206) (String (ascii_of_N 156) (toUpperCase r2))
        else String c (String c2 (toUpperCase r2))
      end
    else String c (toUpperCase r)
  end.

(** String.prototype.startsWith *)
Definition startsWith (s pre : string) : bool := String.prefix pre s.

(** String.prototype.includes *)
Fixpoint includes (s sub : string) : bool :=
  String.prefix sub s ||
  match s with
  | EmptyString => false
  | String _ r => includes r sub
  end.

Fixpoint soloDigitos (s : string) : bool :=
  match s with
  | EmptyString => true
  | String c r => esDigito c && soloDigitos r
  end.

(** The longest prefix of decimal digits, most significant first, and what
    follows it. *)
Fixpoint tomarDigitos (s : string) : list Z * string :=
  match s with
  | EmptyString => ([], EmptyString)
  | String c r =>
    if esDigito c
    then let '(ds, rest) := tomarDigitos r in (Z.of_N (codigo c - 48) :: ds, rest)
    else ([], s)
  end.

Definition valorDigitos (ds : list Z) : Z :=
  fold_left (fun acc d => (10 * acc + d)%Z) ds 0%Z.

(** A leading sign: whether it is a minus, and what follows it. *)
Definition tomarSigno (s : string) : bool * string :=
  match s with
  | String c r =>
    if codigo c =? 45 then (true, r)
    else if codigo c =? 43 then (false, r)
    else (false, s)
  | EmptyString => (false, s)
  end.

(** parseInt(s, 10): [None] stands for NaN.  The result of the program is a
    double; every use here compares it with an array length, which the
    integer decides the same way. *)
Definition parseInt10 (s : string) : option Z :=
  let '(neg, r) := tomarSigno (trimStart s) in
  let '(ds, _) := tomarDigitos r in
  match ds with
  | [] => None
  | _ => Some (if neg then (- valorDigitos ds)%Z else valorDigitos ds)
  end.

(** *** Numbers *)

Local Open Scope Z_scope.

(** The decimal digits of a non-negative integer. *)
Definition digitos (n : Z) : string := NilZero.string_of_uint (N.to_uint (Z.to_N n)).

Fixpoint ceros (n : nat) : string :=
  match n with
  | O => EmptyString
  | S n' => String "0" (ceros n')
  end.

(** The reals that round to the double [m * 2^e], in units of [2^(e-2)]:
    lower end, upper end, and whether the ends belong to it (round half to
    even). *)
Definition intervalo (m : positive) (e : Z) : Z * Z * bool :=
  let bajo := if (Z.pos m =? 2 ^ 52) && (-1074 <? e)
              then 4 * Z.pos m - 1 else 4 * Z.pos m - 2 in
  (bajo, 4 * Z.pos m + 2, Z.even (Z.pos m)).

(** [s * 10^p], in units of [2^e2], is [s * a / b]. *)
Definition escala (p e2 : Z) : Z * Z :=
  ((if 0 <=? p then 10 ^ p else 1) * (if e2 <? 0 then 2 ^ (- e2) else 1),
   (if 0 <=? p then 1 else 10 ^ (- p)) * (if e2 <? 0 then 1 else 2 ^ e2)).

(** The integers [s >= 1] for which [s * 10^p] rounds to [m * 2^e]. *)
Definition rango (p : Z) (m : positive) (e : Z) : Z * Z :=
  let '(bajo, alto, cerrado) := intervalo m e in
  let '(a, b) := escala p (e - 2) in
  let smin := if (bajo * b) mod a =? 0
              then (if cerrado then (bajo * b) / a else (bajo * b) / a + 1)
              else (bajo * b) / a + 1 in
  let smax := if (alto * b) mod a =? 0
              then (if cerrado then (alto * b) / a else (alto * b) / a - 1)
              else (alto * b) / a in
  (Z.max smin 1, smax).

Fixpoint mayorExponente (n : nat) (p : Z) (m : positive) (e : Z) : Z :=
  match n with
  | O => p
  | S n' =>
    let '(smin, smax) := rango p m e in
    if smin <=? smax then p else mayorExponente n' (p - 1) m e
  end.

(** The shortest decimal [s * 10^p] that rounds to [m * 2^e]; among the
    candidates of that length the closest one, the even one on a tie. *)
Definition masCorto (m : positive) (e : Z) : Z * Z :=
  let p0 := ((e + Z.log2 (Z.pos m) + 2) * 30103) / 100000 + 2 in
  let p := mayorExponente 40 p0 m e in
  let '(smin, smax) := rango p m e in
  let '(a, b) := escala p (e - 2) in
  let t := 4 * Z.pos m * b in
  let c := t / a in
  let s := if c <? smin then smin
           else if smax <=? c then smax
           else let d1 := t - c * a in
                let d2 := (c + 1) * a - t in
                if d1 <? d2 then c
                else if d2 <? d1 then c + 1
                else if Z.even c then c else c + 1 in
  (s, p).

(** Number::toString(x, 10) for a positive finite [m * 2^e]. *)
Definition toStringPositivo (m : positive) (e : Z) : string :=
  let '(s, p) := masCorto m e in
  let ds := digitos s in
  let k := Z.of_nat (String.length ds) in
  let n := k + p in
  let expo := (if 0 <=? n - 1 then "e+" else "e-") +:+ digitos (Z.abs (n - 1)) in
  (if (k <=? n) && (n <=? 21) then ds +:+ ceros (Z.to_nat (n - k))
   else if (0 <? n) && (n <=? 21)
   then substring 0 (Z.to_nat n) ds +:+ "." +:+ substring (Z.to_nat n) (Z.to_nat (k - n)) ds
   else if (-6 <? n) && (n <=? 0) then "0." +:+ ceros (Z.to_nat (- n)) +:+ ds
   else if k =? 1 then ds +:+ expo
   else substring 0 1 ds +:+ "." +:+ substring 1 (Z.to_nat (k - 1)) ds +:+ expo).

(** Number.prototype.toString() *)
Definition Number_toString (x : float) : string :=
  match Prim2SF x with
  | S754_nan => "NaN"
  | S754_zero _ => "0"
  | S754_infinity s => if s then "-Infinity" else "Infinity"
  | S754_finite s m e =>
    ((if s then "-" else "") +:+ toStringPositivo m e)
  end.

(** The integer [n] with [n / 100] nearest to [m * 2^e], the larger one on a
    tie (Number.prototype.toFixed, step 10.a). *)
Definition centesimas (m : positive) (e : Z) : Z :=
  if 0 <=? e then 100 * Z.pos m * 2 ^ e
  else let d := 2 ^ (- e) in
       let q := (100 * Z.pos m) / d in
       let r := (100 * Z.pos m) mod d in
       if d <=? 2 * r then q + 1 else q.

Definition conDosDecimales (n : Z) : string :=
  let ds := digitos n in
  let ds := ceros (3 - String.length ds) +:+ ds in
  let k := String.length ds in
  (substring 0 (k - 2) ds +:+ "." +:+ substring (k - 2) 2 ds).

(** Number.prototype.toFixed(2) *)
Definition toFixed2 (x : float) : string :=
  match Prim2SF x with
  | S754_nan => "NaN"
  | S754_zero _ => "0.00"
  | S754_infinity s => if s then "-Infinity" else "Infinity"
  | S754_finite s m e =>
    ((if s then "-" else "") +:+
     (if (0 <=? e) && (10 ^ 21 <=? Z.pos m * 2 ^ e)
      then toStringPositivo m e
      else conDosDecimales (centesimas m e)))
  end.

(** The double nearest to [d * 10^ex], round half to even, for [d > 0]. *)
Definition dobleCercano (d ex : Z) : float :=
  let nd := Z.of_nat (String.length (digitos d)) in
  if 310 <? ex + nd then PrimFloat.infinity
  else if ex + nd <? -330 then PrimFloat.zero
  else
    let num := if 0 <=? ex then d * 10 ^ ex else d in
    let den := if 0 <=? ex then 1 else 10 ^ (- ex) in
    let l := Z.log2 num - Z.log2 den in
    let fl := if den * 2 ^ (Z.max l 0) <=? num * 2 ^ (Z.max (- l) 0) then l else l - 1 in
    let e := Z.max (fl - 52) (-1074) in
    let n2 := num * 2 ^ (Z.max (- e) 0) in
    let d2 := den * 2 ^ (Z.max e 0) in
    let q := n2 / d2 in
    let r := n2 mod d2 in
    let m := if (d2 <? 2 * r) || ((d2 =? 2 * r) && Z.odd q) then q + 1 else q in
    match m with
    | Z.pos pm => SF2Prim (S754_finite false pm e)
    | _ => PrimFloat.zero
    end.

(** An ExponentPart at the head of [s]: its value, 0 when there is none. *)
Definition tomarExponente (s : string) : Z :=
  match s with
  | String c r =>
    if (codigo c =? 101)%N || (codigo c =? 69)%N then
      let '(neg, r') := tomarSigno r in
      let '(ds, _) := tomarDigitos r' in
      if neg then - valorDigitos ds else valorDigitos ds
    else 0
  | EmptyString => 0
  end.

(** parseFloat *)
Definition parseFloat (s : string) : float :=
  let '(neg, r) := tomarSigno (trimStart s) in
  let firmar (x : float) := if neg then (- x)%float else x in
  if String.prefix "Infinity" r then firmar PrimFloat.infinity
  else
    let '(ent, r1) := tomarDigitos r in
    let '(frac, r2) :=
      match r1 with
      | String c r' => if (codigo c =? 46)%N then tomarDigitos r' else ([], r1)
      | EmptyString => ([], r1)
      end in
    match ent ++ frac with
    | [] => PrimFloat.nan
    | ds =>
      let d := valorDigitos ds in
      let ex := tomarExponente r2 - Z.of_nat (length frac) in
      firmar (if d =? 0 then PrimFloat.zero else dobleCercano d ex)
    end.

(** ToBoolean on a number: 0, -0 and NaN are falsy. *)
Definition numeroVerdadero (x : float) : bool := negb (is_zero x || is_nan x).

(** *** Dates (ECMAScript 21.4.1), in local time with a fixed offset *)

Definition msPerDay : Z := 86400000.

Definition DayFromYear (y : Z) : Z :=
  365 * (y - 1970) + (y - 1969) / 4 - (y - 1901) / 100 + (y - 1601) / 400.

Definition esBisiesto (y : Z) : bool :=
  (y mod 4 =? 0) && (negb (y mod 100 =? 0) || (y mod 400 =? 0)).

(** Days of the year before month [m] (0-based). *)
Definition diasAntesDeMes (bisiesto : bool) (m : Z) : Z :=
  let b := if bisiesto then 1 else 0 in
  match m with
  | 0 => 0
  | 1 => 31
  | 2 => 59 + b
  | 3 => 90 + b
  | 4 => 120 + b
  | 5 => 151 + b
  | 6 => 181 + b
  | 7 => 212 + b
  | 8 => 243 + b
  | 9 => 273 + b
  | 10 => 304 + b
  | _ => 334 + b
  end.

Definition diasDelMes (bisiesto : bool) (m : Z) : Z :=
  match m with
  | 1 => if bisiesto then 29 else 28
  | 3 | 5 | 8 | 10 => 30
  | _ => 31
  end.

(** MakeDay: a month outside 0..11 carries into the year. *)
Definition MakeDay (year month date : Z) : Z :=
  let ym := year + month / 12 in
  let mn := month mod 12 in
  DayFromYear ym + diasAntesDeMes (esBisiesto ym) mn + date - 1.

Definition MakeDate (day time : Z) : Z := day * msPerDay + time.

(** TimeClip: [None] is the NaN time value of an invalid Date. *)
Definition TimeClip (t : Z) : option Z :=
  if Z.abs t <=? 8640000000000000 then Some t else None.

(** new Date(year, month, date): a year 0..99 means 1900 + year. *)
Definition nuevaFecha (year month date : Z) : option Z :=
  let yr := if (0 <=? year) && (year <=? 99) then 1900 + year else year in
  TimeClip (MakeDate (MakeDay yr month date) 0).

(** a > b on two Date objects: false when either is invalid. *)
Definition fechaMayor (a b : option Z) : bool :=
  match a, b with
  | Some x, Some y => y <? x
  | _, _ => false
  end.

End JS.

(** ** Values, rows and the configuration *)

(** What a statement can throw. *)
Inductive Excepcion : Type :=
| TypeError                        (* a property read on null or undefined, or a call of a non-function *)
| ErrorDe (mensaje : string)       (* new Error(mensaje) *)
| ErrorRemoto (status : Z) (etiqueta : string).  (* an SDK failure: HTTP status and error tag *)

(** A cell value of the worksheet, which is also what the fields of a
    student hold. *)
Inductive Valor : Type :=
| Indefinido
| Nulo
| Numero (x : float)
| Cadena (s : string)
| Booleano (b : bool)
| Fecha (texto : string)           (* a Date; [texto] is what its toString() gives *)
| Objeto (text result : Valor).    (* a hyperlink, formula or rich-text value: its text and result properties *)

(** ToBoolean *)
Definition esVerdadero (v : Valor) : bool :=
  match v with
  | Indefinido | Nulo => false
  | Numero x => JS.numeroVerdadero x
  | Cadena s => negb (String.eqb s "")
  | Booleano b => b
  | Fecha _ | Objeto _ _ => true
  end.

(** v.toString() for a value that has the method; on undefined and null
    the call throws, and [v?.toString()] gives undefined: [None]. *)
Definition aCadena (v : Valor) : option string :=
  match v with
  | Indefinido | Nulo => None
  | Numero x => Some (JS.Number_toString x)
  | Cadena s => Some s
  | Booleano b => Some (if b then "true" else "false")
  | Fecha t => Some t
  | Objeto _ _ => Some "[object Object]"
  end.

(** A row: column key to cell value; a cell never written holds null. *)
Definition getCell (fila : gmap string Valor) (col : string) : Valor :=
  default Nulo (fila !! col).

(** config.columnas, which is not among the sources: the column keys are
    taken as given.  [MESES] lists the month entries in the order
    Object.keys enumerates them. *)
Record Columnas : Type := {
  ID : string;
  NOMBRE : string;
  GRADO : string;
  TOTAL_PAGAR : string;
  MESES : list (string * string)
}.

(** The object buscarEstudiante builds.  [meses] holds the own properties
    of estudiante.meses, keyed by lower-case month name; a month name is
    taken not to name a member of Object.prototype. *)
Record Estudiante : Type := {
  nombre : Valor;
  grado : Valor;
  id : string;
  planDePago : Valor;
  meses : gmap string Valor;
  totalPagar : Valor;
  valorCeldaOriginal : Valor
}.

(** The local calendar fields of [new Date()]: getFullYear, getMonth
    (0-based), getDate, and the milliseconds elapsed since local midnight. *)
Record Ahora : Type := {
  anio : Z;
  mesIndice : Z;
  dia : Z;
  msDelDia : Z
}.

(** The fields of a clock reading: a real month, day and time of day, in a
    year for which the Date constructor, given that year or the one before,
    neither reads it as 1900 + year (years 0..99) nor leaves the range of
    time values. *)
Definition relojValido (a : Ahora) : Prop :=
  (101 <= anio a <= 275759)%Z /\
  (0 <= mesIndice a <= 11)%Z /\
  (1 <= dia a <= JS.diasDelMes (JS.esBisiesto (anio a)) (mesIndice a))%Z /\
  (0 <= msDelDia a < JS.msPerDay)%Z.

Definition valorTiempo (a : Ahora) : Z :=
  JS.MakeDate (JS.MakeDay (anio a) (mesIndice a) (dia a)) (msDelDia a).

(** A month of the configuration with its period number (lines 91-94). *)
Record Mes : Type := { nombreMes : string; num : Z }.

(** What calcularDeuda returns. *)
Record Deuda : Type := {
  deudaMensualidad : string;
  deudaMora : string;
  totalDeuda : string;
  mesesPendientes : list string;
  cuotaMensual : string;
  alDia : bool
}.


(** ** Messages and the world the handlers run in *)

(** A workbook: its worksheets in order, each with its name and the rows
    eachRow visits (row number, cells by column key). *)
Definition Libro : Type := list (string * list (Z * gmap string Valor)).

(** A media part of an incoming message: the buffer downloadMediaMessage
    yields for it ([None] when the download throws) and its attributes. *)
Record Media : Type := {
  descarga : option string;
  mimetype : option string;
  fileName : option string
}.

(** The keys of a message object that the controller looks at.
    [extendedTextMessage] is [Some t] when the key is present, [t] being
    its text property. *)
Record Cuerpo : Type := {
  conversation : option string;
  extendedTextMessage : option (option string);
  imageMessage : option Media;
  videoMessage : option Media;
  audioMessage : option Media;
  documentMessage : option Media;
  stickerMessage : option Media;
  caption : option string
}.

(** msg.message, with extendedTextMessage.contextInfo.quotedMessage when
    it has one. *)
Record MensajeWA : Type := {
  cuerpo : Cuerpo;
  quotedMessage : option Cuerpo
}.

(** An element of the messages array of a messages.upsert event. *)
Record Msg : Type := {
  fromMe : bool;
  remoteJid : string;
  message : option MensajeWA
}.

(** What bot.sendMessage is given: forwarded content, or one of the texts
    of the controller, named after what it says, with the values
    interpolated into it. *)
Inductive Contenido : Type :=
| Texto (text : string)
| Imagen (buffer : string) (pie : string)
| Video (buffer : string) (pie : string)
| Audio (buffer : string) (tipo : string)
| Documento (buffer : string) (tipo : string) (archivo : string)
| Sticker (buffer : string)
| MenuPrincipal (alumnos : nat) (admin : bool)        (* lines 142-163 *)
| SinInformacion                                      (* line 178 *)
| EstadoPagos (e : Estudiante) (deuda : Deuda)        (* lines 195-214 *)
| Saludo                                              (* line 248 *)
| PermisoDenegado                                     (* lines 261 and 282 *)
| BroadcastEnviado (n : nat)                          (* lines 271 and 298 *)
| PedirIdentidad                                      (* line 313 *)
| MenuBroadcastAdmin                                  (* line 321 *)
| OpcionNoValida                                      (* line 325 *)
| SinAlumnosRegistrados                               (* line 334 *)
| AlumnoRegistradoNoEncontrado                        (* line 345 *)
| ListaSeleccion (lineas : list (Valor * Valor))      (* lines 350-361 *)
| InformacionEscuela                                  (* lines 368-375 *)
| ContactoAdministracion                              (* lines 381-387 *)
| SinAlumnosParaEliminar                              (* line 395 *)
| ListaEliminar (lineas : list (Valor * Valor))       (* lines 399-410 *)
| OpcionNoValidaDelMenu                               (* line 420 *)
| AlumnoEncontrado (nombre : Valor)                   (* line 434 *)
| IdentidadNoRegistrada                               (* line 438 *)
| FormatoIncorrecto                                   (* line 443 *)
| RegistroExitoso (nombre : Valor)                    (* line 456 *)
| PinIncorrecto                                       (* line 462 *)
| SeleccionNoValida                                   (* lines 472 and 495 *)
| AlumnoSeleccionadoNoEncontrado                      (* line 483 *)
| AlumnoEliminado (nombre : Valor)                    (* line 503 *)
| ErrorAlEliminar.                                    (* line 507 *)

(** A callback the controller hands to setTimeout to run later on its own:
    [() => enviarMenuPrincipal(bot, remitente)] (lines 459, 480, 511).  The
    timers of delay() (lines 61 and 219-221), whose callback only resumes
    the function that waits, are not among them: waits are not modelled. *)
Inductive Tarea : Type :=
| MenuPrincipalPara (remitente : string).

(** estado.datos *)
Record Datos : Type := {
  idEstudiante : option string;
  alumnos : option (list string)
}.

(** What obtenerEstado returns. *)
Record EstadoConv : Type := {
  estado : string;
  datos : Datos
}.

Definition sinDatos : Datos := {| idEstudiante := None; alumnos := None |}.

(** encargados.json as enviarBroadcast finds it: absent, unreadable, not
    JSON, or JSON whose [encargados] property has these keys ([None] when
    the property is missing). *)
Inductive ArchivoEncargados : Type :=
| NoExiste
| Ilegible
| NoEsJson
| Json (destinatarios : option (list string)).

(** Fields of [Mundo]:
    - [cachedWorkbook]: studentExcelService: let cachedWorkbook
    - [lastFetchTime]: studentExcelService: let lastFetchTime
    - [reloj]: what Date.now() reads
    - [fechaLocal]: the local calendar fields of new Date()
    - [fechaIso]: new Date().toISOString().slice(0, 10)
    - [red]: what the coming axios.get calls yield
    - [archivoEncargados]: encargados.json as enviarBroadcast finds it
    - [estados]: stateService: state and data of each user
    - [saludos]: stateService: date of the last greeting of each user
    - [encargados]: encargadoService: the student ids linked to each user
    - [pines]: pinService: the PIN bound to each student id
    - [admins]: adminService: the privileged users
    - [enviados]: bot.sendMessage calls so far, oldest first
    - [temporizadores]: the menu callbacks handed to setTimeout, oldest
      first (the timers of delay() are left out)
    - [consola]: the console.error calls, oldest first, each by its fixed
      text (time stamps and interpolated values are left out) *)

(** The module variables, the stores of the services, the environment and
    the effects performed so far.  Time does not pass inside the model: the
    clock fields are inputs. *)
Record Mundo : Type := {
  cachedWorkbook : option Libro;
  lastFetchTime : Z;
  reloj : Z;
  fechaLocal : Ahora;
  fechaIso : string;
  red : list (option (option Libro));
  archivoEncargados : ArchivoEncargados;
  estados : gmap string EstadoConv;
  saludos : gmap string string;
  encargados : gmap string (list string);
  pines : gmap string string;
  admins : gset string;
  enviados : list (string * Contenido);
  temporizadores : list Tarea;
  consola : list string
}.

Definition con_cachedWorkbook (v : option Libro) (w : Mundo) : Mundo :=
  {| cachedWorkbook := v;
     lastFetchTime := lastFetchTime w;
     reloj := reloj w;
     fechaLocal := fechaLocal w;
     fechaIso := fechaIso w;
     red := red w;
     archivoEncargados := archivoEncargados w;
     estados := estados w;
     saludos := saludos w;
     encargados := encargados w;
     pines := pines w;
     admins := admins w;
     enviados := enviados w;
     temporizadores := temporizadores w;
     consola := consola w |}.

Definition con_lastFetchTime (v : Z) (w : Mundo) : Mundo :=
  {| cachedWorkbook := cachedWorkbook w;
     lastFetchTime := v;
     reloj := reloj w;
     fechaLocal := fechaLocal w;
     fechaIso := fechaIso w;
     red := red w;
     archivoEncargados := archivoEncargados w;
     estados := estados w;
     saludos := saludos w;
     encargados := encargados w;
     pines := pines w;
     admins := admins w;
     enviados := enviados w;
     temporizadores := temporizadores w;
     consola := consola w |}.

Definition con_red (v : list (option (option Libro))) (w : Mundo) : Mundo :=
  {| cachedWorkbook := cachedWorkbook w;
     lastFetchTime := lastFetchTime w;
     reloj := reloj w;
     fechaLocal := fechaLocal w;
     fechaIso := fechaIso w;
     red := v;
     archivoEncargados := archivoEncargados w;
     estados := estados w;
     saludos := saludos w;
     encargados := encargados w;
     pines := pines w;
     admins := admins w;
     enviados := enviados w;
     temporizadores := temporizadores w;
     consola := consola w |}.

Definition con_estados (v : gmap string EstadoConv) (w : Mundo) : Mundo :=
  {| cachedWorkbook := cachedWorkbook w;
     lastFetchTime := lastFetchTime w;
     reloj := reloj w;
     fechaLocal := fechaLocal w;
     fechaIso := fechaIso w;
     red := red w;
     archivoEncargados := archivoEncargados w;
     estados := v;
     saludos := saludos w;
     encargados := encargados w;
     pines := pines w;
     admins := admins w;
     enviados := enviados w;
     temporizadores := temporizadores w;
     consola := consola w |}.

Definition con_saludos (v : gmap string string) (w : Mundo) : Mundo :=
  {| cachedWorkbook := cachedWorkbook w;
     lastFetchTime := lastFetchTime w;
     reloj := reloj w;
     fechaLocal := fechaLocal w;
     fechaIso := fechaIso w;
     red := red w;
     archivoEncargados := archivoEncargados w;
     estados := estados w;
     saludos := v;
     encargados := encargados w;
     pines := pines w;
     admins := admins w;
     enviados := enviados w;
     temporizadores := temporizadores w;
     consola := consola w |}.

Definition con_encargados (v : gmap string (list string)) (w : Mundo) : Mundo :=
  {| cachedWorkbook := cachedWorkbook w;
     lastFetchTime := lastFetchTime w;
     reloj := reloj w;
     fechaLocal := fechaLocal w;
     fechaIso := fechaIso w;
     red := red w;
     archivoEncargados := archivoEncargados w;
     estados := estados w;
     saludos := saludos w;
     encargados := v;
     pines := pines w;
     admins := admins w;
     enviados := enviados w;
     temporizadores := temporizadores w;
     consola := consola w |}.

Definition con_enviados (v : list (string * Contenido)) (w : Mundo) : Mundo :=
  {| cachedWorkbook := cachedWorkbook w;
     lastFetchTime := lastFetchTime w;
     reloj := reloj w;
     fechaLocal := fechaLocal w;
     fechaIso := fechaIso w;
     red := red w;
     archivoEncargados := archivoEncargados w;
     estados := estados w;
     saludos := saludos w;
     encargados := encargados w;
     pines := pines w;
     admins := admins w;
     enviados := v;
     temporizadores := temporizadores w;
     consola := consola w |}.

Definition con_temporizadores (v : list Tarea) (w : Mundo) : Mundo :=
  {| cachedWorkbook := cachedWorkbook w;
     lastFetchTime := lastFetchTime w;
     reloj := reloj w;
     fechaLocal := fechaLocal w;
     fechaIso := fechaIso w;
     red := red w;
     archivoEncargados := archivoEncargados w;
     estados := estados w;
     saludos := saludos w;
     encargados := encargados w;
     pines := pines w;
     admins := admins w;
     enviados := enviados w;
     temporizadores := v;
     consola := consola w |}.

Definition con_consola (v : list string) (w : Mundo) : Mundo :=
  {| cachedWorkbook := cachedWorkbook w;
     lastFetchTime := lastFetchTime w;
     reloj := reloj w;
     fechaLocal := fechaLocal w;
     fechaIso := fechaIso w;
     red := red w;
     archivoEncargados := archivoEncargados w;
     estados := estados w;
     saludos := saludos w;
     encargados := encargados w;
     pines := pines w;
     admins := admins w;
     enviados := enviados w;
     temporizadores := temporizadores w;
     consola := v |}.

(** *** Computations that read and write a store and may throw *)

Definition M (S A : Type) : Type := S -> S * (Excepcion + A).

#[global] Instance M_ret {S : Type} : MRet (M S) :=
  fun A (a : A) (w : S) => (w, inr a).

#[global] Instance M_bind {S : Type} : MBind (M S) :=
  fun A B (k : A -> M S B) (c : M S A) (w : S) =>
    match c w with
    | (w', inl err) => (w', inl err)
    | (w', inr a) => k a w'
    end.

Definition throw {S A : Type} (err : Excepcion) : M S A := fun w => (w, inl err).

(** try [c] catch (error) [h error]: what [c] wrote before throwing stays
    written. *)
Definition tryCatch {S A : Type} (c : M S A) (h : Excepcion -> M S A) : M S A :=
  fun w => match c w with
           | (w', inl err) => h err w'
           | (w', inr a) => (w', inr a)
           end.

Definition gets {S A : Type} (f : S -> A) : M S A := fun w => (w, inr (f w)).

Definition modify {S : Type} (f : S -> S) : M S unit := fun w => (f w, inr tt).

Definition lift {S A : Type} (r : Excepcion + A) : M S A := fun w => (w, r).

Definition consoleError (linea : string) : M Mundo unit :=
  modify (fun w => con_consola (consola w ++ [linea]) w).

(** bot.sendMessage(destinatario, contenido); the send is taken to go
    through. *)
Definition sendMessage (destinatario : string) (c : Contenido) : M Mundo unit :=
  modify (fun w => con_enviados (enviados w ++ [(destinatario, c)]) w).

(** setTimeout(tarea, ms) *)
Definition setTimeout (t : Tarea) : M Mundo unit :=
  modify (fun w => con_temporizadores (temporizadores w ++ [t]) w).

(** ** studentExcelService: the workbook cache *)

Module StudentExcelService.

Local Open Scope Z_scope.

Definition CACHE_REFRESH_INTERVAL : Z := 60 * 60 * 1000.
Definition MAX_RETRIES : nat := 3.

(** axios.get: the next outcome on [red]; with none left the request fails. *)
Definition axiosGet : M Mundo (option Libro) :=
  fun w => match red w with
           | Some buffer :: resto => (con_red resto w, inr buffer)
           | None :: resto => (con_red resto w, inl (ErrorDe "axios"))
           | [] => (w, inl (ErrorDe "axios"))
           end.

(** downloadExcelWithRetry(url, retries): [restantes] attempts are left.
    Every failed attempt writes its console.error line (line 32) before
    the loop gives up or goes on. *)
Fixpoint downloadExcelWithRetry (restantes : nat) : M Mundo (option (option Libro)) :=
  match restantes with
  | O => mret None
  | S n =>
    tryCatch (buffer ← axiosGet; mret (Some buffer))
      (fun _ =>
         consoleError "Error en descarga intento";;
         match n with
         | O => throw (ErrorDe "No se pudo descargar el archivo Excel después de varios intentos.")
         | _ => downloadExcelWithRetry n
         end)
  end.

(** loadWorkbook(buffer): a buffer is what it parses to, [None] when it is
    not a workbook. *)
Definition loadWorkbook (buffer : option (option Libro)) : M Mundo Libro :=
  match buffer with
  | Some (Some libro) => mret libro
  | _ => throw (ErrorDe "xlsx")
  end.

(** Lines 57-61: download, parse, and only then replace the cache. *)
Definition actualizarCache (now : Z) : M Mundo Libro :=
  buffer ← downloadExcelWithRetry MAX_RETRIES;
  nuevo ← loadWorkbook buffer;
  modify (fun w => con_lastFetchTime now (con_cachedWorkbook (Some nuevo) w));;
  mret nuevo.

Definition getWorkbook : M Mundo Libro :=
  now ← gets reloj;
  cached ← gets cachedWorkbook;
  last ← gets lastFetchTime;
  match cached with
  | Some libro =>
    if CACHE_REFRESH_INTERVAL <? now - last then actualizarCache now else mret libro
  | None => actualizarCache now
  end.

End StudentExcelService.

(** ** src/services/studentService.js *)

Module StudentService.

Import JS.

(** [s.replace(/[^0-9.]/g, '')] *)
Fixpoint soloNumerico (s : string) : string :=
  match s with
  | EmptyString => EmptyString
  | String c r =>
    if esDigito c || (codigo c =? 46)%N then String c (soloNumerico r) else soloNumerico r
  end.

(** [s.replace(pat, '')] with a string pattern: the first occurrence only. *)
Fixpoint quitarPrimero (pat s : string) : string :=
  if String.prefix pat s then substring (String.length pat) (String.length s - String.length pat) s
  else match s with
       | EmptyString => EmptyString
       | String c r => String c (quitarPrimero pat r)
       end.

(** [s.replace(/\s/g, '')] *)
Fixpoint quitarEspaciosAux (n : nat) (s : string) : string :=
  match n with
  | O => s
  | S n' =>
    match quitarBlanco s with
    | Some r => quitarEspaciosAux n' r
    | None => match s with
              | EmptyString => EmptyString
              | String c r => String c (quitarEspaciosAux n' r)
              end
    end
  end.

Definition quitarEspacios (s : string) : string := quitarEspaciosAux (String.length s) s.

(** [parseFloat(s) || 0] *)
Definition parseFloatO0 (s : string) : float :=
  let x := parseFloat s in
  if numeroVerdadero x then x else PrimFloat.zero.

(** Lines 32-56: the monthly amount read from the TOTAL_PAGAR cell. *)
Definition leerTotalPagar (valorCelda : Valor) : Excepcion + Valor :=
  match valorCelda with
  | Numero x => inr (Numero x)
  | Cadena s =>
    if includes s ","
    then inr (Numero (parseFloatO0
           (quitarPrimero "," (quitarEspacios (quitarPrimero "L" (quitarPrimero "L." s))))))
    else inr (Numero (parseFloatO0 (soloNumerico s)))
  | Objeto text result =>
    if esVerdadero text then
      match text with
      | Cadena t => inr (Numero (parseFloatO0 (soloNumerico t)))
      | _ => inl TypeError
      end
    else if esVerdadero result then inr result
    else inr (Numero PrimFloat.zero)
  | _ => inr (Numero PrimFloat.zero)
  end.

(** Lines 63-66: the month cells under the lower-cased month keys. *)
Definition leerMeses (cfg : Columnas) (fila : gmap string Valor) : gmap string Valor :=
  fold_left (fun acc '(mes, col) => <[toLowerCase mes := getCell fila col]> acc)
            (MESES cfg) ∅.

(** Lines 32-69: the student built from a row whose identity matched. *)
Definition construirEstudiante (cfg : Columnas) (fila : gmap string Valor) (ident : string)
  : Excepcion + Estudiante :=
  let valorCelda := getCell fila (TOTAL_PAGAR cfg) in
  match leerTotalPagar valorCelda with
  | inl err => inl err
  | inr total =>
    inr {| nombre := getCell fila (NOMBRE cfg);
           grado := getCell fila (GRADO cfg);
           id := ident;
           planDePago := getCell fila "H";
           meses := leerMeses cfg fila;
           totalPagar := total;
           valorCeldaOriginal := valorCelda |}
  end.

(** Line 31: [row.getCell(columnas.ID).value?.toString() === id] *)
Definition coincide (cfg : Columnas) (fila : gmap string Valor) (ident : string) : bool :=
  match aCadena (getCell fila (ID cfg)) with
  | Some s => String.eqb s ident
  | None => false
  end.

(** Lines 27-73: hoja.eachRow visits the rows in order, each with its row
    number; [estudiante] is the variable the callback assigns. *)
Fixpoint eachRow (cfg : Columnas) (filas : list (Z * gmap string Valor)) (ident : string)
    (estudiante : option Estudiante) : Excepcion + option Estudiante :=
  match filas with
  | [] => inr estudiante
  | (rowNumber, fila) :: resto =>
    if (rowNumber <? 3)%Z then eachRow cfg resto ident estudiante
    else if coincide cfg fila ident then
      match construirEstudiante cfg fila ident with
      | inl err => inl err
      | inr e => eachRow cfg resto ident (Some e)
      end
    else eachRow cfg resto ident estudiante
  end.

Definition buscarEnHoja (cfg : Columnas) (hoja : list (Z * gmap string Valor)) (ident : string)
  : Excepcion + option Estudiante :=
  eachRow cfg hoja ident None.

(** workbook.getWorksheet(name): the first worksheet of that name. *)
Fixpoint getWorksheet (libro : Libro) (name : string) : option (list (Z * gmap string Valor)) :=
  match libro with
  | [] => None
  | (n, hoja) :: resto => if String.eqb n name then Some hoja else getWorksheet resto name
  end.

(** Lines 21-25: the sheet "Matricula 2025", else the sixth worksheet;
    with neither, reading [hoja.name] throws. *)
Definition hojaMatricula (libro : Libro) : option (list (Z * gmap string Valor)) :=
  match getWorksheet libro "Matricula 2025" with
  | Some hoja => Some hoja
  | None => snd <$> libro !! 5%nat
  end.

(** Lines 14-78 *)
Definition buscarEstudiante (cfg : Columnas) (ident : string) : M Mundo (option Estudiante) :=
  tryCatch
    (workbook ← StudentExcelService.getWorkbook;
     match hojaMatricula workbook with
     | Some hoja => lift (buscarEnHoja cfg hoja ident)
     | None => throw TypeError
     end)
    (fun error => consoleError "Error en buscarEstudiante:";; throw error).

(** *** calcularDeuda *)

(** The double the literal 0.05 denotes. *)
Definition cincoPorCiento : float := 0x1.999999999999ap-5%float.

(** An array length as a number. *)
Definition longitud {A} (l : list A) : float :=
  PrimFloat.of_uint63 (Uint63.of_Z (Z.of_nat (length l))).

Definition mesActual (ahora : Ahora) : Z := (mesIndice ahora + 1)%Z.

(** Lines 91-94 *)
Definition listaMeses (cfg : Columnas) : list Mes :=
  imap (fun index '(mes, _) => {| nombreMes := toLowerCase mes; num := Z.of_nat index + 1 |})
       (MESES cfg).

(** Line 97: [estudiante.planDePago === 10 ? 2 : 1] *)
Definition inicioMes (e : Estudiante) : Z :=
  match planDePago e with
  | Numero x => if PrimFloat.eqb x 10 then 2%Z else 1%Z
  | _ => 1%Z
  end.

(** Lines 103-104: [!valor || valor.toString().trim() === ''] on the value
    found under a month name, undefined when there is none. *)
Definition enBlanco (celda : option Valor) : bool :=
  let valor := default Indefinido celda in
  negb (esVerdadero valor) ||
  match aCadena valor with
  | Some s => String.eqb (trim s) ""
  | None => true
  end.

(** Lines 100-105 *)
Definition pendientes (cfg : Columnas) (ahora : Ahora) (e : Estudiante) : list Mes :=
  List.filter (fun m => enBlanco (meses e !! nombreMes m))
    (List.filter (fun m => (inicioMes e <=? num m)%Z && (num m <=? mesActual ahora)%Z)
       (listaMeses cfg)).

(** Lines 114-122: whether [ahora > fechaVencimiento] for a pending month. *)
Definition vencido (ahora : Ahora) (mesNum : Z) : bool :=
  let anioMes := if (mesNum =? 12)%Z && (mesActual ahora =? 1)%Z
                 then (anio ahora - 1)%Z else anio ahora in
  fechaMayor (Some (valorTiempo ahora)) (nuevaFecha anioMes mesNum 11).

(** Lines 108-125: the forEach that accumulates [deudaMora]. *)
Definition acumularMora (cuota : float) (ahora : Ahora) (pend : list Mes) : float :=
  fold_left (fun deuda m => if vencido ahora (num m)
                            then (deuda + cuota * cincoPorCiento)%float else deuda)
            pend PrimFloat.zero.

(** Lines 85-138.  Every step before the returned object is built is free
    of effects, and [cuotaMensual.toFixed] exists only on a number: with any
    other monthly amount the call ends in a TypeError. *)
Definition calcularDeuda (cfg : Columnas) (ahora : Ahora) (e : Estudiante)
  : Excepcion + Deuda :=
  match totalPagar e with
  | Numero cuota =>
    let pend := pendientes cfg ahora e in
    let mora := acumularMora cuota ahora pend in
    let mensualidad := (cuota * longitud pend)%float in
    inr {| deudaMensualidad := toFixed2 mensualidad;
           deudaMora := toFixed2 mora;
           totalDeuda := toFixed2 (mensualidad + mora)%float;
           mesesPendientes := map (fun m => toUpperCase (nombreMes m)) pend;
           cuotaMensual := toFixed2 cuota;
           alDia := (length pend =? 0)%nat |}
  | _ => inl TypeError
  end.

(** *** The late-fee rule in the words of the specification *)

(** The year and the month (1..12) of the month that follows period [p]:
    the next month of the current year; for December it is January of the
    next year, and January of the current year when the current month is
    January. *)
Definition mesSiguiente (ahora : Ahora) (p : Z) : Z * Z :=
  if (p =? 12)%Z
  then (if (mesActual ahora =? 1)%Z then anio ahora else (anio ahora + 1)%Z, 1%Z)
  else (anio ahora, (p + 1)%Z).

(** [ahora] is strictly after 00:00:00.000 of day 11 of month [m] of year
    [y], comparing calendar fields. *)
Definition despuesDelDia11 (ahora : Ahora) (ym : Z * Z) : bool :=
  let '(y, m) := ym in
  ((y <? anio ahora) ||
   ((y =? anio ahora) &&
    ((m <? mesActual ahora) ||
     ((m =? mesActual ahora) &&
      ((11 <? dia ahora) || ((dia ahora =? 11) && (0 <? msDelDia ahora)))))))%Z.

(** What a pending period adds to the late fee: 5% of the monthly amount
    once its due date has passed, nothing before. *)
Definition aporteMora (cuota : float) (ahora : Ahora) (p : Z) : option float :=
  if despuesDelDia11 ahora (mesSiguiente ahora p)
  then Some (cuota * cincoPorCiento)%float else None.

Definition sumarAportes (aportes : list (option float)) : float :=
  fold_left (fun total a => match a with
                            | Some x => (total + x)%float
                            | None => total
                            end) aportes PrimFloat.zero.

(** *** The pending periods in the words of the specification *)



(** A recorded cell counts as unpaid when it is missing, falsy, or a text
    of white space only. *)
Definition sinPago (celda : option Valor) : bool :=
  match celda with
  | None => true
  | Some v =>
    negb (esVerdadero v) ||
    match aCadena v with
    | Some s => String.eqb (trim s) ""
    | None => false
    end
  end.


(** The month names as botController.js lists them (mesesOrdenados). *)
Definition mesesOrdenados : list string :=
  ["enero"; "febrero"; "marzo"; "abril"; "mayo"; "junio"; "julio"; "agosto";
   "septiembre"; "octubre"; "noviembre"; "diciembre"].

(** *** The lookup in the words of the specification *)

(** The student built from the first row after the two header rows whose
    identity cell stringifies to [ident]; [None] when no row matches or the
    row cannot be read. *)
Fixpoint primeraCoincidencia (cfg : Columnas) (hoja : list (Z * gmap string Valor))
    (ident : string) : option Estudiante :=
  match hoja with
  | [] => None
  | (rowNumber, fila) :: resto =>
    if (3 <=? rowNumber)%Z && coincide cfg fila ident
    then match construirEstudiante cfg fila ident with
         | inr e => Some e
         | inl _ => None
         end
    else primeraCoincidencia cfg resto ident
  end.

(** The rows after the two header rows whose identity cell stringifies to
    [ident], in sheet order. *)
Definition filasCoincidentes (cfg : Columnas) (hoja : list (Z * gmap string Valor))
    (ident : string) : list (gmap string Valor) :=
  map snd (List.filter (fun '(rowNumber, fila) => (3 <=? rowNumber)%Z && coincide cfg fila ident)
                       hoja).

(** The student built from the last of them. *)
Definition ultimaCoincidencia (cfg : Columnas) (hoja : list (Z * gmap string Valor))
    (ident : string) : option Estudiante :=
  match last (filasCoincidentes cfg hoja ident) with
  | Some fila => match construirEstudiante cfg fila ident with
                 | inr e => Some e
                 | inl _ => None
                 end
  | None => None
  end.

(** *** Sample data *)

(** Modelled from the spec: config/config.js is not among the sources; the
    month keys are the calendar months that botController.js names, the
    column letters are placeholders. *)
Definition columnasDeMuestra : Columnas :=
  {| ID := "B"; NOMBRE := "A"; GRADO := "C"; TOTAL_PAGAR := "G";
     MESES := [("ENERO", "I"); ("FEBRERO", "J"); ("MARZO", "K"); ("ABRIL", "L");
               ("MAYO", "M"); ("JUNIO", "N"); ("JULIO", "O"); ("AGOSTO", "P");
               ("SEPTIEMBRE", "Q"); ("OCTUBRE", "R"); ("NOVIEMBRE", "S");
               ("DICIEMBRE", "T")] |}.

(** 20 June 2025, 09:30 local time. *)
Definition veinteDeJunio : Ahora :=
  {| anio := 2025; mesIndice := 5; dia := 20; msDelDia := 34200000 |}.

(** A plan-A student who paid February to April and nothing since. *)
Definition estudianteDeMuestra : Estudiante :=
  {| nombre := Cadena "ANA LOPEZ"; grado := Cadena "7";
     id := "0801201012345"; planDePago := Numero 10;
     meses := list_to_map [("enero", Nulo); ("febrero", Numero 500);
                           ("marzo", Numero 500); ("abril", Cadena "500");
                           ("mayo", Nulo); ("junio", Cadena " ")];
     totalPagar := Numero 500; valorCeldaOriginal := Numero 500 |}.

(** A ledger in which two rows carry the same identity. *)
Definition hojaRepetida : list (Z * gmap string Valor) :=
  [ (1, {[ "A" := Cadena "NOMBRE"; "B" := Cadena "IDENTIDAD" ]});
    (2, {[ "A" := Cadena "0801201012345"; "B" := Cadena "0801201012345" ]});
    (3, {[ "A" := Cadena "ANA LOPEZ"; "B" := Cadena "0801201012345";
           "C" := Cadena "7"; "G" := Numero 500; "H" := Numero 10 ]});
    (4, {[ "A" := Cadena "LUIS PAZ"; "B" := Numero 801201012346;
           "C" := Cadena "8"; "G" := Cadena "L. 1,250.00"; "H" := Numero 11 ]});
    (5, {[ "A" := Cadena "ANA LOPEZ BIS"; "B" := Cadena "0801201012345";
           "C" := Cadena "9"; "G" := Numero 650; "H" := Numero 11 ]}) ]%Z.

Definition mundoInicial : Mundo :=
  {| cachedWorkbook := None; lastFetchTime := 0; reloj := 1750411800000;
     fechaLocal := veinteDeJunio; fechaIso := "2025-06-20";
     red := []; archivoEncargados := NoExiste;
     estados := ∅; saludos := ∅; encargados := ∅; pines := ∅; admins := ∅;
     enviados := []; temporizadores := []; consola := [] |}.

(** The ledger above is the cached workbook, fetched ten minutes ago. *)
Definition mundoConLibro : Mundo :=
  con_lastFetchTime 1750411200000
    (con_cachedWorkbook (Some [("Matricula 2025", hojaRepetida)]) mundoInicial).

End StudentService.

(** ** The services the controller calls that are not among the sources *)

Module Servicios.

(** Modelled from the spec: services/stateService.js is missing.  One
    conversation record per user identity, read and updated in place; a
    user with no record is in the initial state. *)
Definition obtenerEstado (remitente : string) : M Mundo EstadoConv :=
  gets (fun w => default {| estado := "MENU_PRINCIPAL"; datos := sinDatos |}
                         (estados w !! remitente)).

(** Modelled from the spec: establecerEstado(remitente, estado, datos = {})
    of the missing stateService replaces the state and its data. *)
Definition establecerEstado (remitente est : string) (d : Datos) : M Mundo unit :=
  modify (fun w => con_estados (<[remitente := {| estado := est; datos := d |}]> (estados w)) w).

(** Modelled from the spec: the last greeting date of the missing
    stateService, undefined for a user never greeted. *)
Definition obtenerUltimoSaludo (remitente : string) : M Mundo (option string) :=
  gets (fun w => saludos w !! remitente).

Definition establecerUltimoSaludo (remitente fecha : string) : M Mundo unit :=
  modify (fun w => con_saludos (<[remitente := fecha]> (saludos w)) w).

(** Modelled from the spec: services/encargadoService.js is missing.  The
    guardian links of a user are the student ids registered for it. *)
Definition obtenerAlumnosEncargado (remitente : string) : M Mundo (list string) :=
  gets (fun w => default [] (encargados w !! remitente)).

(** Modelled from the spec: a successful registration creates the link. *)
Definition registrarEncargado (remitente ident : string) : M Mundo unit :=
  modify (fun w =>
    let actuales := default [] (encargados w !! remitente) in
    if bool_decide (ident ∈ actuales) then w
    else con_encargados (<[remitente := actuales ++ [ident]]> (encargados w)) w).

(** Modelled from the spec: the owning user removes a link; the result
    tells whether there was one to remove. *)
Definition eliminarRelacion (remitente ident : string) : M Mundo bool :=
  actuales ← gets (fun w => default [] (encargados w !! remitente));
  if bool_decide (ident ∈ actuales) then
    modify (fun w => con_encargados
                       (<[remitente := List.filter (fun i => negb (String.eqb i ident)) actuales]>
                          (encargados w)) w);;
    mret true
  else mret false.

(** Modelled from the spec: services/pinService.js is missing.  The text
    is valid when it is the secret bound to the carried identifier. *)
Definition validarPIN (ident : option string) (pin : string) : M Mundo bool :=
  match ident with
  | Some i => gets (fun w => bool_decide (pines w !! i = Some pin))
  | None => mret false
  end.

(** Modelled from the spec: services/adminService.js is missing.  Whether
    the user holds the elevated privilege. *)
Definition isAdmin (remitente : string) : M Mundo bool :=
  gets (fun w => bool_decide (remitente ∈ admins w)).

End Servicios.

(** ** src/controllers/botController.js *)

Module BotController.

Import JS Servicios.

(** What enviarBroadcast is given: a text, or a message object. *)
Inductive Difusion : Type :=
| DifusionTexto (texto : string)
| DifusionObjeto (mensaje : MensajeWA).

(** [s || porDefecto] on an optional string property. *)
Definition oPorDefecto (s : option string) (porDefecto : string) : string :=
  match s with
  | Some t => if String.eqb t "" then porDefecto else t
  | None => porDefecto
  end.

Definition cadenaVerdadera (s : option string) : bool :=
  match s with
  | Some t => negb (String.eqb t "")
  | None => false
  end.

(** downloadMediaMessage *)
Definition descargar (m : Media) : Excepcion + string :=
  match descarga m with
  | Some buffer => inr buffer
  | None => inl (ErrorDe "downloadMediaMessage")
  end.

(** Lines 71-128, for one recipient: what is sent to it; [inr None] when
    the message is of no supported kind (the recipient is skipped). *)
Definition contenidoDifusion (mensaje : Difusion) : Excepcion + option Contenido :=
  match mensaje with
  | DifusionTexto texto => inr (Some (Texto texto))
  | DifusionObjeto m =>
    let msgContent :=
      match extendedTextMessage (cuerpo m), quotedMessage m with
      | Some _, Some citado => citado
      | _, _ => cuerpo m
      end in
    if cadenaVerdadera (conversation msgContent)
    then inr (Some (Texto (default "" (conversation msgContent))))
    else match imageMessage msgContent with
    | Some media =>
      match descargar media with
      | inl err => inl err
      | inr buffer => inr (Some (Imagen buffer (oPorDefecto (caption msgContent) "")))
      end
    | None =>
    match videoMessage msgContent with
    | Some media =>
      match descargar media with
      | inl err => inl err
      | inr buffer => inr (Some (Video buffer (oPorDefecto (caption msgContent) "")))
      end
    | None =>
    match audioMessage msgContent with
    | Some media =>
      match descargar media with
      | inl err => inl err
      | inr buffer => inr (Some (Audio buffer (oPorDefecto (mimetype media) "audio/mpeg")))
      end
    | None =>
    match documentMessage msgContent with
    | Some media =>
      match descargar media with
      | inl err => inl err
      | inr buffer =>
        inr (Some (Documento buffer (oPorDefecto (mimetype media) "application/octet-stream")
                             (oPorDefecto (fileName media) "document")))
      end
    | None =>
    match stickerMessage msgContent with
    | Some media =>
      match descargar media with
      | inl err => inl err
      | inr buffer => inr (Some (Sticker buffer))
      end
    | None =>
    match extendedTextMessage msgContent with
    | Some (Some texto) =>
      if String.eqb texto "" then inr None else inr (Some (Texto texto))
    | _ => inr None
    end end end end end end
  end.

(** Lines 67-136: the loop over the recipients; [enviados] counts the
    sends that went through. *)
Fixpoint difundir (destinatarios : list string) (mensaje : Difusion) (enviados : nat)
  : M Mundo nat :=
  match destinatarios with
  | [] => mret enviados
  | destinatario :: resto =>
    match contenidoDifusion mensaje with
    | inr (Some c) =>
      sendMessage destinatario c;;
      difundir resto mensaje (S enviados)
    | inr None => difundir resto mensaje enviados
    | inl _ =>
      consoleError "Error enviando mensaje";;
      difundir resto mensaje enviados
    end
  end.

(** Lines 35-138 *)
Definition enviarBroadcast (mensaje : Difusion) : M Mundo nat :=
  archivo ← gets archivoEncargados;
  match archivo with
  | NoEsJson => consoleError "Error parsing encargados.json:";; mret O
  | Ilegible => consoleError "Error al leer encargados.json:";; mret O
  | NoExiste => difundir [] mensaje O
  | Json None => throw TypeError
  | Json (Some destinatarios) => difundir destinatarios mensaje O
  end.

(** Lines 140-167 *)
Definition enviarMenuPrincipal (remitente : string) : M Mundo unit :=
  vinculados ← obtenerAlumnosEncargado remitente;
  admin ← isAdmin remitente;
  establecerEstado remitente "MENU_PRINCIPAL" sinDatos;;
  sendMessage remitente (MenuPrincipal (length vinculados) admin).

(** Lines 175-217.  The text interpolates [estudiante.nombre.toUpperCase()],
    a method only a string has. *)
Definition enviarEstadoPagos (cfg : Columnas) (remitente : string)
    (estudiante : option Estudiante) : M Mundo unit :=
  match estudiante with
  | None => sendMessage remitente SinInformacion
  | Some e =>
    if negb (esVerdadero (nombre e)) then sendMessage remitente SinInformacion
    else
      ahora ← gets fechaLocal;
      deuda ← lift (StudentService.calcularDeuda cfg ahora e);
      match nombre e with
      | Cadena _ => sendMessage remitente (EstadoPagos e deuda)
      | _ => throw TypeError
      end
  end.

(** enviarMensajeConDelay: the wait is not modelled. *)
Definition enviarMensajeConDelay (remitente : string) (c : Contenido) : M Mundo unit :=
  sendMessage remitente c.

(** Lines 353-359 and 402-408: one line per linked student the ledger
    knows. *)
Fixpoint listarAlumnos (cfg : Columnas) (ids : list string) (lineas : list (Valor * Valor))
  : M Mundo (list (Valor * Valor)) :=
  match ids with
  | [] => mret lineas
  | idAlumno :: resto =>
    estudiante ← StudentService.buscarEstudiante cfg idAlumno;
    match estudiante with
    | Some e => listarAlumnos cfg resto (lineas ++ [(nombre e, grado e)])
    | None => listarAlumnos cfg resto lineas
    end
  end.

(** [estudiante.nombre] on the result of buscarEstudiante. *)
Definition nombreDe (estudiante : option Estudiante) : M Mundo Valor :=
  match estudiante with
  | Some e => mret (nombre e)
  | None => throw TypeError
  end.

(** Lines 468-475 and 491-498: the student id the text selects from the
    carried list, [None] when the text is no index into it.  The length of
    the list is read only for a number that is not negative; a list that is
    missing throws there. *)
Definition alumnoElegido (mensaje : string) (lista : option (list string))
  : M Mundo (option string) :=
  match parseInt10 mensaje with
  | None => mret None
  | Some n =>
    let indice := (n - 1)%Z in
    if (indice <? 0)%Z then mret None
    else match lista with
         | None => throw TypeError
         | Some l => mret (l !! Z.to_nat indice)
         end
  end.

(** Lines 308-426: the main menu. *)
Definition menuPrincipal (cfg : Columnas) (remitente mensaje : string)
    (vinculados : list string) (esPrimerMensajeDelDia : bool) : M Mundo unit :=
  if String.eqb mensaje "1" then
    establecerEstado remitente "REGISTRO_ID" sinDatos;;
    enviarMensajeConDelay remitente PedirIdentidad
  else if String.eqb mensaje "6" then
    admin ← isAdmin remitente;
    if (admin : bool) then
      establecerEstado remitente "MENU_ADMIN_BROADCAST" sinDatos;;
      enviarMensajeConDelay remitente MenuBroadcastAdmin
    else
      enviarMensajeConDelay remitente OpcionNoValida;;
      enviarMenuPrincipal remitente
  else if String.eqb mensaje "2" then
    match vinculados with
    | [] =>
      enviarMensajeConDelay remitente SinAlumnosRegistrados;;
      enviarMenuPrincipal remitente
    | [unico] =>
      estudiante ← StudentService.buscarEstudiante cfg unico;
      match estudiante with
      | Some e =>
        enviarEstadoPagos cfg remitente (Some e);;
        enviarMenuPrincipal remitente
      | None =>
        enviarMensajeConDelay remitente AlumnoRegistradoNoEncontrado;;
        enviarMenuPrincipal remitente
      end
    | _ =>
      lineas ← listarAlumnos cfg vinculados [];
      establecerEstado remitente "SELECCION_ALUMNO"
        {| idEstudiante := None; alumnos := Some vinculados |};;
      enviarMensajeConDelay remitente (ListaSeleccion lineas)
    end
  else if String.eqb mensaje "3" then
    enviarMensajeConDelay remitente InformacionEscuela
  else if String.eqb mensaje "4" then
    enviarMensajeConDelay remitente ContactoAdministracion
  else if String.eqb mensaje "5" then
    match vinculados with
    | [] =>
      enviarMensajeConDelay remitente SinAlumnosParaEliminar;;
      enviarMenuPrincipal remitente
    | _ =>
      lineas ← listarAlumnos cfg vinculados [];
      establecerEstado remitente "ELIMINAR_ALUMNO"
        {| idEstudiante := None; alumnos := Some vinculados |};;
      enviarMensajeConDelay remitente (ListaEliminar lineas)
    end
  else
    (if negb esPrimerMensajeDelDia
     then enviarMensajeConDelay remitente OpcionNoValidaDelMenu
     else mret tt);;
    enviarMenuPrincipal remitente.

(** Lines 428-446 *)
Definition registroId (cfg : Columnas) (remitente mensaje : string) : M Mundo unit :=
  if (String.length mensaje =? 13)%nat && soloDigitos mensaje then
    estudiante ← StudentService.buscarEstudiante cfg mensaje;
    match estudiante with
    | Some e =>
      establecerEstado remitente "REGISTRO_PIN"
        {| idEstudiante := Some mensaje; alumnos := None |};;
      enviarMensajeConDelay remitente (AlumnoEncontrado (nombre e))
    | None => enviarMensajeConDelay remitente IdentidadNoRegistrada
    end
  else enviarMensajeConDelay remitente FormatoIncorrecto.

(** Lines 448-465.  validarPIN holds for no undefined identifier, so the
    branch of a valid PIN has one. *)
Definition registroPin (cfg : Columnas) (remitente mensaje : string) (est : EstadoConv)
  : M Mundo unit :=
  pinValido ← validarPIN (idEstudiante (datos est)) mensaje;
  match idEstudiante (datos est) with
  | Some ident =>
    if (pinValido : bool) then
      registrarEncargado remitente ident;;
      estudiante ← StudentService.buscarEstudiante cfg ident;
      nom ← nombreDe estudiante;
      enviarMensajeConDelay remitente (RegistroExitoso nom);;
      setTimeout (MenuPrincipalPara remitente)
    else enviarMensajeConDelay remitente PinIncorrecto
  | None => enviarMensajeConDelay remitente PinIncorrecto
  end.

(** Lines 467-488 *)
Definition seleccionAlumno (cfg : Columnas) (remitente mensaje : string) (est : EstadoConv)
  : M Mundo unit :=
  elegido ← alumnoElegido mensaje (alumnos (datos est));
  match elegido with
  | None => enviarMensajeConDelay remitente SeleccionNoValida
  | Some idAlumno =>
    estudiante ← StudentService.buscarEstudiante cfg idAlumno;
    match estudiante with
    | Some e =>
      enviarEstadoPagos cfg remitente (Some e);;
      setTimeout (MenuPrincipalPara remitente)
    | None =>
      enviarMensajeConDelay remitente AlumnoSeleccionadoNoEncontrado;;
      enviarMenuPrincipal remitente
    end
  end.

(** Lines 490-513 *)
Definition eliminarAlumno (cfg : Columnas) (remitente mensaje : string) (est : EstadoConv)
  : M Mundo unit :=
  elegido ← alumnoElegido mensaje (alumnos (datos est));
  match elegido with
  | None => enviarMensajeConDelay remitente SeleccionNoValida
  | Some idAlumno =>
    estudiante ← StudentService.buscarEstudiante cfg idAlumno;
    eliminado ← eliminarRelacion remitente idAlumno;
    (if (eliminado : bool) then
       nom ← nombreDe estudiante;
       enviarMensajeConDelay remitente (AlumnoEliminado nom)
     else enviarMensajeConDelay remitente ErrorAlEliminar);;
    setTimeout (MenuPrincipalPara remitente)
  end.

(** Lines 307-518: the switch on [estado.estado]. *)
Definition segunEstado (cfg : Columnas) (remitente mensaje : string) (est : EstadoConv)
    (vinculados : list string) (esPrimerMensajeDelDia : bool) : M Mundo unit :=
  if String.eqb (estado est) "MENU_PRINCIPAL" then
    menuPrincipal cfg remitente mensaje vinculados esPrimerMensajeDelDia
  else if String.eqb (estado est) "REGISTRO_ID" then registroId cfg remitente mensaje
  else if String.eqb (estado est) "REGISTRO_PIN" then registroPin cfg remitente mensaje est
  else if String.eqb (estado est) "SELECCION_ALUMNO" then
    seleccionAlumno cfg remitente mensaje est
  else if String.eqb (estado est) "ELIMINAR_ALUMNO" then
    eliminarAlumno cfg remitente mensaje est
  else enviarMenuPrincipal remitente.

(** Lines 235-519 *)
Definition procesarMensaje (cfg : Columnas) (remitente mensaje : string)
    (mensajeObj : MensajeWA) : M Mundo unit :=
  est ← obtenerEstado remitente;
  vinculados ← obtenerAlumnosEncargado remitente;
  let textoMinuscula := toLowerCase mensaje in
  hoy ← gets fechaIso;
  ultimoSaludo ← obtenerUltimoSaludo remitente;
  if negb (bool_decide (ultimoSaludo = Some hoy)) then
    establecerUltimoSaludo remitente hoy;;
    enviarMensajeConDelay remitente Saludo;;
    establecerEstado remitente "MENU_PRINCIPAL" sinDatos;;
    enviarMenuPrincipal remitente
  else
    let esPrimerMensajeDelDia := false in
    if String.eqb (estado est) "MENU_ADMIN_BROADCAST" then
      admin ← isAdmin remitente;
      if negb (admin : bool) then
        sendMessage remitente PermisoDenegado;;
        establecerEstado remitente "MENU_PRINCIPAL" sinDatos;;
        enviarMenuPrincipal remitente
      else
        enviados ← enviarBroadcast (DifusionObjeto mensajeObj);
        sendMessage remitente (BroadcastEnviado enviados);;
        establecerEstado remitente "MENU_PRINCIPAL" sinDatos;;
        enviarMenuPrincipal remitente
    else if startsWith textoMinuscula "broadcast " || startsWith textoMinuscula "bc " then
      admin ← isAdmin remitente;
      if negb (admin : bool) then sendMessage remitente PermisoDenegado
      else
        let textoBroadcast :=
          if startsWith textoMinuscula "broadcast "
          then trim (substring 10 (String.length mensaje - 10) mensaje)
          else trim (substring 3 (String.length mensaje - 3) mensaje) in
        enviados ← enviarBroadcast (DifusionTexto textoBroadcast);
        sendMessage remitente (BroadcastEnviado enviados)
    else if String.eqb textoMinuscula "menu" || String.eqb textoMinuscula "menú" then
      enviarMenuPrincipal remitente
    else segunEstado cfg remitente mensaje est vinculados esPrimerMensajeDelDia.

(** Lines 606-612: the text of a message, trimmed; empty when it has
    none.  An extendedTextMessage without a text throws. *)
Definition textoDe (m : MensajeWA) : Excepcion + string :=
  if cadenaVerdadera (conversation (cuerpo m))
  then inr (trim (default "" (conversation (cuerpo m))))
  else match extendedTextMessage (cuerpo m) with
       | Some (Some t) => inr (trim t)
       | Some None => inl TypeError
       | None => inr ""
       end.

(** Lines 602-618: the messages.upsert handler.  No statement of it is
    inside a try block. *)
Definition alRecibirMensajes (cfg : Columnas) (messages : list Msg) : M Mundo unit :=
  match messages with
  | [] => throw TypeError
  | msg :: _ =>
    match message msg with
    | Some m =>
      if negb (fromMe msg) then
        let remitente := remoteJid msg in
        texto ← lift (textoDe m);
        if negb (String.eqb texto "") then procesarMensaje cfg remitente texto m
        else mret tt
      else mret tt
    | None => mret tt
    end
  end.

(** *** The dialogue in the words of the specification *)

(** The greeting of today was already sent to the user: the message at
    hand is not its first of the calendar day. *)
Definition yaSaludadoHoy (w : Mundo) (remitente : string) : Prop :=
  saludos w !! remitente = Some (fechaIso w).

(** The keyword override: the lower-cased text is "menu" or "menú". *)
Definition esPalabraMenu (mensaje : string) : bool :=
  String.eqb (toLowerCase mensaje) "menu" || String.eqb (toLowerCase mensaje) "menú".

(** The reserved command prefix. *)
Definition esComandoBroadcast (mensaje : string) : bool :=
  startsWith (toLowerCase mensaje) "broadcast " || startsWith (toLowerCase mensaje) "bc ".

(** Exactly 13 decimal digits. *)
Definition esIdentidad (mensaje : string) : bool :=
  (String.length mensaje =? 13)%nat && soloDigitos mensaje.

(** The conversation state of a user. *)
Definition estadoDe (w : Mundo) (remitente : string) : EstadoConv :=
  default {| estado := "MENU_PRINCIPAL"; datos := sinDatos |} (estados w !! remitente).

(** The world after one more message was sent. *)
Definition trasEnviar (remitente : string) (c : Contenido) (w : Mundo) : Mundo :=
  con_enviados (enviados w ++ [(remitente, c)]) w.

(** The world after the state of a user was set. *)
Definition trasEstablecer (remitente est : string) (d : Datos) (w : Mundo) : Mundo :=
  con_estados (<[remitente := {| estado := est; datos := d |}]> (estados w)) w.

(** The conversation records of every user but [remitente] are as they
    were: state, data and greeting date. *)
Definition ajenoIntacto (remitente : string) (w w' : Mundo) : Prop :=
  forall otro, otro <> remitente ->
    estados w' !! otro = estados w !! otro /\ saludos w' !! otro = saludos w !! otro.

(** Nothing but the workbook cache, the pending network outcomes and the
    console differs between the two worlds. *)
Definition soloLibro (w w' : Mundo) : Prop :=
  reloj w' = reloj w /\ fechaLocal w' = fechaLocal w /\ fechaIso w' = fechaIso w /\
  archivoEncargados w' = archivoEncargados w /\
  estados w' = estados w /\ saludos w' = saludos w /\ encargados w' = encargados w /\
  pines w' = pines w /\ admins w' = admins w /\
  enviados w' = enviados w /\ temporizadores w' = temporizadores w.

(** A computation whose every run relates the world before to the world
    after, whether it returns or throws. *)
Definition preserva {A : Type} (R : Mundo -> Mundo -> Prop) (c : M Mundo A) : Prop :=
  forall w w' r, c w = (w', r) -> R w w'.

(** *** Sample data *)

Definition encargadoDeMuestra : string := "50499990000@s.whatsapp.net".
Definition adminDeMuestra : string := "50488880000@s.whatsapp.net".

Definition mensajeDeTexto (texto : string) : MensajeWA :=
  {| cuerpo := {| conversation := Some texto; extendedTextMessage := None;
                  imageMessage := None; videoMessage := None; audioMessage := None;
                  documentMessage := None; stickerMessage := None; caption := None |};
     quotedMessage := None |}.

(** Both users were greeted today.  The guardian is choosing which of two
    linked students to remove, the second of which is in no ledger row; the
    administrator has opened the broadcast menu. *)
Definition mundoDeMuestra : Mundo :=
  {| cachedWorkbook := Some [("Matricula 2025", StudentService.hojaRepetida)];
     lastFetchTime := 1750411200000; reloj := 1750411800000;
     fechaLocal := StudentService.veinteDeJunio; fechaIso := "2025-06-20";
     red := [];
     archivoEncargados := Json (Some [encargadoDeMuestra; "50477770000@s.whatsapp.net"]);
     estados := {[ encargadoDeMuestra :=
                     {| estado := "ELIMINAR_ALUMNO";
                        datos := {| idEstudiante := None;
                                    alumnos := Some ["0801201012345"; "0801201099999"] |} |};
                   adminDeMuestra :=
                     {| estado := "MENU_ADMIN_BROADCAST"; datos := sinDatos |} ]};
     saludos := {[ encargadoDeMuestra := "2025-06-20"; adminDeMuestra := "2025-06-20" ]};
     encargados := {[ encargadoDeMuestra := ["0801201012345"; "0801201099999"] ]};
     pines := {[ "0801201012345" := "4321" ]};
     admins := {[ adminDeMuestra ]};
     enviados := []; temporizadores := []; consola := [] |}.

(** The same, with the guardian waiting to type an identity number. *)
Definition mundoEnRegistro : Mundo :=
  trasEstablecer encargadoDeMuestra "REGISTRO_ID" sinDatos mundoDeMuestra.

(** The same, before the guardian was greeted today. *)
Definition mundoSinSaludo : Mundo :=
  con_saludos (delete encargadoDeMuestra (saludos mundoEnRegistro)) mundoEnRegistro.

End BotController.

(** ** The Dropbox download cache (the fourth source file) *)

Module DropboxService.

Local Open Scope Z_scope.

(** What Dropbox holds at a path. *)
Record Remoto : Type := {
  rev : string;
  fileBinary : string;
  server_modified : string
}.

(** A file of the cache directory: a downloaded blob, or the metadata
    written next to it.  Parsing a blob as JSON throws. *)
Inductive Archivo : Type :=
| Binario (contenido : string)
| Metadatos (rev server_modified cached_at : string).

(** The calls made to the Dropbox API. *)
Inductive Llamada : Type :=
| PedirToken
| FilesGetMetadata (path : string)
| FilesDownload (path : string).

(** Fields:
    - [dropboxInstance]: the client, with the token it was built with
    - [accessToken], [lastTokenRefresh]: the module variables
    - [archivos]: the files of the cache directory, by path
    - [reloj], [fechaIso]: what new Date() reads, as a number and as ISO text
    - [nube]: what Dropbox holds at each path
    - [tokenNuevo]: the access_token of the next token response
    - [guion]: how each coming API call ends, [None] for success; with none
      left the calls succeed
    - [llamadas]: the API calls made so far, oldest first, and whether each
      one succeeded.
    Writing a file is taken to succeed; console output is left out. *)
Record Entorno : Type := {
  dropboxInstance : option (option string);
  accessToken : option string;
  lastTokenRefresh : option Z;
  archivos : gmap string Archivo;
  reloj : Z;
  fechaIso : string;
  nube : gmap string Remoto;
  tokenNuevo : option string;
  guion : list (option Excepcion);
  llamadas : list (Llamada * bool)
}.

Definition con_instancia (v : option (option string)) (w : Entorno) : Entorno :=
  {| dropboxInstance := v; accessToken := accessToken w;
     lastTokenRefresh := lastTokenRefresh w; archivos := archivos w;
     reloj := reloj w; fechaIso := fechaIso w; nube := nube w;
     tokenNuevo := tokenNuevo w; guion := guion w; llamadas := llamadas w |}.

Definition con_token (t : option string) (cuando : option Z) (w : Entorno) : Entorno :=
  {| dropboxInstance := dropboxInstance w; accessToken := t;
     lastTokenRefresh := cuando; archivos := archivos w;
     reloj := reloj w; fechaIso := fechaIso w; nube := nube w;
     tokenNuevo := tokenNuevo w; guion := guion w; llamadas := llamadas w |}.

Definition con_archivos (v : gmap string Archivo) (w : Entorno) : Entorno :=
  {| dropboxInstance := dropboxInstance w; accessToken := accessToken w;
     lastTokenRefresh := lastTokenRefresh w; archivos := v;
     reloj := reloj w; fechaIso := fechaIso w; nube := nube w;
     tokenNuevo := tokenNuevo w; guion := guion w; llamadas := llamadas w |}.

Definition con_llamada (l : Llamada) (exito : bool) (w : Entorno) : Entorno :=
  {| dropboxInstance := dropboxInstance w; accessToken := accessToken w;
     lastTokenRefresh := lastTokenRefresh w; archivos := archivos w;
     reloj := reloj w; fechaIso := fechaIso w; nube := nube w;
     tokenNuevo := tokenNuevo w; guion := tail (guion w);
     llamadas := llamadas w ++ [(l, exito)] |}.

(** An API call: it ends the way the script says, and is recorded. *)
Definition llamar {A : Type} (l : Llamada) (respuesta : Entorno -> Excepcion + A)
  : M Entorno A :=
  fun w => match guion w with
           | Some err :: _ => (con_llamada l false w, inl err)
           | _ => match respuesta w with
                  | inl err => (con_llamada l false w, inl err)
                  | inr a => (con_llamada l true w, inr a)
                  end
           end.

Definition enLaNube (path : string) (w : Entorno) : Excepcion + Remoto :=
  match nube w !! path with
  | Some r => inr r
  | None => inl (ErrorRemoto 409 "path/not_found")
  end.

(** Lines 31-63 *)
Definition refreshDropboxToken : M Entorno (option string) :=
  tryCatch
    (token ← llamar PedirToken (fun w => inr (tokenNuevo w));
     ahora ← gets reloj;
     modify (con_token token (Some ahora));;
     mret token)
    (fun _ => throw (ErrorDe "No se pudo renovar el token de acceso a Dropbox")).

Definition tokenVerdadero (t : option string) : bool :=
  match t with
  | Some s => negb (String.eqb s "")
  | None => false
  end.

(** Lines 66-80: the client; it keeps the token it was built with. *)
Definition getDropboxClient : M Entorno unit :=
  token ← gets accessToken;
  ultimo ← gets lastTokenRefresh;
  ahora ← gets reloj;
  (if negb (tokenVerdadero token) ||
      match ultimo with
      | Some t => 3600000 <? ahora - t
      | None => false
      end
   then refreshDropboxToken;; mret tt
   else mret tt);;
  instancia ← gets dropboxInstance;
  match instancia with
  | Some _ => mret tt
  | None => token' ← gets accessToken; modify (con_instancia (Some token'))
  end.

Record Opciones : Type := {
  maxRetries : nat;
  useCache : bool;
  forceRefresh : bool
}.

(** The defaults of line 102-106. *)
Definition opcionesPorDefecto : Opciones :=
  {| maxRetries := 3; useCache := true; forceRefresh := false |}.

(** Line 150: the failures that mean an expired token. *)
Definition tokenExpirado (err : Excepcion) : bool :=
  match err with
  | ErrorRemoto status etiqueta => (status =? 401) || String.eqb etiqueta "expired_access_token"
  | _ => false
  end.

Section ConClave.

(** crypto's SHA-256 digest in hexadecimal, taken as given. *)
Variable getCacheKey : string -> string.

Definition getCachedFilePath (dropboxPath : string) : string :=
  "/tmp/dropbox_cache_v2/" +:+ getCacheKey dropboxPath.

Definition metaPathDe (cachedPath : string) : string := cachedPath +:+ ".meta".

(** Lines 112-125: [Some cachedPath] when the stored revision is the one
    Dropbox reports; whatever is thrown on the way is swallowed. *)
Definition verificarCache (dropboxPath : string) (opts : Opciones) : M Entorno (option string) :=
  let cachedPath := getCachedFilePath dropboxPath in
  let metaPath := metaPathDe cachedPath in
  fs ← gets archivos;
  if useCache opts && negb (forceRefresh opts) &&
     bool_decide (is_Some (fs !! cachedPath)) && bool_decide (is_Some (fs !! metaPath))
  then
    tryCatch
      (meta ← match fs !! metaPath with
              | Some (Metadatos r _ _) => mret r
              | _ => throw (ErrorDe "JSON.parse")
              end;
       getDropboxClient;;
       currentMeta ← llamar (FilesGetMetadata dropboxPath) (enLaNube dropboxPath);
       if String.eqb (rev currentMeta) meta then mret (Some cachedPath) else mret None)
      (fun _ => mret None)
  else mret None.

(** Lines 133-145: one attempt, in the try block. *)
Definition intentar (dropboxPath : string) : M Entorno string :=
  let cachedPath := getCachedFilePath dropboxPath in
  let metaPath := metaPathDe cachedPath in
  getDropboxClient;;
  response ← llamar (FilesDownload dropboxPath) (enLaNube dropboxPath);
  cuando ← gets fechaIso;
  modify (fun w => con_archivos (<[cachedPath := Binario (fileBinary response)]> (archivos w)) w);;
  modify (fun w => con_archivos
                     (<[metaPath := Metadatos (rev response) (server_modified response) cuando]>
                        (archivos w)) w);;
  mret cachedPath.

(** Lines 130-164: the loop, with [restantes = maxRetries - attempt]
    attempts left, and the final throw. *)
Fixpoint reintentar (dropboxPath : string) (restantes : nat) (lastError : option Excepcion)
  : M Entorno string :=
  match restantes with
  | O => throw (default (ErrorDe ("Error al descargar " +:+ dropboxPath)) lastError)
  | S n =>
    fun w =>
      match intentar dropboxPath w with
      | (w', inr cachedPath) => (w', inr cachedPath)
      | (w', inl error) =>
        if tokenExpirado error then
          (modify (fun w => con_token None (lastTokenRefresh w) (con_instancia None w));;
           refreshDropboxToken;;
           reintentar dropboxPath n (Some error)) w'
        else (w', inl error)
      end
  end.

(** Lines 101-165 *)
Definition downloadWithRetry (dropboxPath : string) (opts : Opciones) : M Entorno string :=
  enCache ← verificarCache dropboxPath opts;
  match enCache with
  | Some cachedPath => mret cachedPath
  | None => reintentar dropboxPath (maxRetries opts) None
  end.

End ConClave.

(** *** The cache in the words of the specification *)

(** The full downloads among the recorded calls: the FilesDownload calls
    that succeeded. *)
Definition descargasCompletas (w : Entorno) : nat :=
  length (List.filter (fun '(l, exito) => match l with
                                          | FilesDownload _ => exito
                                          | _ => false
                                          end) (llamadas w)).

(** The cache entry of a path: its blob together with the fingerprint
    stored for it. *)
Definition entrada (getCacheKey : string -> string) (dropboxPath : string) (w : Entorno)
  : option Archivo * option Archivo :=
  (archivos w !! getCachedFilePath getCacheKey dropboxPath,
   archivos w !! metaPathDe (getCachedFilePath getCacheKey dropboxPath)).

(** A step that leaves the cache directory, the remote store and the count
    of full downloads as they were. *)
Definition conserva (w w' : Entorno) : Prop :=
  archivos w' = archivos w /\ nube w' = nube w /\ fechaIso w' = fechaIso w /\
  descargasCompletas w' = descargasCompletas w.

(** A step that made one full download of what Dropbox holds at the path
    and wrote the blob and its fingerprint, both of them. *)
Definition descargado (getCacheKey : string -> string) (dropboxPath : string)
    (w w' : Entorno) : Prop :=
  exists r, nube w !! dropboxPath = Some r /\
    archivos w' =
      <[metaPathDe (getCachedFilePath getCacheKey dropboxPath) :=
          Metadatos (rev r) (server_modified r) (fechaIso w)]>
        (<[getCachedFilePath getCacheKey dropboxPath := Binario (fileBinary r)]> (archivos w)) /\
    descargasCompletas w' = S (descargasCompletas w) /\
    nube w' = nube w /\ fechaIso w' = fechaIso w.

(** *** Sample data *)

Definition claveDeMuestra (path : string) : string := "k" +:+ path.

Definition entornoInicial : Entorno :=
  {| dropboxInstance := None; accessToken := None; lastTokenRefresh := None;
     archivos := ∅; reloj := 1750411800000; fechaIso := "2025-06-20T09:30:00.000Z";
     nube := {[ "/cuentas.xlsx" := {| rev := "015f"; fileBinary := "PK1";
                                      server_modified := "2025-06-19T00:00:00Z" |} ]};
     tokenNuevo := Some "sl.A"; guion := []; llamadas := [] |}.

(** The cache as a first download of the sample path leaves it, the client
    and its token ten minutes old, the same revision upstream, and Dropbox
    rejecting the next call. *)
Definition entornoSinMetadatos : Entorno :=
  {| dropboxInstance := Some (Some "sl.A"); accessToken := Some "sl.A";
     lastTokenRefresh := Some 1750411200000;
     archivos := {[ "/tmp/dropbox_cache_v2/k/cuentas.xlsx" := Binario "PK1";
                    "/tmp/dropbox_cache_v2/k/cuentas.xlsx.meta" :=
                      Metadatos "015f" "2025-06-19T00:00:00Z" "2025-06-20T09:30:00.000Z" ]};
     reloj := 1750411800000; fechaIso := "2025-06-20T09:40:00.000Z";
     nube := {[ "/cuentas.xlsx" := {| rev := "015f"; fileBinary := "PK1";
                                      server_modified := "2025-06-19T00:00:00Z" |} ]};
     tokenNuevo := Some "sl.B";
     guion := [Some (ErrorRemoto 503 "internal_error")]; llamadas := [] |}.

End DropboxService.

(** ** Further sample data *)

Module Muestras.

Import StudentService.

(** A workbook with no sheet named "Matricula 2025": the ledger is its
    sixth worksheet. *)
Definition libroSinNombre : Libro :=
  [("Hoja1", []); ("Hoja2", []); ("Hoja3", []); ("Hoja4", []); ("Hoja5", []);
   ("Cuentas", hojaRepetida)].

(** The cached workbook is one hour and one second old; the first request
    fails and the second brings the workbook above. *)
Definition mundoVencido : Mundo :=
  con_red [None; Some (Some libroSinNombre)]
    (con_lastFetchTime 1750408199000 mundoConLibro).

(** The same, with three failing requests ahead. *)
Definition mundoSinRed : Mundo :=
  con_red [None; None; None; Some (Some libroSinNombre)]
    (con_lastFetchTime 1750408199000 mundoConLibro).



(** A row whose amount cell is a formula that evaluates to a text. *)
Definition filaConFormula : gmap string Valor :=
  {[ "A" := Cadena "LUIS PAZ"; "B" := Cadena "0801201012346"; "C" := Cadena "8";
     "G" := Objeto Indefinido (Cadena "500"); "H" := Numero 11 ]}.

Definition luisDeLaFila : Estudiante :=
  {| nombre := Cadena "LUIS PAZ"; grado := Cadena "8"; id := "0801201012346";
     planDePago := Numero 11; meses := leerMeses columnasDeMuestra filaConFormula;
     totalPagar := Cadena "500"; valorCeldaOriginal := Objeto Indefinido (Cadena "500") |}.

(** 15 January 2025, noon. *)
Definition quinceDeEnero : Ahora :=
  {| anio := 2025; mesIndice := 0; dia := 15; msDelDia := 43200000 |}.

End Muestras.

(** ** Counting the calls made to the Dropbox API *)

Module Conteo.

Import DropboxService.

Definition esDescarga (l : Llamada) : bool :=
  match l with FilesDownload _ => true | _ => false end.

Definition esMetadatos (l : Llamada) : bool :=
  match l with FilesGetMetadata _ => true | _ => false end.

Definition esToken (l : Llamada) : bool :=
  match l with PedirToken => true | _ => false end.

(** The recorded calls of one kind, failed ones included. *)
Definition cuenta (p : Llamada -> bool) (w : Entorno) : nat :=
  length (List.filter (fun '(l, _) => p l) (llamadas w)).

(** Between [w] and [w'] at most [a] download calls, [b] metadata calls and
    [c] token requests were made. *)
Definition cota (a b c : nat) (w w' : Entorno) : Prop :=
  (cuenta esDescarga w <= cuenta esDescarga w' <= cuenta esDescarga w + a)%nat /\
  (cuenta esMetadatos w <= cuenta esMetadatos w' <= cuenta esMetadatos w + b)%nat /\
  (cuenta esToken w <= cuenta esToken w' <= cuenta esToken w + c)%nat.

(** A client built with an old token, a token that is two hours old, and a
    cache entry for the sample path at the revision Dropbox holds. *)
Definition entornoConCliente : Entorno :=
  {| dropboxInstance := Some (Some "sl.viejo"); accessToken := Some "sl.viejo";
     lastTokenRefresh := Some 1750404600000%Z;
     archivos := {[ "/tmp/dropbox_cache_v2/k/cuentas.xlsx" := Binario "PK0";
                    "/tmp/dropbox_cache_v2/k/cuentas.xlsx.meta" :=
                      Metadatos "015f" "2025-06-19T00:00:00Z" "2025-06-19T10:00:00.000Z" ]};
     reloj := 1750411800000%Z; fechaIso := "2025-06-20T09:30:00.000Z";
     nube := {[ "/cuentas.xlsx" := {| rev := "015f"; fileBinary := "PK1";
                                      server_modified := "2025-06-19T00:00:00Z" |} ]};
     tokenNuevo := Some "sl.B"; guion := []; llamadas := [] |}.

(** A client with a token of ten minutes ago, which Dropbox rejects as
    expired on the first call. *)
Definition entornoExpirado : Entorno :=
  {| dropboxInstance := Some (Some "sl.viejo"); accessToken := Some "sl.viejo";
     lastTokenRefresh := Some 1750411200000%Z;
     archivos := ∅;
     reloj := 1750411800000%Z; fechaIso := "2025-06-20T09:30:00.000Z";
     nube := {[ "/cuentas.xlsx" := {| rev := "015f"; fileBinary := "PK1";
                                      server_modified := "2025-06-19T00:00:00Z" |} ]};
     tokenNuevo := Some "sl.B";
     guion := [Some (ErrorRemoto 401%Z "expired_access_token")]; llamadas := [] |}.

End Conteo.

(** ** What handling a message may change *)

Module Marcos.

(** Between [w] and [w'] the clock, the recipients file, the greeting
    dates, the PINs and the privileged users stayed as they were; so did
    the conversation record and the links of every user but [remitente];
    the messages sent were added at the end and all satisfy [P]; and the
    menu callbacks scheduled were added at the end and all are for
    [remitente]. *)
Definition alcance (P : string * Contenido -> Prop) (remitente : string) (w w' : Mundo)
  : Prop :=
  reloj w' = reloj w /\ fechaLocal w' = fechaLocal w /\ fechaIso w' = fechaIso w /\
  archivoEncargados w' = archivoEncargados w /\
  saludos w' = saludos w /\ pines w' = pines w /\ admins w' = admins w /\
  (forall otro, otro <> remitente ->
     estados w' !! otro = estados w !! otro /\
     encargados w' !! otro = encargados w !! otro) /\
  (exists nuevos, enviados w' = enviados w ++ nuevos /\ Forall P nuevos) /\
  (exists nuevas, temporizadores w' = temporizadores w ++ nuevas /\
     Forall (fun t => t = MenuPrincipalPara remitente) nuevas).

(** A message that is not the greeting. *)
Definition sinSaludo (p : string * Contenido) : Prop := snd p <> Saludo.

(** A message addressed to [remitente]. *)
Definition paraEl (remitente : string) (p : string * Contenido) : Prop := fst p = remitente.

(** [remitente] did not enter the broadcast menu between [w] and [w']: it
    is there at the end only if it was there at the start. *)
Definition sinEntrar (remitente : string) (w w' : Mundo) : Prop :=
  estado (BotController.estadoDe w' remitente) = "MENU_ADMIN_BROADCAST" ->
  estado (BotController.estadoDe w remitente) = "MENU_ADMIN_BROADCAST".

(** An incoming picture with a caption and no text of its own. *)
Definition fotoConPie : Msg :=
  {| fromMe := false; remoteJid := BotController.adminDeMuestra;
     message :=
       Some {| cuerpo := {| conversation := None; extendedTextMessage := None;
                            imageMessage := Some {| descarga := Some "JPEG";
                                                    mimetype := Some "image/jpeg";
                                                    fileName := None |};
                            videoMessage := None; audioMessage := None;
                            documentMessage := None; stickerMessage := None;
                            caption := Some "Aviso" |};
               quotedMessage := None |} |}.

(** The sample world with the guardian about to type the PIN of the first
    ledger student. *)
Definition mundoEnPin : Mundo :=
  BotController.trasEstablecer BotController.encargadoDeMuestra "REGISTRO_PIN"
    {| idEstudiante := Some "0801201012345"; alumnos := None |}
    (con_encargados ∅ BotController.mundoDeMuestra).

(** The sample world with the guardian in the main menu, the cached
    workbook one hour and one second old, and the network down. *)
Definition mundoSinLibro : Mundo :=
  con_red [None; None; None]
    (con_lastFetchTime 1750408199000
       (BotController.trasEstablecer BotController.encargadoDeMuestra "MENU_PRINCIPAL"
          sinDatos BotController.mundoDeMuestra)).

End Marcos.

(** * Properties *)

(** ** Calendar arithmetic *)

Section Calendario.

Import JS.
Local Open Scope Z_scope.

Lemma DayFromYear_succ (y : Z) :
  DayFromYear (y + 1) = DayFromYear y + 365 + (if esBisiesto y then 1 else 0).
Proof.
  unfold DayFromYear, esBisiesto.
  destruct (Z.eqb_spec (y mod 4) 0), (Z.eqb_spec (y mod 100) 0),
           (Z.eqb_spec (y mod 400) 0); cbn [negb andb orb];
    Z.div_mod_to_equations; lia.
Qed.

Lemma diasAntesDeMes_succ (b : bool) (m : Z) :
  0 <= m <= 10 -> diasAntesDeMes b (m + 1) = diasAntesDeMes b m + diasDelMes b m.
Proof.
  intros H.
  assert (m = 0 \/ m = 1 \/ m = 2 \/ m = 3 \/ m = 4 \/ m = 5 \/ m = 6 \/ m = 7 \/
          m = 8 \/ m = 9 \/ m = 10) as Hm by lia.
  destruct b; repeat (destruct Hm as [-> | Hm]); try subst m; reflexivity.
Qed.

Lemma diasAntesDeMes_mono (b : bool) (m m' : Z) :
  0 <= m -> m < m' <= 11 ->
  diasAntesDeMes b m + diasDelMes b m <= diasAntesDeMes b m'.
Proof.
  intros H0 H.
  assert (exists k : nat, m' = m + 1 + Z.of_nat k) as [k ->]
    by (exists (Z.to_nat (m' - m - 1)); lia).
  induction k as [| k IH].
  - rewrite Z.add_0_r, diasAntesDeMes_succ by lia. lia.
  - replace (m + 1 + Z.of_nat (S k)) with ((m + 1 + Z.of_nat k) + 1) by lia.
    rewrite diasAntesDeMes_succ by lia.
    assert (0 <= diasDelMes b (m + 1 + Z.of_nat k)).
    { unfold diasDelMes. repeat case_match; lia. }
    specialize (IH ltac:(lia)). lia.
Qed.

Lemma diasAntesDeMes_anio (b : bool) (m : Z) :
  0 <= m <= 11 -> diasAntesDeMes b m + diasDelMes b m <= 365 + (if b then 1 else 0).
Proof.
  intros H.
  assert (m = 0 \/ m = 1 \/ m = 2 \/ m = 3 \/ m = 4 \/ m = 5 \/ m = 6 \/ m = 7 \/
          m = 8 \/ m = 9 \/ m = 10 \/ m = 11) as Hm by lia.
  destruct b; repeat (destruct Hm as [-> | Hm]); try subst m; cbn; lia.
Qed.

Lemma MakeDay_en_rango (y m d : Z) :
  0 <= m <= 11 -> MakeDay y m d = DayFromYear y + diasAntesDeMes (esBisiesto y) m + d - 1.
Proof.
  intros H. unfold MakeDay.
  rewrite Z.div_small, Z.mod_small, Z.add_0_r by lia. reflexivity.
Qed.

Lemma MakeDay_mes_12 (y d : Z) : MakeDay y 12 d = DayFromYear (y + 1) + d - 1.
Proof. unfold MakeDay. change (12 / 12) with 1. change (12 mod 12) with 0. cbn. lia. Qed.

Lemma DayFromYear_cotas (y : Z) :
  100 <= y <= 275760 -> -700000 <= DayFromYear y <= 99999744.
Proof. intros H. unfold DayFromYear. Z.div_mod_to_equations. lia. Qed.

End Calendario.

(** ** The debt calculator *)

Section Deuda.

Import JS StudentService.
Local Open Scope Z_scope.

(** The comparison of time values the code makes agrees with the
    comparison of calendar fields, for each period number 1..12. *)
Lemma vencido_segun_calendario (ahora : Ahora) (p : Z) :
  relojValido ahora -> 1 <= p <= 12 ->
  vencido ahora p = despuesDelDia11 ahora (mesSiguiente ahora p).
Proof.
  intros (Hy & Hm & Hd & Hms) Hp.
  unfold vencido, mesSiguiente, despuesDelDia11, nuevaFecha, valorTiempo,
    mesActual, fechaMayor, TimeClip, MakeDate.
  pose proof (DayFromYear_cotas (anio ahora) ltac:(lia)) as Hc.
  pose proof (DayFromYear_cotas (anio ahora + 1) ltac:(lia)) as Hc1.
  pose proof (DayFromYear_succ (anio ahora)) as Hs.
  pose proof (diasAntesDeMes_anio (esBisiesto (anio ahora)) (mesIndice ahora) Hm) as Ha.
  rewrite (MakeDay_en_rango (anio ahora) (mesIndice ahora)) by lia.
  assert (0 <= diasAntesDeMes (esBisiesto (anio ahora)) (mesIndice ahora)) as Hn.
  { unfold diasAntesDeMes. repeat case_match; lia. }
  unfold msPerDay in *.
  destruct (Z.eqb_spec p 12) as [-> | Hp12].
  - destruct (Z.eqb_spec (mesIndice ahora + 1) 1) as [H1 | H1]; cbn [andb].
    + assert (mesIndice ahora = 0) as H0 by lia.
      rewrite H0 in *. cbn [diasAntesDeMes] in *.
      replace ((0 <=? anio ahora - 1) && (anio ahora - 1 <=? 99)) with false by lia.
      rewrite MakeDay_mes_12. replace (anio ahora - 1 + 1) with (anio ahora) by lia.
      replace (Z.abs ((DayFromYear (anio ahora) + 11 - 1) * 86400000 + 0)
               <=? 8640000000000000) with true by lia.
      rewrite Z.ltb_irrefl, Z.eqb_refl. cbn [orb andb].
      replace (1 <? 0 + 1) with false by lia. rewrite Z.eqb_refl. cbn [orb andb].
      destruct (Z.ltb_spec 11 (dia ahora)), (Z.eqb_spec (dia ahora) 11),
               (Z.ltb_spec 0 (msDelDia ahora)); cbn [orb andb]; lia.
    + replace ((0 <=? anio ahora) && (anio ahora <=? 99)) with false by lia.
      rewrite MakeDay_mes_12.
      replace (Z.abs ((DayFromYear (anio ahora + 1) + 11 - 1) * 86400000 + 0)
               <=? 8640000000000000) with true by lia.
      replace (anio ahora + 1 <? anio ahora) with false by lia.
      replace (anio ahora + 1 =? anio ahora) with false by lia.
      cbn [orb andb].
      destruct (esBisiesto (anio ahora)); lia.
  - cbn [andb].
    replace ((0 <=? anio ahora) && (anio ahora <=? 99)) with false by lia.
    rewrite (MakeDay_en_rango (anio ahora) p) by lia.
    pose proof (diasAntesDeMes_anio (esBisiesto (anio ahora)) p ltac:(lia)) as Hap.
    assert (0 <= diasAntesDeMes (esBisiesto (anio ahora)) p /\
            28 <= diasDelMes (esBisiesto (anio ahora)) p) as [Hnp Hdp].
    { unfold diasAntesDeMes, diasDelMes. repeat case_match; lia. }
    replace (Z.abs ((DayFromYear (anio ahora) + diasAntesDeMes (esBisiesto (anio ahora)) p
                     + 11 - 1) * 86400000 + 0) <=? 8640000000000000) with true by lia.
    rewrite Z.ltb_irrefl, Z.eqb_refl. cbn [orb andb].
    destruct (Z.lt_trichotomy (mesIndice ahora) p) as [Hlt | [Heq | Hgt]].
    + pose proof (diasAntesDeMes_mono (esBisiesto (anio ahora)) (mesIndice ahora) p
                    ltac:(lia) ltac:(lia)).
      replace (p + 1 <? mesIndice ahora + 1) with false by lia.
      replace (p + 1 =? mesIndice ahora + 1) with false by lia.
      cbn [orb andb]. lia.
    + subst p.
      rewrite Z.ltb_irrefl, Z.eqb_refl. cbn [orb andb].
      destruct (Z.ltb_spec 11 (dia ahora)), (Z.eqb_spec (dia ahora) 11),
               (Z.ltb_spec 0 (msDelDia ahora)); cbn [orb andb]; lia.
    + pose proof (diasAntesDeMes_mono (esBisiesto (anio ahora)) p (mesIndice ahora)
                    ltac:(lia) ltac:(lia)).
      replace (p + 1 <? mesIndice ahora + 1) with true by lia.
      cbn [orb andb]. lia.
Qed.






Lemma enBlanco_sinPago (celda : option Valor) : enBlanco celda = sinPago celda.
Proof. destruct celda as [[] |]; reflexivity. Qed.


Lemma pendientes_num (cfg : Columnas) (ahora : Ahora) (e : Estudiante) (m : Mes) :
  In m (pendientes cfg ahora e) -> 1 <= num m <= mesActual ahora.
Proof.
  unfold pendientes. intros H.
  apply List.filter_In in H as [H _]. apply List.filter_In in H as [H Hr].
  unfold listaMeses in H. apply list_elem_of_In, elem_of_lookup_imap in H.
  destruct H as (i & [mes col] & -> & _). cbn in *. lia.
Qed.

Lemma acumularMora_segun_spec (cuota : float) (ahora : Ahora) (pend : list Mes) :
  relojValido ahora ->
  (forall m, In m pend -> 1 <= num m <= 12) ->
  acumularMora cuota ahora pend
  = sumarAportes (map (fun m => aporteMora cuota ahora (num m)) pend).
Proof.
  intros Hv. unfold acumularMora, sumarAportes.
  generalize PrimFloat.zero.
  induction pend as [| m pend IH]; intros acc H; [reflexivity |].
  cbn [fold_left map]. unfold aporteMora at 2.
  rewrite <- (vencido_segun_calendario ahora (num m)) by (auto using in_eq).
  destruct (vencido ahora (num m)); apply IH; auto using in_cons.
Qed.

(** C1: every pending period adds exactly 5% of the monthly amount to
    deudaMora when the evaluation time is strictly after day 11, 00:00
    local time, of the month that follows it, and nothing otherwise;
    deudaMora is the sum of these shares, formatted with two decimals.  The
    comparison the code makes for a period p is the one with that day: for
    December it is 11 January of the next year, and, the anchor year being
    stepped back when the current month is January, 11 January of the
    current year. *)
Theorem mora_de_cada_periodo (cfg : Columnas) (ahora : Ahora) (e : Estudiante)
    (cuota : float) :
  relojValido ahora ->
  totalPagar e = Numero cuota ->
  (exists d, calcularDeuda cfg ahora e = inr d /\
     deudaMora d =
       toFixed2 (sumarAportes (map (fun m => aporteMora cuota ahora (num m))
                                   (pendientes cfg ahora e)))) /\
  (forall m, In m (pendientes cfg ahora e) -> 1 <= num m <= mesActual ahora) /\
  (forall p, 1 <= p <= 12 ->
     vencido ahora p = despuesDelDia11 ahora (mesSiguiente ahora p)).
Proof.
  intros Hv Ht. split; [| split].
  - unfold calcularDeuda. rewrite Ht.
    eexists. split; [reflexivity |]. cbn [deudaMora]. f_equal.
    apply acumularMora_segun_spec; [exact Hv |].
    intros m Hm. apply pendientes_num in Hm.
    destruct Hv as (_ & Hmes & _). unfold mesActual in Hm. lia.
  - intros m Hm. eapply pendientes_num, Hm.
  - intros p Hp. apply vencido_segun_calendario; assumption.
Qed.

Lemma mora_de_cada_periodo_witness :
  (exists d, calcularDeuda columnasDeMuestra veinteDeJunio estudianteDeMuestra = inr d /\
     deudaMora d =
       toFixed2 (sumarAportes (map (fun m => aporteMora 500 veinteDeJunio (num m))
                  (pendientes columnasDeMuestra veinteDeJunio estudianteDeMuestra)))) /\
  (forall m, In m (pendientes columnasDeMuestra veinteDeJunio estudianteDeMuestra) ->
     1 <= num m <= mesActual veinteDeJunio) /\
  (forall p, 1 <= p <= 12 ->
     vencido veinteDeJunio p = despuesDelDia11 veinteDeJunio (mesSiguiente veinteDeJunio p)).
Proof.
  apply (mora_de_cada_periodo columnasDeMuestra veinteDeJunio estudianteDeMuestra 500).
  - repeat split; vm_compute; congruence.
  - reflexivity.
Defined.



Lemma listaMeses_nombres (cfg : Columnas) :
  listaMeses cfg
  = imap (fun index nombre => {| nombreMes := nombre; num := Z.of_nat index + 1 |})
         (map (fun '(mes, _) => toLowerCase mes) (MESES cfg)).
Proof.
  unfold listaMeses. change (map ?f ?l) with (f <$> l). rewrite imap_fmap.
  apply imap_ext. intros i [mes col] _. reflexivity.
Qed.

(** C2: a plan-A student with monthly amount 500, evaluated on 20 June,
    with February to April paid and May and June unpaid, owes the periods
    MAYO and JUNIO: 1000.00 of tuition, 25.00 of late fee (only May is past
    its due date, 11 June), 1025.00 in total, and is not up to date. *)
Theorem escenario_plan_A (cfg : Columnas) (ahora : Ahora) (e : Estudiante) :
  map (fun '(mes, _) => toLowerCase mes) (MESES cfg) = mesesOrdenados ->
  relojValido ahora -> mesIndice ahora = 5 -> dia ahora = 20 ->
  planDePago e = Numero 10 -> totalPagar e = Numero 500 ->
  sinPago (meses e !! "febrero") = false ->
  sinPago (meses e !! "marzo") = false ->
  sinPago (meses e !! "abril") = false ->
  sinPago (meses e !! "mayo") = true ->
  sinPago (meses e !! "junio") = true ->
  calcularDeuda cfg ahora e
  = inr {| deudaMensualidad := "1000.00"; deudaMora := "25.00";
           totalDeuda := "1025.00"; mesesPendientes := ["MAYO"; "JUNIO"];
           cuotaMensual := "500.00"; alDia := false |}.
Proof.
  intros Hcfg Hv Hmes Hdia Hplan Htotal Hfeb Hmar Habr Hmay Hjun.
  assert (pendientes cfg ahora e
          = [ {| nombreMes := "mayo"; num := 5 |}; {| nombreMes := "junio"; num := 6 |} ])
    as Hpend.
  { unfold pendientes, inicioMes, mesActual.
    rewrite listaMeses_nombres, Hcfg, Hplan, Hmes.
    replace (PrimFloat.eqb 10 10) with true by reflexivity.
    match goal with
    | |- List.filter _ ?rango = _ =>
      let v := eval vm_compute in rango in change rango with v
    end.
    cbn [List.filter nombreMes].
    rewrite !enBlanco_sinPago, Hfeb, Hmar, Habr, Hmay, Hjun. reflexivity. }
  unfold calcularDeuda. rewrite Htotal, Hpend.
  unfold acumularMora. cbn [fold_left num].
  rewrite !vencido_segun_calendario by (try exact Hv; lia).
  unfold despuesDelDia11, mesSiguiente, mesActual. rewrite Hmes, Hdia.
  cbn [Z.eqb Z.add Pos.add Pos.succ Pos.eqb].
  rewrite Z.ltb_irrefl, Z.eqb_refl.
  vm_compute. reflexivity.
Qed.

Lemma escenario_plan_A_witness :
  calcularDeuda columnasDeMuestra veinteDeJunio estudianteDeMuestra
  = inr {| deudaMensualidad := "1000.00"; deudaMora := "25.00";
           totalDeuda := "1025.00"; mesesPendientes := ["MAYO"; "JUNIO"];
           cuotaMensual := "500.00"; alDia := false |}.
Proof.
  apply (escenario_plan_A columnasDeMuestra veinteDeJunio estudianteDeMuestra);
    try reflexivity.
  repeat split; vm_compute; congruence.
Defined.

End Deuda.

(** ** The ledger lookup *)

Section Busqueda.

Import JS StudentService.

Ltac desplegar :=
  unfold mbind, mret, M_bind, M_ret, tryCatch, gets, modify, throw, lift,
    consoleError in *.

(** eachRow leaves in [estudiante] the student of the last matching row. *)
Lemma eachRow_ultima (cfg : Columnas) (ident : string)
    (hoja : list (Z * gmap string Valor)) (estudiante : option Estudiante) :
  Forall (fun fila => exists e, construirEstudiante cfg fila ident = inr e)
         (filasCoincidentes cfg hoja ident) ->
  eachRow cfg hoja ident estudiante
  = inr (match last (filasCoincidentes cfg hoja ident) with
         | Some _ => ultimaCoincidencia cfg hoja ident
         | None => estudiante
         end).
Proof.
  unfold ultimaCoincidencia, filasCoincidentes.
  revert estudiante. induction hoja as [| [rowNumber fila] resto IH]; intros estudiante H.
  - reflexivity.
  - cbn [eachRow List.filter] in *.
    destruct (Z.ltb_spec rowNumber 3) as [Hlt | Hge].
    + replace (3 <=? rowNumber)%Z with false in * by lia. cbn [andb] in *.
      apply IH, H.
    + replace (3 <=? rowNumber)%Z with true in * by lia. cbn [andb] in *.
      destruct (coincide cfg fila ident); [| apply IH, H].
      cbn [map snd] in *. apply Forall_cons in H as [[e He] H].
      rewrite He, (IH (Some e) H), last_cons.
      destruct (last _); [reflexivity |]. rewrite He. reflexivity.
Qed.

(** C4, as the code has it: buscarEstudiante visits the rows of the ledger
    sheet after the two header rows, and every row whose identity cell
    stringifies to the requested id overwrites the result; it returns the
    student built from the last such row, and null when there is none. *)
Theorem buscarEstudiante_ultima_coincidencia (cfg : Columnas) (ident : string)
    (w w' : Mundo) (libro : Libro) (hoja : list (Z * gmap string Valor)) :
  StudentExcelService.getWorkbook w = (w', inr libro) ->
  hojaMatricula libro = Some hoja ->
  Forall (fun fila => exists e, construirEstudiante cfg fila ident = inr e)
         (filasCoincidentes cfg hoja ident) ->
  buscarEstudiante cfg ident w = (w', inr (ultimaCoincidencia cfg hoja ident)) /\
  (filasCoincidentes cfg hoja ident = [] -> ultimaCoincidencia cfg hoja ident = None).
Proof.
  intros Hlibro Hhoja Hfilas. split.
  - unfold buscarEstudiante, buscarEnHoja. desplegar.
    rewrite Hlibro, Hhoja, (eachRow_ultima cfg ident hoja None Hfilas).
    unfold ultimaCoincidencia. destruct (last _); reflexivity.
  - intros Hnada. unfold ultimaCoincidencia. rewrite Hnada. reflexivity.
Qed.

Lemma buscarEstudiante_ultima_coincidencia_witness :
  buscarEstudiante columnasDeMuestra "0801201012345" mundoConLibro
  = (mundoConLibro,
     inr (ultimaCoincidencia columnasDeMuestra hojaRepetida "0801201012345")) /\
  (filasCoincidentes columnasDeMuestra hojaRepetida "0801201012345" = [] ->
   ultimaCoincidencia columnasDeMuestra hojaRepetida "0801201012345" = None).
Proof.
  apply (buscarEstudiante_ultima_coincidencia columnasDeMuestra "0801201012345"
           mundoConLibro mundoConLibro [("Matricula 2025", hojaRepetida)] hojaRepetida).
  - vm_compute. reflexivity.
  - reflexivity.
  - match goal with
    | |- Forall _ ?filas => let v := eval vm_compute in filas in change filas with v
    end.
    repeat (apply Forall_cons; split; [eexists; vm_compute; reflexivity |]).
    constructor.
Defined.

(** C4 as stated fails where two rows carry the requested id: rows 3 and 5
    of the sample ledger do, and the lookup answers with the student of
    row 5, not with the one built from the first matching row. *)
Lemma buscarEstudiante_no_devuelve_la_primera :
  snd (buscarEstudiante columnasDeMuestra "0801201012345" mundoConLibro)
  <> inr (primeraCoincidencia columnasDeMuestra hojaRepetida "0801201012345").
Proof.
  intros H.
  assert (match snd (buscarEstudiante columnasDeMuestra "0801201012345" mundoConLibro) with
          | inr (Some e) => Some (grado e)
          | _ => None
          end
          = match primeraCoincidencia columnasDeMuestra hojaRepetida "0801201012345" with
            | Some e => Some (grado e)
            | None => None
            end) as Hg by (rewrite H; reflexivity).
  vm_compute in Hg. discriminate Hg.
Qed.

End Busqueda.

(** ** The download cache *)

Section Descargas.

Import DropboxService.

Variable getCacheKey : string -> string.

Ltac desplegar :=
  unfold mbind, mret, M_bind, M_ret, tryCatch, gets, modify, throw, lift in *.

Lemma conserva_refl (w : Entorno) : conserva w w.
Proof. repeat split. Qed.

Lemma conserva_trans (w1 w2 w3 : Entorno) :
  conserva w1 w2 -> conserva w2 w3 -> conserva w1 w3.
Proof. unfold conserva. intros (-> & -> & -> & ->) (-> & -> & -> & ->). repeat split. Qed.

Lemma descargasCompletas_llamada (l : Llamada) (exito : bool) (w : Entorno) :
  descargasCompletas (con_llamada l exito w)
  = (descargasCompletas w +
     match l with
     | FilesDownload _ => if exito then 1 else 0
     | _ => 0
     end)%nat.
Proof.
  unfold descargasCompletas, con_llamada. cbn [llamadas].
  rewrite List.filter_app, length_app. cbn.
  destruct l, exito; reflexivity.
Qed.

Lemma llamar_spec {A : Type} (l : Llamada) (respuesta : Entorno -> Excepcion + A)
    (w w' : Entorno) (r : Excepcion + A) :
  llamar l respuesta w = (w', r) ->
  w' = con_llamada l (match r with inr _ => true | inl _ => false end) w /\
  (forall a, r = inr a -> respuesta w = inr a) /\
  (guion w = [] -> r = respuesta w).
Proof.
  unfold llamar. intros H.
  destruct (guion w) as [| [err |] resto];
    [| simplify_eq; repeat split; discriminate |];
    destruct (respuesta w); simplify_eq; repeat split; auto; discriminate.
Qed.

Lemma guion_llamada (l : Llamada) (exito : bool) (w : Entorno) :
  guion w = [] -> guion (con_llamada l exito w) = [].
Proof. intros H. unfold con_llamada. cbn. rewrite H. reflexivity. Qed.

Lemma refreshDropboxToken_spec (w w' : Entorno) (r : Excepcion + option string) :
  refreshDropboxToken w = (w', r) ->
  conserva w w' /\ (guion w = [] -> guion w' = [] /\ exists t, r = inr t).
Proof.
  unfold refreshDropboxToken. desplegar. intros H.
  destruct (llamar PedirToken _ w) as [w1 [err | t]] eqn:Hl;
    apply llamar_spec in Hl as (-> & _ & Hr); simplify_eq.
  - split.
    + unfold conserva. rewrite descargasCompletas_llamada. cbn. repeat split; lia.
    + intros Hg. specialize (Hr Hg). discriminate.
  - split.
    + unfold conserva. cbn [archivos nube fechaIso con_token].
      unfold descargasCompletas at 1. cbn [llamadas con_token].
      fold (descargasCompletas (con_llamada PedirToken true w)).
      rewrite descargasCompletas_llamada. cbn. repeat split; lia.
    + intros Hg. split; [| eauto]. cbn. rewrite Hg. reflexivity.
Qed.

Lemma getDropboxClient_spec (w w' : Entorno) (r : Excepcion + unit) :
  getDropboxClient w = (w', r) ->
  conserva w w' /\ (guion w = [] -> guion w' = [] /\ r = inr tt).
Proof.
  unfold getDropboxClient. desplegar. intros H.
  destruct (negb (tokenVerdadero (accessToken w)) || _).
  - destruct (refreshDropboxToken w) as [w1 [err | t]] eqn:Hr;
      apply refreshDropboxToken_spec in Hr as [Hc Hg]; simplify_eq.
    + split; [exact Hc |]. intros Hq. destruct (Hg Hq) as [_ [t Ht]]. discriminate.
    + destruct (dropboxInstance w1); simplify_eq.
      * split; [exact Hc |]. intros Hq. destruct (Hg Hq) as [Hq1 _]. auto.
      * split; [exact Hc |]. intros Hq. destruct (Hg Hq) as [Hq1 _]. auto.
  - destruct (dropboxInstance w); simplify_eq; (split; [repeat split | auto]).
Qed.

Lemma intentar_spec (dropboxPath : string) (w w' : Entorno) (r : Excepcion + string) :
  intentar getCacheKey dropboxPath w = (w', r) ->
  match r with
  | inr ruta => ruta = getCachedFilePath getCacheKey dropboxPath /\
                descargado getCacheKey dropboxPath w w'
  | inl _ => conserva w w'
  end /\
  (guion w = [] -> guion w' = [] /\
     (is_Some (nube w !! dropboxPath) -> exists ruta, r = inr ruta)).
Proof.
  unfold intentar. desplegar. intros H.
  destruct (getDropboxClient w) as [w1 [err | []]] eqn:Hc;
    apply getDropboxClient_spec in Hc as [Hc Hg]; simplify_eq.
  { split; [exact Hc |]. intros Hq. destruct (Hg Hq) as [_ ?]. discriminate. }
  destruct Hc as (Ha & Hn & Hf & Hd).
  destruct (llamar (FilesDownload dropboxPath) _ w1) as [w2 [err | resp]] eqn:Hl;
    apply llamar_spec in Hl as (-> & Hok & Hr); simplify_eq.
  - split.
    + unfold conserva. rewrite descargasCompletas_llamada. cbn. repeat split; auto; lia.
    + intros Hq. destruct (Hg Hq) as [Hq1 _]. split; [apply guion_llamada, Hq1 |].
      intros [rem Hrem]. specialize (Hr Hq1). unfold enLaNube in Hr.
      rewrite Hn, Hrem in Hr. discriminate.
  - split.
    + split; [reflexivity |].
      specialize (Hok resp eq_refl). unfold enLaNube in Hok. rewrite Hn in Hok.
      destruct (nube w !! dropboxPath) as [rem |] eqn:Hrem; simplify_eq.
      exists resp. split; [exact Hrem |].
      cbn [archivos nube fechaIso con_archivos con_llamada].
      rewrite Ha, Hf. repeat split; auto.
      unfold descargasCompletas at 1. cbn [llamadas con_archivos].
      fold (descargasCompletas (con_llamada (FilesDownload dropboxPath) true w1)).
      rewrite descargasCompletas_llamada, Hd. lia.
    + intros Hq. destruct (Hg Hq) as [Hq1 _].
      split; [cbn; rewrite Hq1; reflexivity | eauto].
Qed.

Lemma descargado_tras_conservar (dropboxPath : string) (w w1 w' : Entorno) :
  conserva w w1 -> descargado getCacheKey dropboxPath w1 w' ->
  descargado getCacheKey dropboxPath w w'.
Proof.
  intros (Ha & Hn & Hf & Hd) (r & Hr & Hw & Hc & Hn' & Hf').
  exists r. rewrite <- Hn, <- Ha, <- Hf, <- Hd. repeat split; auto.
Qed.

(** The retry loop either fails and leaves the cache as it was, or ends
    with one full download written as a whole. *)
Lemma reintentar_spec (dropboxPath : string) (restantes : nat)
    (lastError : option Excepcion) (w w' : Entorno) (r : Excepcion + string) :
  reintentar getCacheKey dropboxPath restantes lastError w = (w', r) ->
  match r with
  | inr ruta => ruta = getCachedFilePath getCacheKey dropboxPath /\
                descargado getCacheKey dropboxPath w w'
  | inl _ => conserva w w'
  end /\
  (guion w = [] -> is_Some (nube w !! dropboxPath) -> (0 < restantes)%nat ->
   exists ruta, r = inr ruta).
Proof.
  revert lastError w. induction restantes as [| n IH]; intros lastError w H.
  - cbn in H. unfold throw in H. simplify_eq. split; [repeat split | lia].
  - cbn [reintentar] in H.
    destruct (intentar getCacheKey dropboxPath w) as [w1 [error | ruta]] eqn:Hi;
      apply intentar_spec in Hi as [Hi Hg].
    + destruct (tokenExpirado error).
      * desplegar.
        destruct (refreshDropboxToken _) as [w2 [err | t]] eqn:Hr;
          apply refreshDropboxToken_spec in Hr as [Hr _].
        -- simplify_eq. split.
           ++ eapply conserva_trans; [exact Hi |].
              eapply conserva_trans; [| exact Hr]. repeat split.
           ++ intros Hq Hs _. destruct (Hg Hq) as [_ Hx].
              destruct (Hx Hs) as [? ?]. discriminate.
        -- apply IH in H as [H _].
           assert (conserva w w2) as Hc.
           { eapply conserva_trans; [exact Hi |].
             eapply conserva_trans; [| exact Hr]. repeat split. }
           split.
           ++ destruct r as [err | ruta]; [eapply conserva_trans; eassumption |].
              destruct H as [-> H]. split; [reflexivity |].
              eapply descargado_tras_conservar; eassumption.
           ++ intros Hq Hs _. destruct (Hg Hq) as [_ Hx].
              destruct (Hx Hs) as [? ?]. discriminate.
      * simplify_eq. split; [exact Hi |].
        intros Hq Hs _. destruct (Hg Hq) as [_ Hx]. destruct (Hx Hs) as [? ?]. discriminate.
    + simplify_eq. split; [exact Hi | eauto].
Qed.

(** The check against the stored fingerprint never touches the cache nor
    downloads; with Dropbox answering, it is a hit exactly when the stored
    revision is the remote one. *)
Lemma verificarCache_spec (dropboxPath : string) (opts : Opciones)
    (w w' : Entorno) (r : Excepcion + option string) :
  verificarCache getCacheKey dropboxPath opts w = (w', r) ->
  conserva w w' /\
  (exists o, r = inr o /\ (o = None \/ o = Some (getCachedFilePath getCacheKey dropboxPath))) /\
  (guion w = [] -> guion w' = []) /\
  (forall contenido rv sm ca remoto,
     guion w = [] -> useCache opts = true -> forceRefresh opts = false ->
     archivos w !! getCachedFilePath getCacheKey dropboxPath = Some contenido ->
     archivos w !! metaPathDe (getCachedFilePath getCacheKey dropboxPath)
       = Some (Metadatos rv sm ca) ->
     nube w !! dropboxPath = Some remoto ->
     r = inr (if String.eqb (rev remoto) rv
              then Some (getCachedFilePath getCacheKey dropboxPath) else None)).
Proof.
  unfold verificarCache. desplegar. intros H.
  destruct (useCache opts && negb (forceRefresh opts) && _ && _) eqn:Hcond.
  2:{ simplify_eq. repeat split; eauto.
      intros contenido rv sm ca remoto _ Hu Hf Hb Hm _.
      rewrite Hu, Hf, Hb, Hm in Hcond. cbn in Hcond.
      discriminate. }
  destruct (archivos w !! metaPathDe _) as [[c | rv sm ca] |] eqn:Hmeta;
    try (simplify_eq; repeat split; eauto; intros; congruence).
  destruct (getDropboxClient w) as [w1 [err | []]] eqn:Hc;
    apply getDropboxClient_spec in Hc as [Hc Hg].
  { simplify_eq. repeat split; eauto; try apply Hc.
    - intros Hq. apply (Hg Hq).
    - intros ? ? ? ? ? Hq. destruct (Hg Hq) as [_ ?]. discriminate. }
  destruct (llamar (FilesGetMetadata dropboxPath) _ w1) as [w2 [err | cur]] eqn:Hl;
    apply llamar_spec in Hl as (-> & Hok & Hr).
  - simplify_eq. split; [| split; [eauto | split]].
    + eapply conserva_trans; [exact Hc |].
      unfold conserva. rewrite descargasCompletas_llamada. cbn. repeat split; lia.
    + intros Hq. apply guion_llamada, (Hg Hq).
    + intros contenido rv' sm' ca' remoto Hq _ _ _ _ Hn.
      destruct (Hg Hq) as [Hq1 _]. specialize (Hr Hq1). unfold enLaNube in Hr.
      destruct Hc as (_ & Hn1 & _). rewrite Hn1, Hn in Hr. discriminate.
  - assert (conserva w (con_llamada (FilesGetMetadata dropboxPath) true w1)) as Hcons.
    { eapply conserva_trans; [exact Hc |].
      unfold conserva. rewrite descargasCompletas_llamada. cbn. repeat split; lia. }
    specialize (Hok cur eq_refl). unfold enLaNube in Hok.
    destruct Hc as (_ & Hn1 & _). rewrite Hn1 in Hok.
    destruct (nube w !! dropboxPath) as [rem |] eqn:Hrem; simplify_eq.
    destruct (String.eqb (rev cur) rv) eqn:Hrev; simplify_eq;
      (split; [exact Hcons | split; [eauto | split]]);
      try (intros Hq; apply guion_llamada, (Hg Hq));
      intros contenido rv' sm' ca' remoto _ _ _ _ Hm Hn; simplify_eq;
      rewrite Hrev; reflexivity.
Qed.

(** Every call either leaves the cache as it was, or made one full
    download and wrote the blob and its fingerprint together; a call that
    throws is of the first kind. *)
Lemma downloadWithRetry_spec (dropboxPath : string) (opts : Opciones)
    (w w' : Entorno) (r : Excepcion + string) :
  downloadWithRetry getCacheKey dropboxPath opts w = (w', r) ->
  match r with
  | inl _ => conserva w w'
  | inr ruta => ruta = getCachedFilePath getCacheKey dropboxPath /\
                (conserva w w' \/
                 ((0 < maxRetries opts)%nat /\ descargado getCacheKey dropboxPath w w'))
  end.
Proof.
  unfold downloadWithRetry. desplegar. intros H.
  destruct (verificarCache getCacheKey dropboxPath opts w) as [w1 r1] eqn:Hv.
  apply verificarCache_spec in Hv as (Hc & (o & -> & Ho) & _).
  destruct Ho as [-> | ->].
  - destruct (maxRetries opts) as [| n] eqn:Hn.
    + cbn in H. unfold throw in H. simplify_eq. exact Hc.
    + apply reintentar_spec in H as [H _].
      destruct r as [err | ruta]; [eapply conserva_trans; eassumption |].
      destruct H as [-> H]. split; [reflexivity |]. right. split; [lia |].
      eapply descargado_tras_conservar; eassumption.
  - simplify_eq. split; [reflexivity | left; exact Hc].
Qed.

Lemma metaPath_distinto (ruta : string) : metaPathDe ruta <> ruta.
Proof.
  unfold metaPathDe. induction ruta as [| c ruta IH]; cbn; [discriminate |].
  intros H. injection H as H. exact (IH H).
Qed.

(** C8, as the code has it: after a call that downloaded the file, the
    cache holds the blob together with the revision Dropbox reported; a
    later call on the same cache during which Dropbox answers every
    request serves the cached path without any full download when the
    remote revision is the stored one, and makes exactly one full download,
    replacing blob and fingerprint together, when it differs; and any call
    that makes no full download, in particular one whose attempts all fail,
    leaves the cache as it was. *)
Theorem cache_de_descargas (dropboxPath : string) (opts : Opciones)
    (w w1 : Entorno) (ruta : string) :
  useCache opts = true -> forceRefresh opts = false ->
  downloadWithRetry getCacheKey dropboxPath opts w = (w1, inr ruta) ->
  descargasCompletas w1 = S (descargasCompletas w) ->
  exists r, nube w !! dropboxPath = Some r /\
    entrada getCacheKey dropboxPath w1
    = (Some (Binario (fileBinary r)),
       Some (Metadatos (rev r) (server_modified r) (fechaIso w))) /\
    (forall w2 r2,
       archivos w2 = archivos w1 -> guion w2 = [] -> nube w2 !! dropboxPath = Some r2 ->
       exists w3, downloadWithRetry getCacheKey dropboxPath opts w2 = (w3, inr ruta) /\
         if String.eqb (rev r2) (rev r)
         then conserva w2 w3
         else descargado getCacheKey dropboxPath w2 w3) /\
    (forall opts' w0 w0' r0,
       downloadWithRetry getCacheKey dropboxPath opts' w0 = (w0', r0) ->
       match r0 with
       | inl _ => conserva w0 w0'
       | inr _ => conserva w0 w0' \/ descargado getCacheKey dropboxPath w0 w0'
       end).
Proof.
  intros Hu Hf H1 Hn.
  apply downloadWithRetry_spec in H1 as [-> [Hc | [Hmax Hd]]].
  { destruct Hc as (_ & _ & _ & Hc). lia. }
  destruct Hd as (r & Hr & Ha & _ & _ & _).
  set (cachedPath := getCachedFilePath getCacheKey dropboxPath) in *.
  assert (archivos w1 !! cachedPath = Some (Binario (fileBinary r))) as Hblob.
  { rewrite Ha, lookup_insert_ne by apply metaPath_distinto. apply lookup_insert_eq. }
  assert (archivos w1 !! metaPathDe cachedPath
          = Some (Metadatos (rev r) (server_modified r) (fechaIso w))) as Hmeta.
  { rewrite Ha. apply lookup_insert_eq. }
  exists r. split; [exact Hr |]. split; [| split].
  - unfold entrada. fold cachedPath. rewrite Hblob, Hmeta. reflexivity.
  - intros w2 r2 Hfs Hq Hn2.
    unfold downloadWithRetry. desplegar.
    destruct (verificarCache getCacheKey dropboxPath opts w2) as [w2' r'] eqn:Hv.
    apply verificarCache_spec in Hv as (Hc & _ & Hq' & Hhit).
    fold cachedPath in Hhit.
    rewrite (Hhit _ _ _ _ r2 Hq Hu Hf ltac:(rewrite Hfs; exact Hblob)
               ltac:(rewrite Hfs; exact Hmeta) Hn2).
    destruct (String.eqb (rev r2) (rev r)).
    + exists w2'. split; [reflexivity | exact Hc].
    + destruct (reintentar getCacheKey dropboxPath (maxRetries opts) None w2')
        as [w3 r3] eqn:Hre.
      apply reintentar_spec in Hre as [Hre Hok].
      destruct Hc as (Hca & Hcn & Hcf & Hcd).
      destruct (Hok (Hq' Hq) ltac:(rewrite Hcn, Hn2; eauto) Hmax) as [ruta ->].
      destruct Hre as [-> Hre].
      exists w3. split; [reflexivity |].
      eapply descargado_tras_conservar; [| exact Hre]. repeat split; assumption.
  - intros opts' w0 w0' r0 H0.
    apply downloadWithRetry_spec in H0.
    destruct r0 as [err | ruta0]; [exact H0 |].
    destruct H0 as [_ [H0 | [_ H0]]]; auto.
Qed.

End Descargas.

Lemma cache_de_descargas_witness :
  let w1 := fst (DropboxService.downloadWithRetry DropboxService.claveDeMuestra
                   "/cuentas.xlsx" DropboxService.opcionesPorDefecto
                   DropboxService.entornoInicial) in
  exists r, DropboxService.nube DropboxService.entornoInicial !! "/cuentas.xlsx" = Some r /\
    DropboxService.entrada DropboxService.claveDeMuestra "/cuentas.xlsx" w1
    = (Some (DropboxService.Binario (DropboxService.fileBinary r)),
       Some (DropboxService.Metadatos (DropboxService.rev r)
               (DropboxService.server_modified r)
               (DropboxService.fechaIso DropboxService.entornoInicial))) /\
    (forall w2 r2,
       DropboxService.archivos w2 = DropboxService.archivos w1 ->
       DropboxService.guion w2 = [] ->
       DropboxService.nube w2 !! "/cuentas.xlsx" = Some r2 ->
       exists w3,
         DropboxService.downloadWithRetry DropboxService.claveDeMuestra "/cuentas.xlsx"
           DropboxService.opcionesPorDefecto w2
         = (w3, inr "/tmp/dropbox_cache_v2/k/cuentas.xlsx") /\
         if String.eqb (DropboxService.rev r2) (DropboxService.rev r)
         then DropboxService.conserva w2 w3
         else DropboxService.descargado DropboxService.claveDeMuestra "/cuentas.xlsx" w2 w3) /\
    (forall opts' w0 w0' r0,
       DropboxService.downloadWithRetry DropboxService.claveDeMuestra "/cuentas.xlsx" opts' w0
       = (w0', r0) ->
       match r0 with
       | inl _ => DropboxService.conserva w0 w0'
       | inr _ => DropboxService.conserva w0 w0' \/
                  DropboxService.descargado DropboxService.claveDeMuestra "/cuentas.xlsx" w0 w0'
       end).
Proof.
  apply (cache_de_descargas DropboxService.claveDeMuestra "/cuentas.xlsx"
           DropboxService.opcionesPorDefecto DropboxService.entornoInicial).
  - reflexivity.
  - reflexivity.
  - vm_compute. reflexivity.
  - vm_compute. reflexivity.
Defined.

(** C8 as stated fails when the metadata query is rejected: the catch of
    line 122 swallows the rejection and the loop downloads.  On the cache
    that the first download of the sample path leaves, with the same
    revision upstream, the second call returns the cached path after one
    failed metadata call and one full download. *)
Lemma cache_vigente_sin_metadatos :
  let w1 := fst (DropboxService.downloadWithRetry DropboxService.claveDeMuestra
                   "/cuentas.xlsx" DropboxService.opcionesPorDefecto
                   DropboxService.entornoInicial) in
  let w2 := DropboxService.entornoSinMetadatos in
  let r := DropboxService.downloadWithRetry DropboxService.claveDeMuestra "/cuentas.xlsx"
             DropboxService.opcionesPorDefecto w2 in
  DropboxService.archivos w2 = DropboxService.archivos w1 /\
  DropboxService.entrada DropboxService.claveDeMuestra "/cuentas.xlsx" w2
  = (Some (DropboxService.Binario "PK1"),
     Some (DropboxService.Metadatos "015f" "2025-06-19T00:00:00Z"
             "2025-06-20T09:30:00.000Z")) /\
  DropboxService.rev <$> DropboxService.nube w2 !! "/cuentas.xlsx" = Some "015f" /\
  snd r = inr "/tmp/dropbox_cache_v2/k/cuentas.xlsx" /\
  DropboxService.llamadas (fst r)
  = [(DropboxService.FilesGetMetadata "/cuentas.xlsx", false);
     (DropboxService.FilesDownload "/cuentas.xlsx", true)] /\
  DropboxService.descargasCompletas (fst r) = 1%nat.
Proof. vm_compute. repeat split. Qed.

(** ** The conversation automaton *)

Section Conversacion.

Import JS Servicios StudentService BotController.

Ltac desplegar :=
  unfold mbind, mret, M_bind, M_ret, tryCatch, gets, modify, throw, lift,
    consoleError, sendMessage, setTimeout in *.

(** *** Frame rules *)

Lemma preserva_ret {A : Type} (R : Mundo -> Mundo -> Prop) (a : A) :
  (forall w, R w w) -> preserva R (mret a).
Proof. intros Hr w w' r H. desplegar. simplify_eq. apply Hr. Qed.

Lemma preserva_throw {A : Type} (R : Mundo -> Mundo -> Prop) (err : Excepcion) :
  (forall w, R w w) -> preserva R (throw err : M Mundo A).
Proof. intros Hr w w' r H. desplegar. simplify_eq. apply Hr. Qed.

Lemma preserva_gets {A : Type} (R : Mundo -> Mundo -> Prop) (f : Mundo -> A) :
  (forall w, R w w) -> preserva R (gets f).
Proof. intros Hr w w' r H. desplegar. simplify_eq. apply Hr. Qed.

Lemma preserva_lift {A : Type} (R : Mundo -> Mundo -> Prop) (x : Excepcion + A) :
  (forall w, R w w) -> preserva R (lift x).
Proof. intros Hr w w' r H. desplegar. simplify_eq. apply Hr. Qed.

Lemma preserva_modify (R : Mundo -> Mundo -> Prop) (f : Mundo -> Mundo) :
  (forall w, R w (f w)) -> preserva R (modify f).
Proof. intros Hf w w' r H. desplegar. simplify_eq. apply Hf. Qed.

Lemma preserva_bind {A B : Type} (R : Mundo -> Mundo -> Prop)
    (c : M Mundo A) (k : A -> M Mundo B) :
  (forall w1 w2 w3, R w1 w2 -> R w2 w3 -> R w1 w3) ->
  preserva R c -> (forall a, preserva R (k a)) -> preserva R (c ≫= k).
Proof.
  intros Ht Hc Hk w w' r H. desplegar.
  destruct (c w) as [w1 [err | a]] eqn:Hcw.
  - simplify_eq. eapply Hc, Hcw.
  - eapply Ht; [eapply Hc, Hcw | eapply Hk, H].
Qed.

Lemma preserva_tryCatch {A : Type} (R : Mundo -> Mundo -> Prop)
    (c : M Mundo A) (h : Excepcion -> M Mundo A) :
  (forall w1 w2 w3, R w1 w2 -> R w2 w3 -> R w1 w3) ->
  preserva R c -> (forall err, preserva R (h err)) -> preserva R (tryCatch c h).
Proof.
  intros Ht Hc Hh w w' r H. desplegar.
  destruct (c w) as [w1 [err | a]] eqn:Hcw.
  - eapply Ht; [eapply Hc, Hcw | eapply Hh, H].
  - simplify_eq. eapply Hc, Hcw.
Qed.

Lemma preserva_mas_debil {A : Type} (R R' : Mundo -> Mundo -> Prop) (c : M Mundo A) :
  (forall w w', R w w' -> R' w w') -> preserva R c -> preserva R' c.
Proof. intros Hi Hc w w' r H. eapply Hi, Hc, H. Qed.

Lemma soloLibro_refl (w : Mundo) : soloLibro w w.
Proof. repeat split. Qed.

Lemma soloLibro_trans (w1 w2 w3 : Mundo) : soloLibro w1 w2 -> soloLibro w2 w3 -> soloLibro w1 w3.
Proof.
  unfold soloLibro.
  intros (-> & -> & -> & -> & -> & -> & -> & -> & -> & -> & ->)
         (-> & -> & -> & -> & -> & -> & -> & -> & -> & -> & ->).
  repeat split.
Qed.

Lemma ajenoIntacto_refl (remitente : string) (w : Mundo) : ajenoIntacto remitente w w.
Proof. intros otro _. split; reflexivity. Qed.

Lemma ajenoIntacto_trans (remitente : string) (w1 w2 w3 : Mundo) :
  ajenoIntacto remitente w1 w2 -> ajenoIntacto remitente w2 w3 -> ajenoIntacto remitente w1 w3.
Proof.
  intros H1 H2 otro Hne. destruct (H1 otro Hne) as [<- <-]. apply (H2 otro Hne).
Qed.

Lemma soloLibro_ajeno (remitente : string) (w w' : Mundo) :
  soloLibro w w' -> ajenoIntacto remitente w w'.
Proof.
  intros (_ & _ & _ & _ & He & Hs & _) otro _. rewrite He, Hs. split; reflexivity.
Qed.

(** Splits a computation along its binds, handlers and case analyses, down
    to its reads and writes. *)
Ltac marco Hrefl Htrans :=
  repeat match goal with
    | |- preserva _ (mbind _ _) => apply preserva_bind; [intros; eapply Htrans; eassumption | | intros ?]
    | |- preserva _ (tryCatch _ _) => apply preserva_tryCatch; [intros; eapply Htrans; eassumption | | intros ?]
    | |- preserva _ (mret _) => apply preserva_ret; intros; apply Hrefl
    | |- preserva _ (throw _) => apply preserva_throw; intros; apply Hrefl
    | |- preserva _ (gets _) => apply preserva_gets; intros; apply Hrefl
    | |- preserva _ (lift _) => apply preserva_lift; intros; apply Hrefl
    | |- preserva _ (modify _) => apply preserva_modify; intros ?
    | |- preserva _ (match ?x with _ => _ end) => destruct x
    | |- preserva _ (let _ := _ in _) => cbv zeta
    end.

Ltac marco_libro := marco soloLibro_refl soloLibro_trans; try (repeat split; fail).

Lemma axiosGet_libro : preserva soloLibro StudentExcelService.axiosGet.
Proof.
  intros w w' r H. unfold StudentExcelService.axiosGet in H.
  destruct (red w) as [| [buffer |] resto]; simplify_eq; repeat split.
Qed.

Lemma downloadExcelWithRetry_libro (n : nat) :
  preserva soloLibro (StudentExcelService.downloadExcelWithRetry n).
Proof.
  induction n as [| n IH]; cbn [StudentExcelService.downloadExcelWithRetry].
  - marco_libro.
  - apply preserva_tryCatch; [exact soloLibro_trans | | intros _].
    + marco_libro. apply axiosGet_libro.
    + apply preserva_bind; [exact soloLibro_trans | | intros _].
      * unfold consoleError. apply preserva_modify. intros w. repeat split.
      * destruct n; [marco_libro | exact IH].
Qed.

Lemma getWorkbook_libro : preserva soloLibro StudentExcelService.getWorkbook.
Proof.
  unfold StudentExcelService.getWorkbook, StudentExcelService.actualizarCache,
    StudentExcelService.loadWorkbook.
  marco_libro; apply downloadExcelWithRetry_libro.
Qed.

Lemma buscarEstudiante_libro (cfg : Columnas) (ident : string) :
  preserva soloLibro (buscarEstudiante cfg ident).
Proof.
  unfold buscarEstudiante, consoleError. marco_libro. apply getWorkbook_libro.
Qed.

(** *** What a message of one user leaves untouched *)

Ltac ajeno_fin :=
  try (intros otro Hne; repeat case_match; cbn;
       rewrite ?lookup_insert_ne by congruence; split; reflexivity).

Ltac marco_ajeno :=
  unfold obtenerEstado, obtenerAlumnosEncargado, obtenerUltimoSaludo, isAdmin,
    establecerEstado, establecerUltimoSaludo, registrarEncargado, eliminarRelacion,
    validarPIN, enviarMensajeConDelay, sendMessage, setTimeout, consoleError, nombreDe;
  marco ajenoIntacto_refl ajenoIntacto_trans; ajeno_fin; auto with marco.

Create HintDb marco.

Lemma buscarEstudiante_ajeno (cfg : Columnas) (remitente ident : string) :
  preserva (ajenoIntacto remitente) (buscarEstudiante cfg ident).
Proof.
  eapply preserva_mas_debil; [apply soloLibro_ajeno | apply buscarEstudiante_libro].
Qed.

#[local] Hint Resolve buscarEstudiante_ajeno : marco.

Lemma enviarMenuPrincipal_ajeno (remitente : string) :
  preserva (ajenoIntacto remitente) (enviarMenuPrincipal remitente).
Proof. unfold enviarMenuPrincipal. marco_ajeno. Qed.

#[local] Hint Resolve enviarMenuPrincipal_ajeno : marco.

Lemma difundir_ajeno (remitente : string) (destinatarios : list string)
    (mensaje : Difusion) (n : nat) :
  preserva (ajenoIntacto remitente) (difundir destinatarios mensaje n).
Proof.
  revert n. induction destinatarios as [| d resto IH]; intros n; cbn [difundir];
    marco_ajeno.
Qed.

#[local] Hint Resolve difundir_ajeno : marco.

Lemma enviarBroadcast_ajeno (remitente : string) (mensaje : Difusion) :
  preserva (ajenoIntacto remitente) (enviarBroadcast mensaje).
Proof. unfold enviarBroadcast. marco_ajeno. Qed.

#[local] Hint Resolve enviarBroadcast_ajeno : marco.

Lemma enviarEstadoPagos_ajeno (cfg : Columnas) (remitente : string)
    (estudiante : option Estudiante) :
  preserva (ajenoIntacto remitente) (enviarEstadoPagos cfg remitente estudiante).
Proof. unfold enviarEstadoPagos. marco_ajeno. Qed.

#[local] Hint Resolve enviarEstadoPagos_ajeno : marco.

Lemma listarAlumnos_ajeno (cfg : Columnas) (remitente : string) (ids : list string)
    (lineas : list (Valor * Valor)) :
  preserva (ajenoIntacto remitente) (listarAlumnos cfg ids lineas).
Proof.
  revert lineas. induction ids as [| i resto IH]; intros lineas; cbn [listarAlumnos];
    marco_ajeno.
Qed.

#[local] Hint Resolve listarAlumnos_ajeno : marco.

Lemma alumnoElegido_ajeno (remitente mensaje : string) (lista : option (list string)) :
  preserva (ajenoIntacto remitente) (alumnoElegido mensaje lista).
Proof. unfold alumnoElegido. marco_ajeno. Qed.

#[local] Hint Resolve alumnoElegido_ajeno : marco.

Lemma segunEstado_ajeno (cfg : Columnas) (remitente mensaje : string) (est : EstadoConv)
    (vinculados : list string) (primero : bool) :
  preserva (ajenoIntacto remitente) (segunEstado cfg remitente mensaje est vinculados primero).
Proof.
  unfold segunEstado, menuPrincipal, registroId, registroPin, seleccionAlumno,
    eliminarAlumno.
  marco_ajeno.
Qed.

#[local] Hint Resolve segunEstado_ajeno : marco.

(** Handling a message of one user, to the end or to a throw, changes the
    conversation record of no other user. *)
Lemma procesarMensaje_ajeno (cfg : Columnas) (remitente mensaje : string)
    (mensajeObj : MensajeWA) :
  preserva (ajenoIntacto remitente) (procesarMensaje cfg remitente mensaje mensajeObj).
Proof. unfold procesarMensaje. marco_ajeno. Qed.

(** *** The hooks that run before the state's own handler *)

Ltac correr :=
  lazy beta iota zeta delta
    [mbind mret M_bind M_ret tryCatch gets modify throw lift
     obtenerEstado obtenerAlumnosEncargado obtenerUltimoSaludo isAdmin
     establecerEstado establecerUltimoSaludo enviarMensajeConDelay sendMessage
     setTimeout consoleError nombreDe].

(** After the day's greeting, outside the broadcast menu, a text that is
    neither a broadcast command nor the menu keyword reaches the handler of
    the user's state. *)
Lemma procesarMensaje_despacho (cfg : Columnas) (remitente mensaje : string)
    (mensajeObj : MensajeWA) (w : Mundo) :
  yaSaludadoHoy w remitente ->
  estado (estadoDe w remitente) <> "MENU_ADMIN_BROADCAST" ->
  esComandoBroadcast mensaje = false ->
  esPalabraMenu mensaje = false ->
  procesarMensaje cfg remitente mensaje mensajeObj w
  = segunEstado cfg remitente mensaje (estadoDe w remitente)
      (default [] (encargados w !! remitente)) false w.
Proof.
  unfold yaSaludadoHoy, estadoDe, esComandoBroadcast, esPalabraMenu.
  intros Hs He Hc Hm. unfold procesarMensaje. correr.
  rewrite Hs, bool_decide_eq_true_2 by reflexivity. cbn [negb].
  apply String.eqb_neq in He. rewrite He, Hc, Hm. reflexivity.
Qed.

(** The keyword override, outside the broadcast menu. *)
Lemma procesarMensaje_palabra_menu (cfg : Columnas) (remitente mensaje : string)
    (mensajeObj : MensajeWA) (w : Mundo) :
  yaSaludadoHoy w remitente ->
  estado (estadoDe w remitente) <> "MENU_ADMIN_BROADCAST" ->
  esPalabraMenu mensaje = true ->
  procesarMensaje cfg remitente mensaje mensajeObj w
  = (trasEnviar remitente
       (MenuPrincipal (length (default [] (encargados w !! remitente)))
                      (bool_decide (remitente ∈ admins w)))
       (trasEstablecer remitente "MENU_PRINCIPAL" sinDatos w), inr tt).
Proof.
  unfold yaSaludadoHoy, estadoDe, esPalabraMenu.
  intros Hs He Hm. unfold procesarMensaje. correr.
  rewrite Hs, bool_decide_eq_true_2 by reflexivity. cbn [negb].
  apply String.eqb_neq in He. rewrite He, Hm.
  assert (startsWith (toLowerCase mensaje) "broadcast "
          || startsWith (toLowerCase mensaje) "bc " = false) as ->.
  { apply orb_true_iff in Hm as [Hm | Hm]; apply String.eqb_eq in Hm; rewrite Hm;
      reflexivity. }
  reflexivity.
Qed.

(** *** The reserved command *)

(** C7, as the code has it: after the day's greeting, a user without
    privilege who is not in the broadcast menu and sends a text beginning
    with a broadcast prefix gets the permission-denied text and nothing
    else happens: no broadcast, no change of its conversation record. *)
Theorem comando_broadcast_sin_privilegio (cfg : Columnas) (remitente mensaje : string)
    (mensajeObj : MensajeWA) (w : Mundo) :
  yaSaludadoHoy w remitente ->
  estado (estadoDe w remitente) <> "MENU_ADMIN_BROADCAST" ->
  remitente ∉ admins w ->
  esComandoBroadcast mensaje = true ->
  let w' := trasEnviar remitente PermisoDenegado w in
  procesarMensaje cfg remitente mensaje mensajeObj w = (w', inr tt) /\
  enviados w' = enviados w ++ [(remitente, PermisoDenegado)] /\
  estados w' = estados w /\ saludos w' = saludos w.
Proof.
  intros Hs He Ha Hc w'. subst w'.
  unfold yaSaludadoHoy, estadoDe, esComandoBroadcast in *.
  split; [| repeat split].
  unfold procesarMensaje. correr.
  rewrite Hs, bool_decide_eq_true_2 by reflexivity. cbn [negb].
  apply String.eqb_neq in He. rewrite He, Hc.
  rewrite bool_decide_eq_false_2 by exact Ha. reflexivity.
Qed.

Lemma comando_broadcast_sin_privilegio_witness :
  let w' := trasEnviar encargadoDeMuestra PermisoDenegado mundoEnRegistro in
  procesarMensaje columnasDeMuestra encargadoDeMuestra "BC hola a todos"
    (mensajeDeTexto "BC hola a todos") mundoEnRegistro = (w', inr tt) /\
  enviados w' = enviados mundoEnRegistro ++ [(encargadoDeMuestra, PermisoDenegado)] /\
  estados w' = estados mundoEnRegistro /\ saludos w' = saludos mundoEnRegistro.
Proof.
  apply (comando_broadcast_sin_privilegio columnasDeMuestra encargadoDeMuestra
           "BC hola a todos" (mensajeDeTexto "BC hola a todos") mundoEnRegistro).
  - vm_compute. reflexivity.
  - vm_compute. discriminate.
  - apply (bool_decide_eq_false_1 (encargadoDeMuestra ∈ admins mundoEnRegistro)).
    vm_compute. reflexivity.
  - vm_compute. reflexivity.
Defined.

(** C7 as stated fails on the first message of the day: the greeting hook
    runs first, so the guardian who sends a broadcast command gets the
    greeting and the menu, no permission-denied text, and its state moves
    from REGISTRO_ID to MENU_PRINCIPAL. *)
Lemma comando_broadcast_en_primer_mensaje :
  let r := procesarMensaje columnasDeMuestra encargadoDeMuestra "bc hola"
             (mensajeDeTexto "bc hola") mundoSinSaludo in
  bool_decide (encargadoDeMuestra ∈ admins mundoSinSaludo) = false /\
  estado (estadoDe mundoSinSaludo encargadoDeMuestra) = "REGISTRO_ID" /\
  esComandoBroadcast "bc hola" = true /\
  enviados (fst r) = [(encargadoDeMuestra, Saludo);
                      (encargadoDeMuestra, MenuPrincipal 2 false)] /\
  estado (estadoDe (fst r) encargadoDeMuestra) = "MENU_PRINCIPAL".
Proof. vm_compute. repeat split. Qed.

(** *** The identity prompt *)

Lemma toLowerCase_digitos (s : string) : soloDigitos s = true -> toLowerCase s = s.
Proof.
  induction s as [| c s IH]; [reflexivity |].
  cbn [soloDigitos toLowerCase]. intros H.
  apply andb_true_iff in H as [Hc Hs]. unfold esDigito in Hc.
  apply andb_true_iff in Hc as [H1 H2]. apply N.leb_le in H1, H2.
  replace ((65 <=? codigo c)%N && (codigo c <=? 90)%N) with false
    by (symmetry; apply andb_false_iff; left; apply N.leb_gt; lia).
  replace (codigo c =? 195)%N with false by (symmetry; apply N.eqb_neq; lia).
  rewrite (IH Hs). reflexivity.
Qed.

(** A text of digits is neither the menu keyword nor a broadcast command. *)
Lemma digitos_sin_ganchos (s : string) :
  soloDigitos s = true -> esComandoBroadcast s = false /\ esPalabraMenu s = false.
Proof.
  intros H. unfold esComandoBroadcast, esPalabraMenu, startsWith.
  rewrite (toLowerCase_digitos s H).
  destruct s as [| c s]; [split; reflexivity |].
  cbn [soloDigitos] in H. apply andb_true_iff in H as [Hc _].
  split; apply orb_false_iff; split.
  - cbn [String.prefix]. destruct (ascii_dec "b" c) as [<- |]; [discriminate | reflexivity].
  - cbn [String.prefix]. destruct (ascii_dec "b" c) as [<- |]; [discriminate | reflexivity].
  - apply String.eqb_neq. intros Heq. injection Heq as -> _. discriminate.
  - apply String.eqb_neq. intros Heq. injection Heq as -> _. discriminate.
Qed.

Lemma segunEstado_registro (cfg : Columnas) (remitente mensaje : string) (est : EstadoConv)
    (vinculados : list string) (primero : bool) :
  estado est = "REGISTRO_ID" ->
  segunEstado cfg remitente mensaje est vinculados primero = registroId cfg remitente mensaje.
Proof. intros He. unfold segunEstado. rewrite He. reflexivity. Qed.

(** C6, as the code has it: in state REGISTRO_ID, on a message that is not
    the first of the day, a text that is not exactly 13 digits (and is
    neither the menu keyword nor a broadcast command), or that is 13 digits
    matching no ledger row, is answered with a re-prompt and the
    conversation records stay as they were; 13 digits matching a ledger row
    move the user to REGISTRO_PIN with the text as the carried identifier.
    A text of 12 digits is among the rejected ones. *)
Theorem registro_de_identidad (cfg : Columnas) (remitente mensaje : string)
    (mensajeObj : MensajeWA) (w : Mundo) :
  yaSaludadoHoy w remitente ->
  estado (estadoDe w remitente) = "REGISTRO_ID" ->
  (esIdentidad mensaje = false ->
   esPalabraMenu mensaje = false -> esComandoBroadcast mensaje = false ->
   procesarMensaje cfg remitente mensaje mensajeObj w
   = (trasEnviar remitente FormatoIncorrecto w, inr tt)) /\
  (soloDigitos mensaje = true -> String.length mensaje = 12%nat ->
   procesarMensaje cfg remitente mensaje mensajeObj w
   = (trasEnviar remitente FormatoIncorrecto w, inr tt)) /\
  (esIdentidad mensaje = true ->
   forall w1, buscarEstudiante cfg mensaje w = (w1, inr None) ->
   procesarMensaje cfg remitente mensaje mensajeObj w
   = (trasEnviar remitente IdentidadNoRegistrada w1, inr tt) /\
   estados w1 = estados w /\ saludos w1 = saludos w) /\
  (esIdentidad mensaje = true ->
   forall w1 e, buscarEstudiante cfg mensaje w = (w1, inr (Some e)) ->
   procesarMensaje cfg remitente mensaje mensajeObj w
   = (trasEnviar remitente (AlumnoEncontrado (nombre e))
        (trasEstablecer remitente "REGISTRO_PIN"
           {| idEstudiante := Some mensaje; alumnos := None |} w1), inr tt)).
Proof.
  intros Hs He.
  assert (estado (estadoDe w remitente) <> "MENU_ADMIN_BROADCAST") as Hne
    by (rewrite He; discriminate).
  assert (forall (Hm : esPalabraMenu mensaje = false)
                 (Hc : esComandoBroadcast mensaje = false),
            procesarMensaje cfg remitente mensaje mensajeObj w
            = registroId cfg remitente mensaje w) as Hreg.
  { intros Hm Hc. rewrite procesarMensaje_despacho by assumption.
    rewrite segunEstado_registro by exact He. reflexivity. }
  assert (esIdentidad mensaje = true ->
          procesarMensaje cfg remitente mensaje mensajeObj w
          = registroId cfg remitente mensaje w) as Hreg13.
  { intros Hi. unfold esIdentidad in Hi. apply andb_true_iff in Hi as [_ Hd].
    destruct (digitos_sin_ganchos mensaje Hd). apply Hreg; assumption. }
  split; [| split; [| split]].
  - intros Hi Hm Hc. rewrite (Hreg Hm Hc). unfold registroId.
    unfold esIdentidad in Hi. rewrite Hi. reflexivity.
  - intros Hd Hl. destruct (digitos_sin_ganchos mensaje Hd) as [Hc Hm].
    rewrite (Hreg Hm Hc). unfold registroId. rewrite Hl. reflexivity.
  - intros Hi w1 Hb. rewrite (Hreg13 Hi). unfold registroId.
    unfold esIdentidad in Hi. rewrite Hi. correr. rewrite Hb.
    split; [reflexivity |].
    apply buscarEstudiante_libro in Hb as (_ & _ & _ & _ & Hest & Hsal & _). auto.
  - intros Hi w1 e Hb. rewrite (Hreg13 Hi). unfold registroId.
    unfold esIdentidad in Hi. rewrite Hi. correr. rewrite Hb. reflexivity.
Qed.

Lemma registro_de_identidad_witness :
  procesarMensaje columnasDeMuestra encargadoDeMuestra "080120101234"
    (mensajeDeTexto "080120101234") mundoEnRegistro
  = (trasEnviar encargadoDeMuestra FormatoIncorrecto mundoEnRegistro, inr tt) /\
  procesarMensaje columnasDeMuestra encargadoDeMuestra "0801201099999"
    (mensajeDeTexto "0801201099999") mundoEnRegistro
  = (trasEnviar encargadoDeMuestra IdentidadNoRegistrada mundoEnRegistro, inr tt) /\
  exists e,
    procesarMensaje columnasDeMuestra encargadoDeMuestra "0801201012345"
      (mensajeDeTexto "0801201012345") mundoEnRegistro
    = (trasEnviar encargadoDeMuestra (AlumnoEncontrado (nombre e))
         (trasEstablecer encargadoDeMuestra "REGISTRO_PIN"
            {| idEstudiante := Some "0801201012345"; alumnos := None |} mundoEnRegistro),
       inr tt).
Proof.
  assert (yaSaludadoHoy mundoEnRegistro encargadoDeMuestra) as Hs
    by (vm_compute; reflexivity).
  assert (estado (estadoDe mundoEnRegistro encargadoDeMuestra) = "REGISTRO_ID") as He
    by (vm_compute; reflexivity).
  split; [| split].
  - apply (registro_de_identidad columnasDeMuestra encargadoDeMuestra "080120101234"
             (mensajeDeTexto "080120101234") mundoEnRegistro Hs He); reflexivity.
  - apply (registro_de_identidad columnasDeMuestra encargadoDeMuestra "0801201099999"
             (mensajeDeTexto "0801201099999") mundoEnRegistro Hs He);
      [reflexivity | vm_compute; reflexivity].
  - eexists.
    apply (registro_de_identidad columnasDeMuestra encargadoDeMuestra "0801201012345"
             (mensajeDeTexto "0801201012345") mundoEnRegistro Hs He);
      [reflexivity | vm_compute; reflexivity].
Defined.

(** C6 as stated fails on texts that a hook takes before the state's
    handler sees them: in state REGISTRO_ID the word "menu", which is not
    13 digits, brings the user to MENU_PRINCIPAL; and so does any text, 12
    digits included, when it is the first message of the day. *)
Lemma registro_de_identidad_con_ganchos :
  let r1 := procesarMensaje columnasDeMuestra encargadoDeMuestra "menu"
              (mensajeDeTexto "menu") mundoEnRegistro in
  let r2 := procesarMensaje columnasDeMuestra encargadoDeMuestra "080120101234"
              (mensajeDeTexto "080120101234") mundoSinSaludo in
  estado (estadoDe mundoEnRegistro encargadoDeMuestra) = "REGISTRO_ID" /\
  esIdentidad "menu" = false /\
  estado (estadoDe (fst r1) encargadoDeMuestra) = "MENU_PRINCIPAL" /\
  estado (estadoDe mundoSinSaludo encargadoDeMuestra) = "REGISTRO_ID" /\
  esIdentidad "080120101234" = false /\
  estado (estadoDe (fst r2) encargadoDeMuestra) = "MENU_PRINCIPAL".
Proof. vm_compute. repeat split. Qed.

(** *** Removing a linked student *)

Lemma segunEstado_eliminar (cfg : Columnas) (remitente mensaje : string) (est : EstadoConv)
    (vinculados : list string) (primero : bool) :
  estado est = "ELIMINAR_ALUMNO" ->
  segunEstado cfg remitente mensaje est vinculados primero
  = eliminarAlumno cfg remitente mensaje est.
Proof. intros He. unfold segunEstado. rewrite He. reflexivity. Qed.

Lemma filtrado_sin (ident : string) (l : list string) :
  ident ∉ List.filter (fun i => negb (String.eqb i ident)) l.
Proof.
  intros H. apply list_elem_of_In, List.filter_In in H as [_ H].
  rewrite String.eqb_refl in H. discriminate.
Qed.

(** C10: in state ELIMINAR_ALUMNO, a text that is a valid 1-based index of
    the carried list, pointing at a linked student id that no ledger row
    matches, makes the handler remove the link and then throw a TypeError
    (it reads [nombre] of the null result): no answer is sent, no menu is
    scheduled, the state stays ELIMINAR_ALUMNO, and the link stays
    removed. *)
Theorem eliminar_alumno_sin_fila (cfg : Columnas) (remitente mensaje : string)
    (mensajeObj : MensajeWA) (w w1 : Mundo) (lista : list string) (n : Z)
    (idAlumno : string) :
  yaSaludadoHoy w remitente ->
  esComandoBroadcast mensaje = false -> esPalabraMenu mensaje = false ->
  estado (estadoDe w remitente) = "ELIMINAR_ALUMNO" ->
  alumnos (datos (estadoDe w remitente)) = Some lista ->
  parseInt10 mensaje = Some n -> (1 <= n)%Z ->
  lista !! Z.to_nat (n - 1) = Some idAlumno ->
  buscarEstudiante cfg idAlumno w = (w1, inr None) ->
  idAlumno ∈ default [] (encargados w !! remitente) ->
  exists w',
    procesarMensaje cfg remitente mensaje mensajeObj w = (w', inl TypeError) /\
    (idAlumno ∉ default [] (encargados w' !! remitente)) /\
    estadoDe w' remitente = estadoDe w remitente /\
    enviados w' = enviados w /\ temporizadores w' = temporizadores w.
Proof.
  intros Hs Hc Hm He Hl Hp Hn Hi Hb Hv.
  pose proof (buscarEstudiante_libro _ _ _ _ _ Hb)
    as (_ & _ & _ & _ & Hest & _ & Henc & _ & _ & Henv & Htem).
  rewrite procesarMensaje_despacho; try assumption; [| rewrite He; discriminate].
  rewrite segunEstado_eliminar by exact He.
  unfold eliminarAlumno, alumnoElegido, eliminarRelacion. rewrite Hl, Hp.
  replace (n - 1 <? 0)%Z with false by lia.
  correr. rewrite Hi, Hb, Henc.
  rewrite bool_decide_eq_true_2 by exact Hv.
  eexists. split; [reflexivity |]. cbn [encargados con_encargados].
  split; [| split; [| split]].
  - rewrite lookup_insert_eq. apply filtrado_sin.
  - unfold estadoDe. cbn [estados con_encargados]. rewrite Hest. reflexivity.
  - exact Henv.
  - exact Htem.
Qed.

Lemma eliminar_alumno_sin_fila_witness :
  exists w',
    procesarMensaje columnasDeMuestra encargadoDeMuestra "2" (mensajeDeTexto "2")
      mundoDeMuestra = (w', inl TypeError) /\
    ("0801201099999" ∉ default [] (encargados w' !! encargadoDeMuestra)) /\
    estadoDe w' encargadoDeMuestra = estadoDe mundoDeMuestra encargadoDeMuestra /\
    enviados w' = enviados mundoDeMuestra /\
    temporizadores w' = temporizadores mundoDeMuestra.
Proof.
  apply (eliminar_alumno_sin_fila columnasDeMuestra encargadoDeMuestra "2"
           (mensajeDeTexto "2") mundoDeMuestra mundoDeMuestra
           ["0801201012345"; "0801201099999"] 2 "0801201099999").
  - vm_compute. reflexivity.
  - reflexivity.
  - reflexivity.
  - vm_compute. reflexivity.
  - vm_compute. reflexivity.
  - reflexivity.
  - lia.
  - reflexivity.
  - vm_compute. reflexivity.
  - apply list_elem_of_In. vm_compute. right. left. reflexivity.
Defined.

(** *** Errors *)

(** C9, as the code has it: the messages.upsert handler has no try block,
    so an error thrown while procesarMensaje handles the message leaves the
    handler as it was thrown, with the world as the throw left it; the
    conversation records of the other users are not touched. *)
Theorem error_sale_del_manejador (cfg : Columnas) (msg : Msg) (resto : list Msg)
    (m : MensajeWA) (texto : string) (w w' : Mundo) (err : Excepcion) :
  message msg = Some m -> fromMe msg = false ->
  textoDe m = inr texto -> texto <> "" ->
  procesarMensaje cfg (remoteJid msg) texto m w = (w', inl err) ->
  alRecibirMensajes cfg (msg :: resto) w = (w', inl err) /\
  ajenoIntacto (remoteJid msg) w w'.
Proof.
  intros Hm Hf Ht Hne Hp. split.
  - unfold alRecibirMensajes. rewrite Hm, Hf, Ht. cbn [negb]. correr.
    apply String.eqb_neq in Hne. rewrite Hne. cbn [negb]. exact Hp.
  - eapply procesarMensaje_ajeno, Hp.
Qed.

Lemma error_sale_del_manejador_witness :
  let msg := {| fromMe := false; remoteJid := encargadoDeMuestra;
                message := Some (mensajeDeTexto " 2 ") |} in
  let w' := fst (procesarMensaje columnasDeMuestra encargadoDeMuestra "2"
                   (mensajeDeTexto " 2 ") mundoDeMuestra) in
  alRecibirMensajes columnasDeMuestra [msg] mundoDeMuestra = (w', inl TypeError) /\
  ajenoIntacto encargadoDeMuestra mundoDeMuestra w'.
Proof.
  apply (error_sale_del_manejador columnasDeMuestra
           {| fromMe := false; remoteJid := encargadoDeMuestra;
              message := Some (mensajeDeTexto " 2 ") |}
           [] (mensajeDeTexto " 2 ") "2" mundoDeMuestra).
  - reflexivity.
  - reflexivity.
  - vm_compute. reflexivity.
  - discriminate.
  - vm_compute. reflexivity.
Defined.

(** C9 as stated fails: the guardian's "2" in the sample world makes
    procesarMensaje throw a TypeError, and the handler ends with that same
    error, uncaught; nothing was written to the console, and the link that
    was removed before the throw stays removed. *)
Lemma error_no_capturado :
  let r := alRecibirMensajes columnasDeMuestra
             [{| fromMe := false; remoteJid := encargadoDeMuestra;
                 message := Some (mensajeDeTexto "2") |}] mundoDeMuestra in
  snd r = inl TypeError /\
  consola (fst r) = [] /\
  encargados (fst r) !! encargadoDeMuestra = Some ["0801201012345"].
Proof. vm_compute. repeat split. Qed.

(** *** The menu keyword *)

(** C5 fails in the broadcast menu: the administrator's "menu" is taken as
    the content to broadcast.  Both guardians on file receive the text
    "menu" before the administrator gets the count and the main menu. *)
Lemma menu_en_broadcast_se_difunde :
  let r := procesarMensaje columnasDeMuestra adminDeMuestra "menu"
             (mensajeDeTexto "menu") mundoDeMuestra in
  yaSaludadoHoy mundoDeMuestra adminDeMuestra /\
  estado (estadoDe mundoDeMuestra adminDeMuestra) = "MENU_ADMIN_BROADCAST" /\
  esPalabraMenu "menu" = true /\
  snd r = inr tt /\
  enviados (fst r) = [(encargadoDeMuestra, Texto "menu");
                      ("50477770000@s.whatsapp.net", Texto "menu");
                      (adminDeMuestra, BroadcastEnviado 2);
                      (adminDeMuestra, MenuPrincipal 0 true)] /\
  estado (estadoDe (fst r) adminDeMuestra) = "MENU_PRINCIPAL".
Proof. vm_compute. repeat split. Qed.

(** In every other state the keyword only renders the main menu and
    leaves the user in MENU_PRINCIPAL: the handler of the state it was in
    does not run. *)
Lemma menu_fuera_de_broadcast (cfg : Columnas) (remitente mensaje : string)
    (mensajeObj : MensajeWA) (w : Mundo) :
  yaSaludadoHoy w remitente ->
  estado (estadoDe w remitente) <> "MENU_ADMIN_BROADCAST" ->
  esPalabraMenu mensaje = true ->
  exists w', procesarMensaje cfg remitente mensaje mensajeObj w = (w', inr tt) /\
    enviados w' = enviados w ++
      [(remitente, MenuPrincipal (length (default [] (encargados w !! remitente)))
                                 (bool_decide (remitente ∈ admins w)))] /\
    estadoDe w' remitente = {| estado := "MENU_PRINCIPAL"; datos := sinDatos |} /\
    encargados w' = encargados w /\ temporizadores w' = temporizadores w.
Proof.
  intros Hs He Hm. eexists. split.
  - apply procesarMensaje_palabra_menu; assumption.
  - unfold estadoDe, trasEnviar, trasEstablecer. cbn.
    rewrite lookup_insert_eq. repeat split.
Qed.

End Conversacion.

(** ** Further properties: the workbook cache *)

Section CacheDelLibro.

Import StudentExcelService Muestras.

Ltac desplegar :=
  unfold consoleError in *;
  unfold mbind, mret, M_bind, M_ret, tryCatch, gets, modify, throw, lift in *.

(** The retry loop asks again only after a failure: with [k] failures
    before the first answer, and [k] below the number of attempts, it
    returns that answer, has consumed exactly [k + 1] outcomes and has
    written one console line for each failure. *)
Lemma downloadExcelWithRetry_exito (n k : nat) (buffer : option Libro)
    (resto : list (option (option Libro))) (w : Mundo) :
  (k < n)%nat ->
  red w = replicate k None ++ Some buffer :: resto ->
  downloadExcelWithRetry n w
  = (con_consola (consola w ++ replicate k "Error en descarga intento") (con_red resto w),
     inr (Some buffer)).
Proof.
  revert k w. induction n as [| n IH]; intros k w Hk Hr; [lia |].
  cbn [downloadExcelWithRetry]. desplegar. unfold axiosGet at 1.
  destruct k as [| k]; cbn [replicate app] in Hr; rewrite Hr.
  - cbn [replicate]. rewrite app_nil_r. destruct w. reflexivity.
  - destruct n as [| n']; [lia |]. cbv beta iota.
    erewrite (IH k _ ltac:(lia)); [| reflexivity].
    unfold con_consola, con_red. cbn. rewrite <- app_assoc. reflexivity.
Qed.

Lemma con_red_mismo (w : Mundo) : con_consola (consola w ++ []) (con_red (red w) w) = w.
Proof. destruct w. cbn. rewrite app_nil_r. reflexivity. Qed.

(** Whatever the loop ends with, it has consumed at most [n] outcomes and
    touched nothing else but the console. *)
Lemma downloadExcelWithRetry_consumo (n : nat) (w w' : Mundo)
    (r : Excepcion + option (option Libro)) :
  downloadExcelWithRetry n w = (w', r) ->
  exists k lineas, (k <= n)%nat /\
    w' = con_consola (consola w ++ lineas) (con_red (drop k (red w)) w).
Proof.
  revert w. induction n as [| n IH]; intros w H.
  - cbn in H. desplegar. simplify_eq. exists 0%nat, []. rewrite drop_0, con_red_mismo. auto.
  - cbn [downloadExcelWithRetry] in H. desplegar. unfold axiosGet at 1 in H.
    destruct (red w) as [| [buffer |] resto] eqn:Hr.
    + destruct n as [| n'].
      * simplify_eq. exists 0%nat, ["Error en descarga intento"].
        split; [lia |]. rewrite drop_0, <- Hr. destruct w. reflexivity.
      * apply IH in H as (k & lineas & Hk & ->).
        exists k, ("Error en descarga intento" :: lineas). split; [lia |].
        unfold con_consola, con_red. cbn. rewrite <- app_assoc, Hr. reflexivity.
    + simplify_eq. exists 1%nat, []. split; [lia |].
      unfold con_consola, con_red. cbn. rewrite app_nil_r. reflexivity.
    + destruct n as [| n'].
      * simplify_eq. exists 1%nat, ["Error en descarga intento"]. split; [lia | reflexivity].
      * apply IH in H as (k & lineas & Hk & ->).
        exists (S k), ("Error en descarga intento" :: lineas). split; [lia |].
        unfold con_consola, con_red. cbn. rewrite <- app_assoc. reflexivity.
Qed.

(** X1: a call of getWorkbook makes at most three requests, and none at
    all while the cached workbook is at most an hour old, which it then
    returns as it is; a call that throws leaves the cached workbook and its
    timestamp as they were, and a call that returns has the workbook it
    returns in the cache. *)
Theorem getWorkbook_peticiones (w : Mundo) :
  match getWorkbook w with
  | (w', r) =>
    exists k, (k <= 3)%nat /\ red w' = drop k (red w) /\
      (forall libro, cachedWorkbook w = Some libro ->
         (reloj w - lastFetchTime w <= CACHE_REFRESH_INTERVAL)%Z ->
         w' = w /\ r = inr libro) /\
      (forall err, r = inl err ->
         cachedWorkbook w' = cachedWorkbook w /\ lastFetchTime w' = lastFetchTime w) /\
      (forall libro, r = inr libro -> cachedWorkbook w' = Some libro)
  end.
Proof.
  assert (forall w' r, actualizarCache (reloj w) w = (w', r) ->
            exists k, (k <= 3)%nat /\ red w' = drop k (red w) /\
              (forall err, r = inl err ->
                 cachedWorkbook w' = cachedWorkbook w /\
                 lastFetchTime w' = lastFetchTime w) /\
              (forall libro, r = inr libro -> cachedWorkbook w' = Some libro)) as Hact.
  { intros w' r H. unfold actualizarCache, loadWorkbook in H. desplegar.
    destruct (downloadExcelWithRetry MAX_RETRIES w) as [w1 [err | buffer]] eqn:Hd;
      apply downloadExcelWithRetry_consumo in Hd as (k & lineas & Hk & ->);
      exists k; (split; [exact Hk |]).
    - simplify_eq. split; [reflexivity |].
      split; intros; simplify_eq; split; reflexivity.
    - destruct buffer as [[libro |] |]; simplify_eq; (split; [reflexivity |]);
        split; intros; simplify_eq; try (split; reflexivity); reflexivity. }
  unfold getWorkbook. desplegar.
  destruct (cachedWorkbook w) as [libro |] eqn:Hc.
  - destruct (Z.ltb_spec CACHE_REFRESH_INTERVAL (reloj w - lastFetchTime w)) as [Hv | Hf].
    + destruct (actualizarCache (reloj w) w) as [w' r] eqn:Ha.
      destruct (Hact w' r eq_refl) as (k & Hk & Hr & He & Hl).
      exists k. split; [exact Hk |]. split; [exact Hr |]. split; [| split].
      * intros libro' _ Hf. lia.
      * exact He.
      * exact Hl.
    + exists 0%nat. rewrite drop_0. split; [lia |]. split; [reflexivity |].
      split; [| split].
      * intros libro' Hl _. simplify_eq. split; reflexivity.
      * intros err Herr. discriminate.
      * intros libro' Hl. simplify_eq. exact Hc.
  - destruct (actualizarCache (reloj w) w) as [w' r] eqn:Ha.
    destruct (Hact w' r eq_refl) as (k & Hk & Hr & He & Hl).
    exists k. split; [exact Hk |]. split; [exact Hr |]. split; [| split].
    + intros libro' Hl' _. discriminate.
    + exact He.
    + exact Hl.
Qed.

(** X2: when the cache is empty or more than an hour old and one of the
    first three requests brings a workbook, getWorkbook returns the new
    workbook, puts it in the cache stamped with the time read at the start
    of the call, and has consumed the outcomes up to that request. *)
Theorem getWorkbook_renueva (w : Mundo) (k : nat) (libro : Libro)
    (resto : list (option (option Libro))) :
  cachedWorkbook w = None \/
    (CACHE_REFRESH_INTERVAL < reloj w - lastFetchTime w)%Z ->
  (k < 3)%nat ->
  red w = replicate k None ++ Some (Some libro) :: resto ->
  match getWorkbook w with
  | (w', r) =>
    r = inr libro /\ cachedWorkbook w' = Some libro /\
    lastFetchTime w' = reloj w /\ red w' = resto
  end.
Proof.
  intros Hv Hk Hr.
  assert (actualizarCache (reloj w) w
          = (con_lastFetchTime (reloj w)
               (con_cachedWorkbook (Some libro)
                  (con_consola (consola w ++ replicate k "Error en descarga intento")
                     (con_red resto w))), inr libro)) as Ha.
  { unfold actualizarCache, loadWorkbook. desplegar.
    rewrite (downloadExcelWithRetry_exito MAX_RETRIES k (Some libro) resto w Hk Hr).
    reflexivity. }
  assert (getWorkbook w = actualizarCache (reloj w) w) as ->.
  { unfold getWorkbook. desplegar.
    destruct (cachedWorkbook w) as [viejo |] eqn:Hc; [| reflexivity].
    destruct Hv as [Hv | Hv]; [discriminate |].
    replace (CACHE_REFRESH_INTERVAL <? reloj w - lastFetchTime w)%Z with true
      by (symmetry; apply Z.ltb_lt; exact Hv).
    reflexivity. }
  rewrite Ha. repeat split.
Qed.

Lemma getWorkbook_renueva_witness :
  match getWorkbook mundoVencido with
  | (w', r) =>
    r = inr libroSinNombre /\ cachedWorkbook w' = Some libroSinNombre /\
    lastFetchTime w' = reloj mundoVencido /\ red w' = []
  end.
Proof.
  apply (getWorkbook_renueva mundoVencido 1 libroSinNombre []).
  - right. vm_compute. reflexivity.
  - lia.
  - reflexivity.
Defined.

(** With the cache empty or stale and three failing requests ahead, the
    refresh gives up after the third, each failure on the console. *)
Lemma getWorkbook_falla (w : Mundo) (resto : list (option (option Libro))) :
  cachedWorkbook w = None \/
    (CACHE_REFRESH_INTERVAL < reloj w - lastFetchTime w)%Z ->
  red w = None :: None :: None :: resto ->
  getWorkbook w
  = (con_consola (consola w ++ replicate 3 "Error en descarga intento") (con_red resto w),
     inl (ErrorDe "No se pudo descargar el archivo Excel después de varios intentos.")).
Proof.
  intros Hv Hr.
  assert (actualizarCache (reloj w) w
          = (con_consola (consola w ++ replicate 3 "Error en descarga intento")
               (con_red resto w),
             inl (ErrorDe "No se pudo descargar el archivo Excel después de varios intentos.")))
    as Ha.
  { unfold actualizarCache, MAX_RETRIES. desplegar. cbn [downloadExcelWithRetry].
    desplegar. unfold axiosGet. rewrite Hr. cbn. rewrite <- !app_assoc. reflexivity. }
  rewrite <- Ha. unfold getWorkbook. desplegar.
  destruct (cachedWorkbook w) as [viejo |] eqn:Hc; [| reflexivity].
  destruct Hv as [Hv | Hv]; [discriminate |].
  replace (CACHE_REFRESH_INTERVAL <? reloj w - lastFetchTime w)%Z with true
    by (symmetry; apply Z.ltb_lt; exact Hv).
  reflexivity.
Qed.

(** X3: when the cache is empty or more than an hour old and the first
    three requests fail, getWorkbook throws its fixed error after exactly
    three requests; a workbook that was cached stays cached, with its old
    timestamp, but is not served. *)
Theorem getWorkbook_sin_red (w : Mundo) (resto : list (option (option Libro))) :
  cachedWorkbook w = None \/
    (CACHE_REFRESH_INTERVAL < reloj w - lastFetchTime w)%Z ->
  red w = None :: None :: None :: resto ->
  match getWorkbook w with
  | (w', r) =>
    r = inl (ErrorDe "No se pudo descargar el archivo Excel después de varios intentos.") /\
    red w' = resto /\
    cachedWorkbook w' = cachedWorkbook w /\ lastFetchTime w' = lastFetchTime w
  end.
Proof.
  intros Hv Hr. rewrite (getWorkbook_falla w resto Hv Hr). repeat split.
Qed.

Lemma getWorkbook_sin_red_witness :
  match getWorkbook mundoSinRed with
  | (w', r) =>
    r = inl (ErrorDe "No se pudo descargar el archivo Excel después de varios intentos.") /\
    red w' = [Some (Some libroSinNombre)] /\
    cachedWorkbook w' = cachedWorkbook mundoSinRed /\
    lastFetchTime w' = lastFetchTime mundoSinRed
  end.
Proof.
  apply (getWorkbook_sin_red mundoSinRed [Some (Some libroSinNombre)]).
  - right. vm_compute. reflexivity.
  - reflexivity.
Defined.

End CacheDelLibro.

(** ** Further properties: the ledger lookup and the debt *)

Section FilaYDeuda.

Import JS StudentService Muestras.

Ltac desplegar :=
  unfold mbind, mret, M_bind, M_ret, tryCatch, gets, modify, throw, lift,
    consoleError in *.

(** The only amount cell that cannot be read is an object whose [text] is
    truthy and not a string. *)
Lemma leerTotalPagar_error (v : Valor) (err : Excepcion) :
  leerTotalPagar v = inl err <->
  err = TypeError /\
  exists text result, v = Objeto text result /\ esVerdadero text = true /\
                      forall t, text <> Cadena t.
Proof.
  split.
  - destruct v as [| | x | s | b | t | text result]; cbn; try discriminate.
    + destruct (includes s ","); discriminate.
    + destruct (esVerdadero text) eqn:Ht.
      * destruct text; intros H; simplify_eq;
          (split; [reflexivity | eexists _, _; split; [reflexivity | split; [exact Ht | discriminate]]]).
      * destruct (esVerdadero result); discriminate.
  - intros (-> & text & result & -> & Ht & Hn). cbn. rewrite Ht.
    destruct text; try reflexivity. destruct (Hn s eq_refl).
Qed.

Lemma construirEstudiante_error (cfg : Columnas) (fila : gmap string Valor)
    (ident : string) (err : Excepcion) :
  construirEstudiante cfg fila ident = inl err <->
  err = TypeError /\
  exists text result, getCell fila (TOTAL_PAGAR cfg) = Objeto text result /\
                      esVerdadero text = true /\ forall t, text <> Cadena t.
Proof.
  rewrite <- leerTotalPagar_error. unfold construirEstudiante.
  destruct (leerTotalPagar _); split; intros H; simplify_eq; reflexivity.
Qed.

Lemma eachRow_error (cfg : Columnas) (ident : string)
    (hoja : list (Z * gmap string Valor)) (estudiante : option Estudiante)
    (err : Excepcion) :
  eachRow cfg hoja ident estudiante = inl err <->
  err = TypeError /\
  Exists (fun fila => construirEstudiante cfg fila ident = inl TypeError)
         (filasCoincidentes cfg hoja ident).
Proof.
  unfold filasCoincidentes.
  revert estudiante. induction hoja as [| [rowNumber fila] resto IH]; intros estudiante.
  - cbn. split; [discriminate | intros [_ H]; inversion H].
  - cbn [eachRow List.filter].
    destruct (Z.ltb_spec rowNumber 3) as [Hlt | Hge].
    + replace (3 <=? rowNumber)%Z with false by lia. cbn [andb]. apply IH.
    + replace (3 <=? rowNumber)%Z with true by lia. cbn [andb].
      destruct (coincide cfg fila ident); [| apply IH].
      cbn [map snd]. rewrite Exists_cons.
      destruct (construirEstudiante cfg fila ident) as [e0 | e] eqn:He.
      * pose proof (proj1 (construirEstudiante_error _ _ _ _) He) as [-> _].
        split; [intros H; simplify_eq; auto | intros [-> _]; reflexivity].
      * rewrite IH. split; [intros [-> H]; auto | intros [-> [H | H]]; [discriminate | auto]].
Qed.

(** X4: the lookup in a sheet throws exactly when, among the rows after the
    two header rows whose identity cell matches, one has an amount cell
    that is an object with a truthy [text] that is not a string; what it
    throws is then a TypeError, even when a later matching row is
    readable. *)
Theorem buscarEnHoja_fila_ilegible (cfg : Columnas) (hoja : list (Z * gmap string Valor))
    (ident : string) (err : Excepcion) :
  buscarEnHoja cfg hoja ident = inl err <->
  err = TypeError /\
  Exists (fun fila => exists text result,
            getCell fila (TOTAL_PAGAR cfg) = Objeto text result /\
            esVerdadero text = true /\ forall t, text <> Cadena t)
         (filasCoincidentes cfg hoja ident).
Proof.
  unfold buscarEnHoja. rewrite eachRow_error.
  split; intros [-> H]; (split; [reflexivity |]);
    (eapply Exists_impl; [exact H |]); intros fila Hf.
  - apply construirEstudiante_error in Hf as [_ Hf]. exact Hf.
  - apply construirEstudiante_error. auto.
Qed.





(** X6: for a student built from a ledger row, calcularDeuda throws exactly
    when the amount cell is an object without a truthy [text] whose
    [result] is truthy and not a number (a formula that evaluates to a
    text, a date or an error), and what it throws is a TypeError: the
    monthly amount is then that result, which has no toFixed. *)
Theorem deuda_de_la_fila_lanza (cfg : Columnas) (fila : gmap string Valor) (ident : string)
    (ahora : Ahora) (e : Estudiante) :
  construirEstudiante cfg fila ident = inr e ->
  (calcularDeuda cfg ahora e = inl TypeError <->
   exists text result, getCell fila (TOTAL_PAGAR cfg) = Objeto text result /\
     esVerdadero text = false /\ esVerdadero result = true /\
     forall x, result <> Numero x) /\
  (forall err, calcularDeuda cfg ahora e = inl err -> err = TypeError).
Proof.
  intros He. split.
  2:{ intros err H. unfold calcularDeuda in H. destruct (totalPagar e); congruence. }
  unfold construirEstudiante in He.
  destruct (leerTotalPagar (getCell fila (TOTAL_PAGAR cfg))) as [err | total] eqn:Hl;
    simplify_eq.
  unfold calcularDeuda. cbn [totalPagar].
  destruct (getCell fila (TOTAL_PAGAR cfg)) as [| | x | s | b | t | text result];
    cbn in Hl; simplify_eq;
    try (split; [discriminate | intros (? & ? & ? & _); discriminate]).
  - destruct (includes s ","); simplify_eq;
      (split; [discriminate | intros (? & ? & ? & _); discriminate]).
  - destruct (esVerdadero text) eqn:Ht.
    + destruct text; simplify_eq.
      split; [discriminate | intros (? & ? & ? & ? & _); simplify_eq; congruence].
    + destruct (esVerdadero result) eqn:Hr; simplify_eq.
      * split.
        -- intros H. exists text, total. repeat split; try assumption.
           intros x ->. discriminate.
        -- intros (? & ? & ? & _ & _ & Hn). simplify_eq.
           match goal with
           | Hn : forall x, ?r <> Numero x |- _ =>
             destruct r; try reflexivity; destruct (Hn _ eq_refl)
           end.
      * split; [discriminate |].
        intros (? & ? & ? & _ & Hr' & _). simplify_eq. congruence.
Qed.

Lemma deuda_de_la_fila_lanza_witness :
  (calcularDeuda columnasDeMuestra veinteDeJunio luisDeLaFila = inl TypeError <->
   exists text result, getCell filaConFormula (TOTAL_PAGAR columnasDeMuestra)
                       = Objeto text result /\
     esVerdadero text = false /\ esVerdadero result = true /\
     forall x, result <> Numero x) /\
  (forall err, calcularDeuda columnasDeMuestra veinteDeJunio luisDeLaFila = inl err ->
               err = TypeError).
Proof.
  apply (deuda_de_la_fila_lanza columnasDeMuestra filaConFormula "0801201012346"
           veinteDeJunio luisDeLaFila).
  vm_compute. reflexivity.
Defined.

Lemma soloDigitos_sin_coma (d : string) : soloDigitos d = true -> includes d "," = false.
Proof.
  induction d as [| c d IH]; [reflexivity |].
  cbn [soloDigitos includes]. intros H. apply andb_true_iff in H as [Hc Hd].
  rewrite (IH Hd), orb_false_r. cbn [String.prefix].
  destruct (ascii_dec "," c) as [<- |]; [discriminate | reflexivity].
Qed.

Lemma soloNumerico_digitos (d : string) : soloDigitos d = true -> soloNumerico d = d.
Proof.
  induction d as [| c d IH]; [reflexivity |].
  cbn [soloDigitos soloNumerico]. intros H. apply andb_true_iff in H as [Hc Hd].
  rewrite Hc, (IH Hd). reflexivity.
Qed.

(** X7: an amount cell that holds a text never yields NaN (what does not
    parse counts as 0), and a text made of the currency prefix "L. " and
    digits, with no thousands separator, is read as the fraction that the
    dot of the prefix and the digits spell: the dot survives the clean-up. *)
Theorem monto_de_texto (d : string) :
  soloDigitos d = true ->
  leerTotalPagar (Cadena ("L. " +:+ d)) = inr (Numero (parseFloatO0 ("." +:+ d))) /\
  forall s, exists x, leerTotalPagar (Cadena s) = inr (Numero x) /\ is_nan x = false.
Proof.
  intros Hd. split.
  - cbn [leerTotalPagar].
    change (includes ("L. " +:+ d) ",") with (includes d ",").
    rewrite (soloDigitos_sin_coma d Hd).
    change (soloNumerico ("L. " +:+ d)) with ("." +:+ soloNumerico d).
    rewrite (soloNumerico_digitos d Hd). reflexivity.
  - assert (forall t, is_nan (parseFloatO0 t) = false) as Hnan.
    { intros t. unfold parseFloatO0, numeroVerdadero.
      destruct (is_zero (parseFloat t) || is_nan (parseFloat t)) eqn:Hz; cbn [negb].
      - reflexivity.
      - apply orb_false_iff in Hz as [_ Hz]. exact Hz. }
    intros s. cbn [leerTotalPagar]. destruct (includes s ","); eexists; split;
      try reflexivity; apply Hnan.
Qed.

Lemma monto_de_texto_witness :
  leerTotalPagar (Cadena ("L. " +:+ "500")) = inr (Numero (parseFloatO0 ("." +:+ "500"))) /\
  forall s, exists x, leerTotalPagar (Cadena s) = inr (Numero x) /\ is_nan x = false.
Proof. apply (monto_de_texto "500"). reflexivity. Defined.

(** X8: for a pending period, at a valid clock reading, the late fee is due
    exactly when the period is before the previous month, or is the
    previous month and the 11th at 00:00 has passed; the period of the
    current month never carries one, a pending December in particular, and
    the December-in-January adjustment of the due year never applies to a
    pending period. *)
Theorem vencimiento_de_pendientes (cfg : Columnas) (ahora : Ahora) (e : Estudiante)
    (m : Mes) :
  relojValido ahora ->
  In m (pendientes cfg ahora e) ->
  vencido ahora (num m)
  = ((num m + 1 <? mesActual ahora) ||
     ((num m + 1 =? mesActual ahora) &&
      ((11 <? dia ahora) || ((dia ahora =? 11) && (0 <? msDelDia ahora)))))%Z /\
  ((num m =? 12) && (mesActual ahora =? 1))%Z = false /\
  (num m = mesActual ahora -> vencido ahora (num m) = false).
Proof.
  intros Hv Hin.
  pose proof (pendientes_num cfg ahora e m Hin) as Hn.
  pose proof Hv as (_ & Hmes & _).
  assert (1 <= num m <= 12)%Z as Hp by (unfold mesActual in Hn; lia).
  assert (vencido ahora (num m)
          = ((num m + 1 <? mesActual ahora) ||
             ((num m + 1 =? mesActual ahora) &&
              ((11 <? dia ahora) || ((dia ahora =? 11) && (0 <? msDelDia ahora)))))%Z)
    as Hforma.
  { rewrite (vencido_segun_calendario ahora (num m) Hv Hp).
    unfold mesSiguiente, despuesDelDia11.
    destruct (Z.eqb_spec (num m) 12) as [H12 | H12].
    - replace (mesActual ahora =? 1)%Z with false by (unfold mesActual in *; lia).
      replace (anio ahora + 1 <? anio ahora)%Z with false by lia.
      replace (anio ahora + 1 =? anio ahora)%Z with false by lia.
      replace (num m + 1 <? mesActual ahora)%Z with false by (unfold mesActual in *; lia).
      replace (num m + 1 =? mesActual ahora)%Z with false by (unfold mesActual in *; lia).
      reflexivity.
    - rewrite Z.ltb_irrefl, Z.eqb_refl. reflexivity. }
  split; [exact Hforma |]. split.
  - unfold mesActual in *. destruct (Z.eqb_spec (num m) 12); [| reflexivity].
    cbn [andb]. lia.
  - intros Heq. rewrite Hforma.
    replace (num m + 1 <? mesActual ahora)%Z with false by lia.
    replace (num m + 1 =? mesActual ahora)%Z with false by lia.
    reflexivity.
Qed.

Lemma vencimiento_de_pendientes_witness :
  let m := {| nombreMes := "mayo"; num := 5 |} in
  vencido veinteDeJunio (num m)
  = ((num m + 1 <? mesActual veinteDeJunio) ||
     ((num m + 1 =? mesActual veinteDeJunio) &&
      ((11 <? dia veinteDeJunio) ||
       ((dia veinteDeJunio =? 11) && (0 <? msDelDia veinteDeJunio)))))%Z /\
  ((num m =? 12) && (mesActual veinteDeJunio =? 1))%Z = false /\
  (num m = mesActual veinteDeJunio -> vencido veinteDeJunio (num m) = false).
Proof.
  apply (vencimiento_de_pendientes columnasDeMuestra veinteDeJunio estudianteDeMuestra
           {| nombreMes := "mayo"; num := 5 |}).
  - repeat split; vm_compute; congruence.
  - vm_compute. left. reflexivity.
Defined.

Lemma filter_ninguno {A : Type} (p : A -> bool) (l : list A) :
  (forall x, p x = false) -> List.filter p l = [].
Proof.
  intros H. induction l as [| a l IH]; [reflexivity |]. cbn. rewrite H. exact IH.
Qed.

(** X9: in January a student under plan A (column H holds the number 10)
    has no period to pay yet: whatever the month cells hold, there is no
    pending period and no late fee, and the student counts as up to
    date. *)
Theorem plan_A_en_enero (cfg : Columnas) (ahora : Ahora) (e : Estudiante) (cuota : float) :
  planDePago e = Numero 10 -> mesIndice ahora = 0%Z -> totalPagar e = Numero cuota ->
  calcularDeuda cfg ahora e
  = inr {| deudaMensualidad := toFixed2 (cuota * 0)%float; deudaMora := "0.00";
           totalDeuda := toFixed2 (cuota * 0 + 0)%float; mesesPendientes := [];
           cuotaMensual := toFixed2 cuota; alDia := true |}.
Proof.
  intros Hplan Hmes Ht.
  assert (pendientes cfg ahora e = []) as Hp.
  { unfold pendientes, inicioMes, mesActual. rewrite Hplan, Hmes.
    change (PrimFloat.eqb 10 10) with true. cbv iota.
    rewrite (filter_ninguno (fun m => (2 <=? num m) && (num m <=? 0 + 1))%Z).
    - reflexivity.
    - intros m. destruct (Z.leb_spec 2 (num m)); [| reflexivity].
      cbn [andb]. apply Z.leb_gt. lia. }
  unfold calcularDeuda. rewrite Ht, Hp. reflexivity.
Qed.

Lemma plan_A_en_enero_witness :
  calcularDeuda columnasDeMuestra quinceDeEnero estudianteDeMuestra
  = inr {| deudaMensualidad := toFixed2 (500 * 0)%float; deudaMora := "0.00";
           totalDeuda := toFixed2 (500 * 0 + 0)%float; mesesPendientes := [];
           cuotaMensual := toFixed2 500; alDia := true |}.
Proof.
  apply (plan_A_en_enero columnasDeMuestra quinceDeEnero estudianteDeMuestra 500);
    reflexivity.
Defined.

(** X10: when the workbook has no sheet named "Matricula 2025", the lookup
    reads its sixth worksheet, whatever its name; with fewer than six
    worksheets it throws a TypeError for every id; and an error of the row
    scan leaves buscarEstudiante as it was thrown. *)
Theorem buscarEstudiante_sexta_hoja (cfg : Columnas) (ident : string) (w w1 : Mundo)
    (libro : Libro) :
  StudentExcelService.getWorkbook w = (w1, inr libro) ->
  getWorksheet libro "Matricula 2025" = None ->
  snd (buscarEstudiante cfg ident w)
  = match libro !! 5%nat with
    | Some (_, hoja) => buscarEnHoja cfg hoja ident
    | None => inl TypeError
    end.
Proof.
  intros Hg Hn. unfold buscarEstudiante, hojaMatricula. desplegar.
  rewrite Hg, Hn. destruct (libro !! 5%nat) as [[n hoja] |]; cbn [fmap option_fmap option_map snd];
    [| reflexivity].
  destruct (buscarEnHoja cfg hoja ident); reflexivity.
Qed.

Lemma buscarEstudiante_sexta_hoja_witness :
  snd (buscarEstudiante columnasDeMuestra "0801201012345" mundoVencido)
  = match libroSinNombre !! 5%nat with
    | Some (_, hoja) => buscarEnHoja columnasDeMuestra hoja "0801201012345"
    | None => inl TypeError
    end.
Proof.
  apply (buscarEstudiante_sexta_hoja columnasDeMuestra "0801201012345" mundoVencido
           (fst (StudentExcelService.getWorkbook mundoVencido)) libroSinNombre).
  - vm_compute. reflexivity.
  - reflexivity.
Defined.

End FilaYDeuda.

(** ** Further properties: the Dropbox client and the retry loop *)

Section Reintentos.

Import DropboxService Conteo.

Variable getCacheKey : string -> string.

Ltac desplegar :=
  unfold mbind, mret, M_bind, M_ret, tryCatch, gets, modify, throw, lift in *.

Lemma cuenta_llamada (p : Llamada -> bool) (l : Llamada) (exito : bool) (w : Entorno) :
  cuenta p (con_llamada l exito w) = (cuenta p w + if p l then 1 else 0)%nat.
Proof.
  unfold cuenta, con_llamada. cbn [llamadas].
  rewrite List.filter_app, length_app. cbn. destruct (p l); reflexivity.
Qed.

Lemma cota_refl (w : Entorno) : cota 0 0 0 w w.
Proof. unfold cota. lia. Qed.

Lemma cota_trans (a b c a' b' c' : nat) (w1 w2 w3 : Entorno) :
  cota a b c w1 w2 -> cota a' b' c' w2 w3 -> cota (a + a') (b + b') (c + c') w1 w3.
Proof. unfold cota. lia. Qed.

Lemma cota_mono (a b c a' b' c' : nat) (w w' : Entorno) :
  (a <= a')%nat -> (b <= b')%nat -> (c <= c')%nat -> cota a b c w w' -> cota a' b' c' w w'.
Proof. unfold cota. lia. Qed.

Lemma cota_llamadas (a b c : nat) (w w1 w' : Entorno) :
  llamadas w1 = llamadas w -> cota a b c w1 w' -> cota a b c w w'.
Proof. unfold cota, cuenta. intros ->. auto. Qed.

Lemma cota_llamadas_fin (a b c : nat) (w w1 w' : Entorno) :
  llamadas w' = llamadas w1 -> cota a b c w w1 -> cota a b c w w'.
Proof. unfold cota, cuenta. intros ->. auto. Qed.

Lemma llamar_cota {A : Type} (l : Llamada) (respuesta : Entorno -> Excepcion + A)
    (w w' : Entorno) (r : Excepcion + A) :
  llamar l respuesta w = (w', r) ->
  cota (if esDescarga l then 1 else 0) (if esMetadatos l then 1 else 0)
       (if esToken l then 1 else 0) w w'.
Proof.
  intros H. apply llamar_spec in H as (-> & _). unfold cota.
  rewrite !cuenta_llamada. destruct l; cbn; lia.
Qed.

Lemma refreshDropboxToken_cota (w w' : Entorno) (r : Excepcion + option string) :
  refreshDropboxToken w = (w', r) -> cota 0 0 1 w w'.
Proof.
  unfold refreshDropboxToken. desplegar. intros H.
  destruct (llamar PedirToken _ w) as [w1 [err | t]] eqn:Hl;
    apply llamar_cota in Hl; simplify_eq; [exact Hl |].
  eapply cota_llamadas_fin; [| exact Hl]. reflexivity.
Qed.

Lemma getDropboxClient_cota (w w' : Entorno) (r : Excepcion + unit) :
  getDropboxClient w = (w', r) -> cota 0 0 1 w w'.
Proof.
  unfold getDropboxClient. desplegar. intros H.
  destruct (negb (tokenVerdadero (accessToken w)) || _).
  - destruct (refreshDropboxToken w) as [w1 [err | t]] eqn:Hr;
      apply refreshDropboxToken_cota in Hr; simplify_eq; [exact Hr |].
    destruct (dropboxInstance w1); simplify_eq; [exact Hr |].
    eapply cota_llamadas_fin; [| exact Hr]. reflexivity.
  - destruct (dropboxInstance w); simplify_eq.
    + apply cota_mono with 0%nat 0%nat 0%nat; try lia. apply cota_refl.
    + apply cota_mono with 0%nat 0%nat 0%nat; try lia.
      eapply cota_llamadas_fin; [| apply cota_refl]. reflexivity.
Qed.

Lemma intentar_cota (dropboxPath : string) (w w' : Entorno) (r : Excepcion + string) :
  intentar getCacheKey dropboxPath w = (w', r) -> cota 1 0 1 w w'.
Proof.
  unfold intentar. desplegar. intros H.
  destruct (getDropboxClient w) as [w1 [err | []]] eqn:Hc;
    apply getDropboxClient_cota in Hc; simplify_eq.
  { apply cota_mono with 0%nat 0%nat 1%nat; try lia. exact Hc. }
  destruct (llamar (FilesDownload dropboxPath) _ w1) as [w2 [err | resp]] eqn:Hl;
    apply llamar_cota in Hl; cbn in Hl; simplify_eq.
  - apply (cota_trans _ _ _ _ _ _ _ _ _ Hc Hl).
  - eapply cota_llamadas_fin; [| apply (cota_trans _ _ _ _ _ _ _ _ _ Hc Hl)]. reflexivity.
Qed.

Lemma reintentar_cota (dropboxPath : string) (restantes : nat)
    (lastError : option Excepcion) (w w' : Entorno) (r : Excepcion + string) :
  reintentar getCacheKey dropboxPath restantes lastError w = (w', r) ->
  cota restantes 0 (2 * restantes) w w'.
Proof.
  revert lastError w. induction restantes as [| n IH]; intros lastError w H.
  - cbn in H. unfold throw in H. simplify_eq. apply cota_refl.
  - cbn [reintentar] in H.
    destruct (intentar getCacheKey dropboxPath w) as [w1 [error | ruta]] eqn:Hi;
      apply intentar_cota in Hi.
    + destruct (tokenExpirado error).
      * desplegar.
        destruct (refreshDropboxToken _) as [w2 [err | t]] eqn:Hr;
          apply refreshDropboxToken_cota in Hr;
          (eapply cota_llamadas in Hr; [| reflexivity]).
        -- simplify_eq. apply cota_mono with (1 + 0)%nat (0 + 0)%nat (1 + 1)%nat; try lia.
           apply (cota_trans _ _ _ _ _ _ _ _ _ Hi Hr).
        -- apply IH in H.
           apply cota_mono with (1 + 0 + n)%nat (0 + 0 + 0)%nat (1 + 1 + 2 * n)%nat; try lia.
           apply (cota_trans _ _ _ _ _ _ _ _ _ (cota_trans _ _ _ _ _ _ _ _ _ Hi Hr) H).
      * simplify_eq. apply cota_mono with 1%nat 0%nat 1%nat; try lia. exact Hi.
    + simplify_eq. apply cota_mono with 1%nat 0%nat 1%nat; try lia. exact Hi.
Qed.

Lemma verificarCache_cota (dropboxPath : string) (opts : Opciones)
    (w w' : Entorno) (r : Excepcion + option string) :
  verificarCache getCacheKey dropboxPath opts w = (w', r) -> cota 0 1 1 w w'.
Proof.
  unfold verificarCache. desplegar. intros H.
  destruct (useCache opts && negb (forceRefresh opts) && _ && _).
  2:{ simplify_eq. apply cota_mono with 0%nat 0%nat 0%nat; try lia. apply cota_refl. }
  destruct (archivos w !! metaPathDe _) as [[c | rv sm ca] |];
    try (simplify_eq; apply cota_mono with 0%nat 0%nat 0%nat; try lia; apply cota_refl).
  destruct (getDropboxClient w) as [w1 [err | []]] eqn:Hc;
    apply getDropboxClient_cota in Hc; simplify_eq.
  { apply cota_mono with 0%nat 0%nat 1%nat; try lia. exact Hc. }
  destruct (llamar (FilesGetMetadata dropboxPath) _ w1) as [w2 [err | meta]] eqn:Hl;
    apply llamar_cota in Hl; cbn in Hl.
  - simplify_eq. apply (cota_trans _ _ _ _ _ _ _ _ _ Hc Hl).
  - destruct (String.eqb (rev meta) rv); simplify_eq;
      apply (cota_trans _ _ _ _ _ _ _ _ _ Hc Hl).
Qed.

(** X11: one call of downloadWithRetry makes at most [maxRetries] download
    calls, at most one metadata call, and at most [2 * maxRetries + 1]
    token requests, whether it returns or throws. *)
Theorem downloadWithRetry_cotas (dropboxPath : string) (opts : Opciones) (w : Entorno) :
  match downloadWithRetry getCacheKey dropboxPath opts w with
  | (w', _) => cota (maxRetries opts) 1 (2 * maxRetries opts + 1) w w'
  end.
Proof.
  destruct (downloadWithRetry getCacheKey dropboxPath opts w) as [w' r] eqn:H.
  unfold downloadWithRetry in H. desplegar.
  destruct (verificarCache getCacheKey dropboxPath opts w) as [w1 [err | enCache]] eqn:Hv;
    apply verificarCache_cota in Hv.
  - simplify_eq. eapply cota_mono; [| | | exact Hv]; lia.
  - destruct enCache as [ruta |].
    + simplify_eq. eapply cota_mono; [| | | exact Hv]; lia.
    + apply reintentar_cota in H.
      eapply cota_mono; [| | | apply (cota_trans _ _ _ _ _ _ _ _ _ Hv H)]; lia.
Qed.

Lemma verificarCache_omitido (dropboxPath : string) (opts : Opciones) (w : Entorno) :
  useCache opts = false \/ forceRefresh opts = true ->
  verificarCache getCacheKey dropboxPath opts w = (w, inr None).
Proof.
  intros H. unfold verificarCache. desplegar.
  destruct H as [-> | ->]; [| rewrite andb_false_r]; reflexivity.
Qed.

(** X12: with the cache switched off or a forced refresh, no metadata call
    is made; when Dropbox answers and holds the path, one attempt suffices:
    the file is downloaded in full and the blob and its fingerprint are
    written, even over an entry that was up to date. *)
Theorem refresco_forzado (dropboxPath : string) (opts : Opciones) (w : Entorno)
    (remoto : Remoto) :
  useCache opts = false \/ forceRefresh opts = true ->
  guion w = [] -> nube w !! dropboxPath = Some remoto -> (0 < maxRetries opts)%nat ->
  exists w',
    downloadWithRetry getCacheKey dropboxPath opts w
    = (w', inr (getCachedFilePath getCacheKey dropboxPath)) /\
    descargado getCacheKey dropboxPath w w' /\
    cuenta esMetadatos w' = cuenta esMetadatos w /\
    cuenta esDescarga w' = S (cuenta esDescarga w).
Proof.
  intros Hop Hg Hn Hm. unfold downloadWithRetry. desplegar.
  rewrite (verificarCache_omitido dropboxPath opts w Hop).
  destruct (maxRetries opts) as [| n]; [lia |]. cbn [reintentar].
  destruct (intentar getCacheKey dropboxPath w) as [w1 r] eqn:Hi.
  pose proof (intentar_cota _ _ _ _ Hi) as (Hd & Hme & _).
  pose proof (intentar_spec getCacheKey _ _ _ _ Hi) as [Hs Hq].
  destruct (Hq Hg) as [_ Hex]. destruct (Hex ltac:(eauto)) as [ruta ->].
  destruct Hs as [-> Hdesc]. exists w1. split; [reflexivity |].
  split; [exact Hdesc |]. split; [lia |].
  unfold intentar in Hi. desplegar.
  destruct (getDropboxClient w) as [w0 [err | []]] eqn:Hc; [discriminate |].
  pose proof (getDropboxClient_cota _ _ _ Hc) as (Hd0 & _).
  destruct (llamar (FilesDownload dropboxPath) _ w0) as [w2 [err | resp]] eqn:Hl;
    [discriminate |].
  apply llamar_spec in Hl as (-> & _). simplify_eq.
  unfold cuenta at 1. cbn [llamadas con_archivos].
  fold (cuenta esDescarga (con_llamada (FilesDownload dropboxPath) true w0)).
  rewrite cuenta_llamada. cbn. lia.
Qed.

(** X13: a client that exists is never rebuilt by getDropboxClient: when
    the token is more than an hour old and Dropbox answers, the token is
    renewed and its time stamped, one token request is recorded, and the
    client stays the one built with the old token. *)
Theorem cliente_no_se_reconstruye (w : Entorno) (cliente : option string) (ultimo : Z) :
  dropboxInstance w = Some cliente ->
  lastTokenRefresh w = Some ultimo -> (3600000 < reloj w - ultimo)%Z ->
  guion w = [] ->
  let w' := con_token (tokenNuevo w) (Some (reloj w)) (con_llamada PedirToken true w) in
  getDropboxClient w = (w', inr tt) /\
  accessToken w' = tokenNuevo w /\ dropboxInstance w' = Some cliente.
Proof.
  intros Hi Hu Hv Hg w'. subst w'. split; [| split; [reflexivity | exact Hi]].
  unfold getDropboxClient, refreshDropboxToken, llamar. desplegar.
  rewrite Hu.
  replace (3600000 <? reloj w - ultimo)%Z with true by (symmetry; apply Z.ltb_lt; exact Hv).
  rewrite orb_true_r. cbv beta. rewrite Hg.
  cbn [dropboxInstance con_token con_llamada reloj].
  rewrite Hi. reflexivity.
Qed.

(** X14: with no attempt allowed and the cache check skipped, the call
    throws its own error, naming the path, without calling Dropbox. *)
Theorem sin_intentos (dropboxPath : string) (opts : Opciones) (w : Entorno) :
  maxRetries opts = 0%nat ->
  useCache opts = false \/ forceRefresh opts = true ->
  downloadWithRetry getCacheKey dropboxPath opts w
  = (w, inl (ErrorDe ("Error al descargar " +:+ dropboxPath))).
Proof.
  intros Hm Hop. unfold downloadWithRetry. desplegar.
  rewrite (verificarCache_omitido dropboxPath opts w Hop), Hm. reflexivity.
Qed.

Lemma verificarCache_sin_ruta (dropboxPath : string) (opts : Opciones) (w : Entorno) :
  guion w = [] -> nube w !! dropboxPath = None ->
  exists w1, verificarCache getCacheKey dropboxPath opts w = (w1, inr None) /\
    guion w1 = [] /\ nube w1 = nube w /\ archivos w1 = archivos w /\
    cuenta esDescarga w1 = cuenta esDescarga w.
Proof.
  intros Hg Hn.
  destruct (verificarCache getCacheKey dropboxPath opts w) as [w1 r] eqn:Hv.
  pose proof (verificarCache_cota _ _ _ _ _ Hv) as (Hd & _).
  pose proof (verificarCache_spec getCacheKey _ _ _ _ _ Hv)
    as ((Ha & Hnu & _) & _ & Hq & _).
  exists w1. split; [| repeat split; auto; lia].
  f_equal. unfold verificarCache in Hv. desplegar.
  destruct (useCache opts && negb (forceRefresh opts) && _ && _); [| congruence].
  destruct (archivos w !! metaPathDe _) as [[c | rv sm ca] |]; try congruence.
  destruct (getDropboxClient w) as [w0 [err | []]] eqn:Hc; [congruence |].
  apply getDropboxClient_spec in Hc as [(_ & Hn0 & _) Hg0].
  destruct (Hg0 Hg) as [Hg1 _].
  destruct (llamar (FilesGetMetadata dropboxPath) _ w0) as [w2 [err | meta]] eqn:Hl;
    [congruence |].
  apply llamar_spec in Hl as (_ & _ & Hr). specialize (Hr Hg1).
  unfold enLaNube in Hr. rewrite Hn0, Hn in Hr. discriminate.
Qed.

(** X15: a failure that is not an expired token is not retried.  When
    Dropbox answers and does not hold the path, the call throws the
    path-not-found error after one download call, whatever the number of
    attempts allowed, and leaves the cache directory as it was. *)
Theorem ruta_inexistente (dropboxPath : string) (opts : Opciones) (w : Entorno) :
  guion w = [] -> nube w !! dropboxPath = None -> (0 < maxRetries opts)%nat ->
  match downloadWithRetry getCacheKey dropboxPath opts w with
  | (w', r) =>
    r = inl (ErrorRemoto 409 "path/not_found") /\
    cuenta esDescarga w' = S (cuenta esDescarga w) /\
    archivos w' = archivos w
  end.
Proof.
  intros Hg Hn Hm. unfold downloadWithRetry. desplegar.
  destruct (verificarCache_sin_ruta dropboxPath opts w Hg Hn)
    as (w1 & -> & Hg1 & Hn1 & Ha1 & Hd1).
  destruct (maxRetries opts) as [| n]; [lia |]. cbn [reintentar].
  unfold intentar. desplegar.
  destruct (getDropboxClient w1) as [w2 [err | []]] eqn:Hc.
  { apply getDropboxClient_spec in Hc as [_ Hq]. destruct (Hq Hg1) as [_ ?]. discriminate. }
  pose proof (getDropboxClient_cota _ _ _ Hc) as (Hd2 & _).
  apply getDropboxClient_spec in Hc as [(Ha2 & Hn2 & _) Hq].
  destruct (Hq Hg1) as [Hg2 _].
  unfold llamar, enLaNube. rewrite Hg2, Hn2, Hn1, Hn. cbn [tokenExpirado Z.eqb String.eqb orb].
  change (String.eqb "path/not_found" "expired_access_token") with false. cbn [orb].
  repeat split.
  - rewrite cuenta_llamada. cbn. lia.
  - cbn. congruence.
Qed.

Lemma verificarCache_sin_entrada (dropboxPath : string) (opts : Opciones) (w : Entorno) :
  archivos w !! getCachedFilePath getCacheKey dropboxPath = None ->
  verificarCache getCacheKey dropboxPath opts w = (w, inr None).
Proof.
  intros H. unfold verificarCache. desplegar. rewrite H.
  rewrite (bool_decide_eq_false_2 (is_Some None)) by (intros [? ?]; discriminate).
  rewrite andb_false_r. reflexivity.
Qed.

Lemma getDropboxClient_vigente (w : Entorno) :
  negb (tokenVerdadero (accessToken w)) ||
    match lastTokenRefresh w with
    | Some t => (3600000 <? reloj w - t)%Z
    | None => false
    end = false ->
  getDropboxClient w
  = (match dropboxInstance w with
     | Some _ => w
     | None => con_instancia (Some (accessToken w)) w
     end, inr tt).
Proof.
  intros H. unfold getDropboxClient. desplegar. rewrite H.
  destruct (dropboxInstance w); reflexivity.
Qed.

Lemma refreshDropboxToken_logrado (w : Entorno) :
  guion w = [] ->
  refreshDropboxToken w
  = (con_token (tokenNuevo w) (Some (reloj w)) (con_llamada PedirToken true w),
     inr (tokenNuevo w)).
Proof.
  intros H. unfold refreshDropboxToken, llamar. desplegar. rewrite H. reflexivity.
Qed.

Lemma intentar_rechazado (dropboxPath : string) (w : Entorno) (error : Excepcion)
    (resto : list (option Excepcion)) :
  negb (tokenVerdadero (accessToken w)) ||
    match lastTokenRefresh w with
    | Some t => (3600000 <? reloj w - t)%Z
    | None => false
    end = false ->
  guion w = Some error :: resto ->
  exists w1, intentar getCacheKey dropboxPath w = (w1, inl error) /\
    llamadas w1 = llamadas w ++ [(FilesDownload dropboxPath, false)] /\
    guion w1 = resto /\ archivos w1 = archivos w /\ nube w1 = nube w /\
    tokenNuevo w1 = tokenNuevo w /\ reloj w1 = reloj w /\ fechaIso w1 = fechaIso w.
Proof.
  intros Hv Hg. unfold intentar. desplegar.
  rewrite (getDropboxClient_vigente w Hv). unfold llamar.
  destruct (dropboxInstance w); cbn [guion con_instancia]; rewrite Hg;
    (eexists; split; [reflexivity |]); cbn; rewrite Hg; repeat split.
Qed.

Lemma intentar_logrado (dropboxPath : string) (w : Entorno) (remoto : Remoto) :
  negb (tokenVerdadero (accessToken w)) ||
    match lastTokenRefresh w with
    | Some t => (3600000 <? reloj w - t)%Z
    | None => false
    end = false ->
  guion w = [] -> nube w !! dropboxPath = Some remoto ->
  exists w1,
    intentar getCacheKey dropboxPath w = (w1, inr (getCachedFilePath getCacheKey dropboxPath)) /\
    llamadas w1 = llamadas w ++ [(FilesDownload dropboxPath, true)] /\
    accessToken w1 = accessToken w /\ lastTokenRefresh w1 = lastTokenRefresh w /\
    dropboxInstance w1 = Some (default (accessToken w) (dropboxInstance w)) /\
    archivos w1
    = <[metaPathDe (getCachedFilePath getCacheKey dropboxPath) :=
          Metadatos (rev remoto) (server_modified remoto) (fechaIso w)]>
        (<[getCachedFilePath getCacheKey dropboxPath := Binario (fileBinary remoto)]>
           (archivos w)).
Proof.
  intros Hv Hg Hn. unfold intentar. desplegar.
  rewrite (getDropboxClient_vigente w Hv). unfold llamar, enLaNube.
  destruct (dropboxInstance w) eqn:Hi; cbn [guion nube con_instancia]; rewrite Hg, Hn;
    (eexists; split; [reflexivity |]); repeat split; cbn; rewrite Hi; reflexivity.
Qed.

(** X16: recovery from an expired token.  With no cache entry for the path,
    no renewal due, and Dropbox rejecting the first download as an expired
    token, the loop drops the token and the client, requests a new token,
    builds a new client with it, and downloads on the second attempt: three
    calls in all, and the blob and its fingerprint are in the cache. *)
Theorem token_expirado_se_renueva (dropboxPath : string) (opts : Opciones) (w : Entorno)
    (remoto : Remoto) (error : Excepcion) :
  archivos w !! getCachedFilePath getCacheKey dropboxPath = None ->
  negb (tokenVerdadero (accessToken w)) ||
    match lastTokenRefresh w with
    | Some t => (3600000 <? reloj w - t)%Z
    | None => false
    end = false ->
  guion w = [Some error] -> tokenExpirado error = true ->
  tokenVerdadero (tokenNuevo w) = true ->
  nube w !! dropboxPath = Some remoto ->
  (2 <= maxRetries opts)%nat ->
  match downloadWithRetry getCacheKey dropboxPath opts w with
  | (w', r) =>
    r = inr (getCachedFilePath getCacheKey dropboxPath) /\
    llamadas w' = llamadas w ++ [(FilesDownload dropboxPath, false); (PedirToken, true);
                                 (FilesDownload dropboxPath, true)] /\
    accessToken w' = tokenNuevo w /\ dropboxInstance w' = Some (tokenNuevo w) /\
    lastTokenRefresh w' = Some (reloj w) /\
    entrada getCacheKey dropboxPath w'
    = (Some (Binario (fileBinary remoto)),
       Some (Metadatos (rev remoto) (server_modified remoto) (fechaIso w)))
  end.
Proof.
  intros Hc Hv Hg He Ht Hn Hm. unfold downloadWithRetry. desplegar.
  rewrite (verificarCache_sin_entrada dropboxPath opts w Hc).
  destruct (maxRetries opts) as [| [| n]]; [lia | lia |].
  cbn [reintentar].
  destruct (intentar_rechazado dropboxPath w error [] Hv Hg)
    as (w1 & -> & Hl1 & Hg1 & Ha1 & Hn1 & Ht1 & Hr1 & Hf1).
  rewrite He. desplegar.
  set (w2 := con_token None (lastTokenRefresh w1) (con_instancia None w1)).
  rewrite (refreshDropboxToken_logrado w2) by exact Hg1.
  set (w3 := con_token (tokenNuevo w2) (Some (reloj w2)) (con_llamada PedirToken true w2)).
  assert (negb (tokenVerdadero (accessToken w3)) ||
            match lastTokenRefresh w3 with
            | Some t => (3600000 <? reloj w3 - t)%Z
            | None => false
            end = false) as Hv3.
  { cbn [accessToken lastTokenRefresh reloj w3 w2 con_token con_llamada con_instancia
         tokenNuevo].
    rewrite Ht1, Ht, Z.sub_diag. reflexivity. }
  assert (guion w3 = []) as Hg3 by (cbn; rewrite Hg1; reflexivity).
  assert (nube w3 !! dropboxPath = Some remoto) as Hn3 by (cbn; rewrite Hn1; exact Hn).
  destruct (intentar_logrado dropboxPath w3 remoto Hv3 Hg3 Hn3)
    as (w4 & -> & Hl4 & Hk4 & Hu4 & Hi4 & Ha4).
  split; [reflexivity |].
  split; [rewrite Hl4; cbn; rewrite Hl1, <- !app_assoc; reflexivity |].
  split; [rewrite Hk4; cbn; exact Ht1 |].
  split; [rewrite Hi4; cbn; rewrite Ht1; reflexivity |].
  split; [rewrite Hu4; cbn; rewrite Hr1; reflexivity |].
  unfold entrada. rewrite Ha4.
  rewrite lookup_insert_ne by apply metaPath_distinto.
  rewrite !lookup_insert_eq. cbn. rewrite Hf1. reflexivity.
Qed.

End Reintentos.

Lemma refresco_forzado_witness :
  exists w',
    DropboxService.downloadWithRetry DropboxService.claveDeMuestra "/cuentas.xlsx"
      {| DropboxService.maxRetries := 3; DropboxService.useCache := true;
         DropboxService.forceRefresh := true |} Conteo.entornoConCliente
    = (w', inr (DropboxService.getCachedFilePath DropboxService.claveDeMuestra
                  "/cuentas.xlsx")) /\
    DropboxService.descargado DropboxService.claveDeMuestra "/cuentas.xlsx"
      Conteo.entornoConCliente w' /\
    Conteo.cuenta Conteo.esMetadatos w'
    = Conteo.cuenta Conteo.esMetadatos Conteo.entornoConCliente /\
    Conteo.cuenta Conteo.esDescarga w'
    = S (Conteo.cuenta Conteo.esDescarga Conteo.entornoConCliente).
Proof.
  apply (refresco_forzado DropboxService.claveDeMuestra "/cuentas.xlsx"
           {| DropboxService.maxRetries := 3; DropboxService.useCache := true;
              DropboxService.forceRefresh := true |} Conteo.entornoConCliente
           {| DropboxService.rev := "015f"; DropboxService.fileBinary := "PK1";
              DropboxService.server_modified := "2025-06-19T00:00:00Z" |}).
  - right. reflexivity.
  - reflexivity.
  - vm_compute. reflexivity.
  - cbn. lia.
Defined.

Lemma cliente_no_se_reconstruye_witness :
  let w' := DropboxService.con_token (DropboxService.tokenNuevo Conteo.entornoConCliente)
              (Some (DropboxService.reloj Conteo.entornoConCliente))
              (DropboxService.con_llamada DropboxService.PedirToken true
                 Conteo.entornoConCliente) in
  DropboxService.getDropboxClient Conteo.entornoConCliente = (w', inr tt) /\
  DropboxService.accessToken w' = DropboxService.tokenNuevo Conteo.entornoConCliente /\
  DropboxService.dropboxInstance w' = Some (Some "sl.viejo").
Proof.
  apply (cliente_no_se_reconstruye Conteo.entornoConCliente (Some "sl.viejo")
           1750404600000).
  - reflexivity.
  - reflexivity.
  - vm_compute. reflexivity.
  - reflexivity.
Defined.

Lemma sin_intentos_witness :
  DropboxService.downloadWithRetry DropboxService.claveDeMuestra "/cuentas.xlsx"
    {| DropboxService.maxRetries := 0; DropboxService.useCache := false;
       DropboxService.forceRefresh := false |} DropboxService.entornoInicial
  = (DropboxService.entornoInicial,
     inl (ErrorDe ("Error al descargar " +:+ "/cuentas.xlsx"))).
Proof.
  apply (sin_intentos DropboxService.claveDeMuestra "/cuentas.xlsx"
           {| DropboxService.maxRetries := 0; DropboxService.useCache := false;
              DropboxService.forceRefresh := false |} DropboxService.entornoInicial).
  - reflexivity.
  - left. reflexivity.
Defined.

Lemma ruta_inexistente_witness :
  match DropboxService.downloadWithRetry DropboxService.claveDeMuestra "/otro.xlsx"
          DropboxService.opcionesPorDefecto DropboxService.entornoInicial with
  | (w', r) =>
    r = inl (ErrorRemoto 409 "path/not_found") /\
    Conteo.cuenta Conteo.esDescarga w'
    = S (Conteo.cuenta Conteo.esDescarga DropboxService.entornoInicial) /\
    DropboxService.archivos w' = DropboxService.archivos DropboxService.entornoInicial
  end.
Proof.
  apply (ruta_inexistente DropboxService.claveDeMuestra "/otro.xlsx"
           DropboxService.opcionesPorDefecto DropboxService.entornoInicial).
  - reflexivity.
  - vm_compute. reflexivity.
  - cbn. lia.
Defined.

Lemma token_expirado_se_renueva_witness :
  match DropboxService.downloadWithRetry DropboxService.claveDeMuestra "/cuentas.xlsx"
          DropboxService.opcionesPorDefecto Conteo.entornoExpirado with
  | (w', r) =>
    r = inr (DropboxService.getCachedFilePath DropboxService.claveDeMuestra
               "/cuentas.xlsx") /\
    DropboxService.llamadas w'
    = DropboxService.llamadas Conteo.entornoExpirado ++
        [(DropboxService.FilesDownload "/cuentas.xlsx", false);
         (DropboxService.PedirToken, true);
         (DropboxService.FilesDownload "/cuentas.xlsx", true)] /\
    DropboxService.accessToken w' = DropboxService.tokenNuevo Conteo.entornoExpirado /\
    DropboxService.dropboxInstance w'
    = Some (DropboxService.tokenNuevo Conteo.entornoExpirado) /\
    DropboxService.lastTokenRefresh w'
    = Some (DropboxService.reloj Conteo.entornoExpirado) /\
    DropboxService.entrada DropboxService.claveDeMuestra "/cuentas.xlsx" w'
    = (Some (DropboxService.Binario "PK1"),
       Some (DropboxService.Metadatos "015f" "2025-06-19T00:00:00Z"
               (DropboxService.fechaIso Conteo.entornoExpirado)))
  end.
Proof.
  apply (token_expirado_se_renueva DropboxService.claveDeMuestra "/cuentas.xlsx"
           DropboxService.opcionesPorDefecto Conteo.entornoExpirado
           {| DropboxService.rev := "015f"; DropboxService.fileBinary := "PK1";
              DropboxService.server_modified := "2025-06-19T00:00:00Z" |}
           (ErrorRemoto 401 "expired_access_token")).
  - vm_compute. reflexivity.
  - vm_compute. reflexivity.
  - reflexivity.
  - reflexivity.
  - reflexivity.
  - vm_compute. reflexivity.
  - cbn. lia.
Defined.

(** ** Further properties: the conversation handler *)

Section Alcance.

Import JS Servicios StudentService BotController Marcos.

Ltac desplegar :=
  unfold mbind, mret, M_bind, M_ret, tryCatch, gets, modify, throw, lift,
    consoleError, sendMessage, setTimeout in *.

Lemma bind_gets {A B : Type} (f : Mundo -> A) (k : A -> M Mundo B) (w : Mundo) :
  (gets f ≫= k) w = k (f w) w.
Proof. reflexivity. Qed.

Lemma alcance_refl (P : string * Contenido -> Prop) (remitente : string) (w : Mundo) :
  alcance P remitente w w.
Proof.
  unfold alcance. repeat split.
  - exists []. split; [symmetry; apply app_nil_r | constructor].
  - exists []. split; [symmetry; apply app_nil_r | constructor].
Qed.

Lemma alcance_trans (P : string * Contenido -> Prop) (remitente : string)
    (w1 w2 w3 : Mundo) :
  alcance P remitente w1 w2 -> alcance P remitente w2 w3 -> alcance P remitente w1 w3.
Proof.
  unfold alcance.
  intros (-> & -> & -> & -> & -> & -> & -> & Ho1 & (n1 & He1 & Hp1) & (t1 & Ht1 & Hq1))
         (-> & -> & -> & -> & -> & -> & -> & Ho2 & (n2 & He2 & Hp2) & (t2 & Ht2 & Hq2)).
  repeat split.
  - destruct (Ho1 otro H) as [<- _]. apply (Ho2 otro H).
  - destruct (Ho1 otro H) as [_ <-]. apply (Ho2 otro H).
  - exists (n1 ++ n2). rewrite He2, He1, app_assoc. split; [reflexivity |].
    apply Forall_app. auto.
  - exists (t1 ++ t2). rewrite Ht2, Ht1, app_assoc. split; [reflexivity |].
    apply Forall_app. auto.
Qed.

Lemma alcance_mas_debil (P Q : string * Contenido -> Prop) (remitente : string)
    (w w' : Mundo) :
  (forall p, P p -> Q p) -> alcance P remitente w w' -> alcance Q remitente w w'.
Proof.
  unfold alcance.
  intros Hpq (? & ? & ? & ? & ? & ? & ? & Ho & (n & He & Hp) & ?).
  repeat split; try assumption; try (apply Ho; assumption).
  exists n. split; [exact He |]. eapply Forall_impl; eauto.
Qed.

Lemma soloLibro_alcance (P : string * Contenido -> Prop) (remitente : string)
    (w w' : Mundo) :
  soloLibro w w' -> alcance P remitente w w'.
Proof.
  unfold soloLibro, alcance.
  intros (-> & -> & -> & -> & -> & -> & -> & -> & -> & -> & ->).
  repeat split.
  - exists []. split; [symmetry; apply app_nil_r | constructor].
  - exists []. split; [symmetry; apply app_nil_r | constructor].
Qed.

Ltac marco Hrefl Htrans :=
  repeat match goal with
    | |- preserva _ (mbind _ _) => apply preserva_bind; [intros; eapply Htrans; eassumption | | intros ?]
    | |- preserva _ (tryCatch _ _) => apply preserva_tryCatch; [intros; eapply Htrans; eassumption | | intros ?]
    | |- preserva _ (mret _) => apply preserva_ret; intros; apply Hrefl
    | |- preserva _ (throw _) => apply preserva_throw; intros; apply Hrefl
    | |- preserva _ (gets _) => apply preserva_gets; intros; apply Hrefl
    | |- preserva _ (lift _) => apply preserva_lift; intros; apply Hrefl
    | |- preserva _ (modify _) => apply preserva_modify; intros ?
    | |- preserva _ (match ?x with _ => _ end) => destruct x
    | |- preserva _ (let _ := _ in _) => cbv zeta
    end.

(** What is left once a computation is split down to its writes. *)
Ltac alcance_fin lado :=
  try (unfold alcance;
       cbn [reloj fechaLocal fechaIso archivoEncargados saludos pines admins estados
            encargados enviados temporizadores con_estados con_saludos con_encargados
            con_enviados con_temporizadores con_consola];
       repeat case_match;
       cbn [reloj fechaLocal fechaIso archivoEncargados saludos pines admins estados
            encargados enviados temporizadores con_estados con_saludos con_encargados
            con_enviados con_temporizadores con_consola];
       repeat match goal with |- _ /\ _ => split end;
       try reflexivity;
       try (intros otro Hne; rewrite ?lookup_insert_ne by congruence; split; reflexivity);
       try (exists []; split; [symmetry; apply app_nil_r | constructor]; fail);
       try (eexists [_]; split; [reflexivity | repeat constructor; lado]; fail)).

Section ConPredicado.

Variable P : string * Contenido -> Prop.
Variable remitente : string.
Hypothesis Hsuyo : forall c, c <> Saludo -> P (remitente, c).

Ltac lado := try (apply Hsuyo; discriminate).

Ltac marco_alcance :=
  unfold obtenerEstado, obtenerAlumnosEncargado, obtenerUltimoSaludo, isAdmin,
    establecerEstado, establecerUltimoSaludo, registrarEncargado, eliminarRelacion,
    validarPIN, enviarMensajeConDelay, sendMessage, setTimeout, consoleError, nombreDe;
  marco (alcance_refl P remitente) (alcance_trans P remitente);
  alcance_fin lado; auto with alcance.

Create HintDb alcance.

Lemma buscarEstudiante_alcance (cfg : Columnas) (ident : string) :
  preserva (alcance P remitente) (buscarEstudiante cfg ident).
Proof.
  eapply preserva_mas_debil; [apply soloLibro_alcance | apply buscarEstudiante_libro].
Qed.

#[local] Hint Resolve buscarEstudiante_alcance : alcance.

Lemma enviarMenuPrincipal_alcance :
  preserva (alcance P remitente) (enviarMenuPrincipal remitente).
Proof. unfold enviarMenuPrincipal. marco_alcance. Qed.

#[local] Hint Resolve enviarMenuPrincipal_alcance : alcance.

Lemma enviarEstadoPagos_alcance (cfg : Columnas) (estudiante : option Estudiante) :
  preserva (alcance P remitente) (enviarEstadoPagos cfg remitente estudiante).
Proof. unfold enviarEstadoPagos. marco_alcance. Qed.

#[local] Hint Resolve enviarEstadoPagos_alcance : alcance.

Lemma listarAlumnos_alcance (cfg : Columnas) (ids : list string)
    (lineas : list (Valor * Valor)) :
  preserva (alcance P remitente) (listarAlumnos cfg ids lineas).
Proof.
  revert lineas. induction ids as [| i resto IH]; intros lineas; cbn [listarAlumnos];
    marco_alcance.
Qed.

#[local] Hint Resolve listarAlumnos_alcance : alcance.

Lemma alumnoElegido_alcance (mensaje : string) (lista : option (list string)) :
  preserva (alcance P remitente) (alumnoElegido mensaje lista).
Proof. unfold alumnoElegido. marco_alcance. Qed.

#[local] Hint Resolve alumnoElegido_alcance : alcance.

(** The handler of a state sends to the user only, and schedules nothing
    but the user's own menu. *)
Lemma segunEstado_alcance (cfg : Columnas) (mensaje : string) (est : EstadoConv)
    (vinculados : list string) (primero : bool) :
  preserva (alcance P remitente) (segunEstado cfg remitente mensaje est vinculados primero).
Proof.
  unfold segunEstado, menuPrincipal, registroId, registroPin, seleccionAlumno,
    eliminarAlumno.
  marco_alcance.
Qed.

End ConPredicado.

Lemma contenidoDifusion_sin_saludo (mensaje : Difusion) (c : Contenido) :
  contenidoDifusion mensaje = inr (Some c) -> c <> Saludo.
Proof.
  unfold contenidoDifusion. intros H ->.
  repeat case_match; simplify_eq.
Qed.

Lemma difundir_alcance (remitente : string) (destinatarios : list string)
    (mensaje : Difusion) (n : nat) :
  preserva (alcance sinSaludo remitente) (difundir destinatarios mensaje n).
Proof.
  revert n. induction destinatarios as [| d resto IH]; intros n; cbn [difundir].
  - apply preserva_ret. apply alcance_refl.
  - destruct (contenidoDifusion mensaje) as [err | [c |]] eqn:Hc.
    + apply preserva_bind; [apply alcance_trans | | intros _; apply IH].
      unfold consoleError. apply preserva_modify. intros w.
      apply soloLibro_alcance. repeat split.
    + apply preserva_bind; [apply alcance_trans | | intros _; apply IH].
      unfold sendMessage. apply preserva_modify. intros w.
      unfold alcance. cbn. repeat split.
      * exists [(d, c)]. split; [reflexivity |]. repeat constructor.
        apply (contenidoDifusion_sin_saludo mensaje c Hc).
      * exists []. split; [symmetry; apply app_nil_r | constructor].
    + apply IH.
Qed.

Lemma enviarBroadcast_alcance (remitente : string) (mensaje : Difusion) :
  preserva (alcance sinSaludo remitente) (enviarBroadcast mensaje).
Proof.
  unfold enviarBroadcast.
  apply preserva_bind; [apply alcance_trans | apply preserva_gets, alcance_refl |].
  intros [| | | [destinatarios |]]; try apply difundir_alcance.
  - apply preserva_bind; [apply alcance_trans | | intros _; apply preserva_ret, alcance_refl].
    unfold consoleError. apply preserva_modify. intros w.
    apply soloLibro_alcance. repeat split.
  - apply preserva_bind; [apply alcance_trans | | intros _; apply preserva_ret, alcance_refl].
    unfold consoleError. apply preserva_modify. intros w.
    apply soloLibro_alcance. repeat split.
  - apply preserva_throw, alcance_refl.
Qed.

Lemma sinSaludo_suyo (remitente : string) (c : Contenido) :
  c <> Saludo -> sinSaludo (remitente, c).
Proof. intros H. exact H. Qed.

Lemma paraEl_suyo (remitente : string) (c : Contenido) :
  c <> Saludo -> paraEl remitente (remitente, c).
Proof. intros _. reflexivity. Qed.

Ltac correr :=
  lazy beta iota zeta delta
    [mbind mret M_bind M_ret tryCatch gets modify throw lift
     obtenerEstado obtenerAlumnosEncargado obtenerUltimoSaludo isAdmin
     establecerEstado establecerUltimoSaludo enviarMensajeConDelay sendMessage
     setTimeout consoleError nombreDe].

(** After the day's greeting, handling a message stays within the reach of
    its sender and sends no greeting. *)
Lemma procesarMensaje_saludado (cfg : Columnas) (remitente mensaje : string)
    (mensajeObj : MensajeWA) (w w' : Mundo) (r : Excepcion + unit) :
  yaSaludadoHoy w remitente ->
  procesarMensaje cfg remitente mensaje mensajeObj w = (w', r) ->
  alcance sinSaludo remitente w w'.
Proof.
  unfold yaSaludadoHoy. intros Hs H.
  unfold procesarMensaje, obtenerEstado, obtenerAlumnosEncargado, obtenerUltimoSaludo in H.
  rewrite bind_gets in H. cbv beta in H.
  rewrite bind_gets in H. cbv beta in H.
  rewrite bind_gets in H. cbv beta in H.
  rewrite bind_gets in H. cbv beta in H.
  rewrite Hs, bool_decide_eq_true_2 in H by reflexivity. cbn [negb] in H.
  generalize dependent (default {| estado := "MENU_PRINCIPAL"; datos := sinDatos |}
                                (estados w !! remitente)).
  generalize dependent (default [] (encargados w !! remitente)).
  intros vinculados est H.
  match type of H with
  | ?c w = _ => assert (preserva (alcance sinSaludo remitente) c) as Hp
  end.
  2:{ eapply Hp, H. }
  clear.
  unfold isAdmin, establecerEstado, sendMessage.
  marco (alcance_refl sinSaludo remitente) (alcance_trans sinSaludo remitente);
    alcance_fin ltac:(discriminate);
    first [ apply enviarMenuPrincipal_alcance, sinSaludo_suyo
          | apply enviarBroadcast_alcance
          | apply segunEstado_alcance, sinSaludo_suyo ].
Qed.

(** Without the privilege no branch reaches enviarBroadcast: whatever is
    sent goes to the sender. *)
Lemma procesarMensaje_saludado_sin_privilegio (cfg : Columnas) (remitente mensaje : string)
    (mensajeObj : MensajeWA) (w w' : Mundo) (r : Excepcion + unit) :
  yaSaludadoHoy w remitente -> remitente ∉ admins w ->
  procesarMensaje cfg remitente mensaje mensajeObj w = (w', r) ->
  alcance (paraEl remitente) remitente w w'.
Proof.
  unfold yaSaludadoHoy. intros Hs Ha H.
  unfold procesarMensaje, obtenerEstado, obtenerAlumnosEncargado, obtenerUltimoSaludo in H.
  rewrite bind_gets in H. cbv beta in H.
  rewrite bind_gets in H. cbv beta in H.
  rewrite bind_gets in H. cbv beta in H.
  rewrite bind_gets in H. cbv beta in H.
  rewrite Hs, bool_decide_eq_true_2 in H by reflexivity. cbn [negb] in H.
  generalize dependent (default {| estado := "MENU_PRINCIPAL"; datos := sinDatos |}
                                (estados w !! remitente)).
  generalize dependent (default [] (encargados w !! remitente)).
  intros vinculados est H.
  destruct (String.eqb (estado est) "MENU_ADMIN_BROADCAST");
    [| destruct (startsWith (toLowerCase mensaje) "broadcast "
                 || startsWith (toLowerCase mensaje) "bc ")];
    try (unfold isAdmin in H; rewrite bind_gets in H; cbv beta in H;
         rewrite bool_decide_eq_false_2 in H by exact Ha; cbn [negb] in H);
    (match type of H with
     | ?c w = _ => assert (preserva (alcance (paraEl remitente) remitente) c) as Hp
     end; [| eapply Hp, H]);
    clear;
    unfold establecerEstado, sendMessage;
    marco (alcance_refl (paraEl remitente) remitente)
          (alcance_trans (paraEl remitente) remitente);
    alcance_fin ltac:(reflexivity);
    first [ apply enviarMenuPrincipal_alcance, paraEl_suyo
          | apply segunEstado_alcance, paraEl_suyo ].
Qed.

(** The first message of the day, whatever it says. *)
Lemma procesarMensaje_no_saludado (cfg : Columnas) (remitente mensaje : string)
    (mensajeObj : MensajeWA) (w : Mundo) :
  saludos w !! remitente <> Some (fechaIso w) ->
  procesarMensaje cfg remitente mensaje mensajeObj w
  = (trasEnviar remitente
       (MenuPrincipal (length (default [] (encargados w !! remitente)))
                      (bool_decide (remitente ∈ admins w)))
       (trasEstablecer remitente "MENU_PRINCIPAL" sinDatos
          (trasEstablecer remitente "MENU_PRINCIPAL" sinDatos
             (trasEnviar remitente Saludo
                (con_saludos (<[remitente := fechaIso w]> (saludos w)) w)))),
     inr tt).
Proof.
  intros Hs. unfold procesarMensaje. correr.
  rewrite bool_decide_eq_false_2 by exact Hs. reflexivity.
Qed.

(** X17: on the first message of the day the text and the conversation
    state are not looked at: the user is greeted, put in MENU_PRINCIPAL and
    shown the main menu, the date of the greeting is recorded, and nothing
    else happens (no ledger request, no link changed, nothing scheduled),
    even when the text was a command or an answer to a pending question. *)
Theorem primer_mensaje_del_dia (cfg : Columnas) (remitente mensaje : string)
    (mensajeObj : MensajeWA) (w : Mundo) :
  saludos w !! remitente <> Some (fechaIso w) ->
  exists w', procesarMensaje cfg remitente mensaje mensajeObj w = (w', inr tt) /\
    enviados w' = enviados w ++
      [(remitente, Saludo);
       (remitente, MenuPrincipal (length (default [] (encargados w !! remitente)))
                                 (bool_decide (remitente ∈ admins w)))] /\
    estadoDe w' remitente = {| estado := "MENU_PRINCIPAL"; datos := sinDatos |} /\
    saludos w' = <[remitente := fechaIso w]> (saludos w) /\
    encargados w' = encargados w /\ red w' = red w /\
    cachedWorkbook w' = cachedWorkbook w /\ temporizadores w' = temporizadores w.
Proof.
  intros Hs. eexists. split; [apply procesarMensaje_no_saludado, Hs |].
  unfold estadoDe, trasEnviar, trasEstablecer. cbn.
  rewrite lookup_insert_eq, <- app_assoc. repeat split.
Qed.

Lemma primer_mensaje_del_dia_witness :
  exists w', procesarMensaje columnasDeMuestra encargadoDeMuestra "0801201012345"
               (mensajeDeTexto "0801201012345") mundoSinSaludo = (w', inr tt) /\
    enviados w' = enviados mundoSinSaludo ++
      [(encargadoDeMuestra, Saludo);
       (encargadoDeMuestra,
        MenuPrincipal (length (default [] (encargados mundoSinSaludo !! encargadoDeMuestra)))
                      (bool_decide (encargadoDeMuestra ∈ admins mundoSinSaludo)))] /\
    estadoDe w' encargadoDeMuestra = {| estado := "MENU_PRINCIPAL"; datos := sinDatos |} /\
    saludos w' = <[encargadoDeMuestra := fechaIso mundoSinSaludo]> (saludos mundoSinSaludo) /\
    encargados w' = encargados mundoSinSaludo /\ red w' = red mundoSinSaludo /\
    cachedWorkbook w' = cachedWorkbook mundoSinSaludo /\
    temporizadores w' = temporizadores mundoSinSaludo.
Proof.
  apply (primer_mensaje_del_dia columnasDeMuestra encargadoDeMuestra "0801201012345"
           (mensajeDeTexto "0801201012345") mundoSinSaludo).
  vm_compute. discriminate.
Defined.

(** X18: however a message is handled, to the end or to a throw, its sender
    then counts as greeted on the date the handling read, and nobody else's
    greeting date changes; when the sender was already greeted that day, no
    greeting is among the messages sent. *)
Theorem saludo_una_vez (cfg : Columnas) (remitente mensaje : string)
    (mensajeObj : MensajeWA) (w w' : Mundo) (r : Excepcion + unit) :
  procesarMensaje cfg remitente mensaje mensajeObj w = (w', r) ->
  saludos w' = <[remitente := fechaIso w]> (saludos w) /\
  yaSaludadoHoy w' remitente /\
  (yaSaludadoHoy w remitente ->
   exists nuevos, enviados w' = enviados w ++ nuevos /\ Forall sinSaludo nuevos).
Proof.
  intros H.
  destruct (decide (saludos w !! remitente = Some (fechaIso w))) as [Hs | Hs].
  - pose proof (procesarMensaje_saludado _ _ _ _ _ _ _ Hs H)
      as (_ & _ & Hf & _ & Hsal & _ & _ & _ & Hn & _).
    split; [| split].
    + rewrite Hsal. symmetry. apply insert_id. exact Hs.
    + unfold yaSaludadoHoy. rewrite Hsal, Hf. exact Hs.
    + intros _. exact Hn.
  - rewrite (procesarMensaje_no_saludado cfg remitente mensaje mensajeObj w Hs) in H.
    simplify_eq. split; [reflexivity |]. split.
    + unfold yaSaludadoHoy. cbn. apply lookup_insert_eq.
    + intros Hya. destruct (Hs Hya).
Qed.

Lemma saludo_una_vez_witness :
  let w' := fst (procesarMensaje columnasDeMuestra encargadoDeMuestra "1"
                   (mensajeDeTexto "1") mundoEnRegistro) in
  saludos w' = <[encargadoDeMuestra := fechaIso mundoEnRegistro]> (saludos mundoEnRegistro) /\
  yaSaludadoHoy w' encargadoDeMuestra /\
  (yaSaludadoHoy mundoEnRegistro encargadoDeMuestra ->
   exists nuevos, enviados w' = enviados mundoEnRegistro ++ nuevos /\
                  Forall sinSaludo nuevos).
Proof.
  apply (saludo_una_vez columnasDeMuestra encargadoDeMuestra "1" (mensajeDeTexto "1")
           mundoEnRegistro _ (inr tt)).
  vm_compute. reflexivity.
Defined.

(** X19: a user who is not an administrator cannot make the bot write to
    anyone else: whatever the text, the state and the day, every message
    sent while its message is handled is addressed to the user itself. *)
Theorem sin_privilegio_solo_responde (cfg : Columnas) (remitente mensaje : string)
    (mensajeObj : MensajeWA) (w w' : Mundo) (r : Excepcion + unit) :
  remitente ∉ admins w ->
  procesarMensaje cfg remitente mensaje mensajeObj w = (w', r) ->
  exists nuevos, enviados w' = enviados w ++ nuevos /\ Forall (paraEl remitente) nuevos.
Proof.
  intros Ha H.
  destruct (decide (saludos w !! remitente = Some (fechaIso w))) as [Hs | Hs].
  - pose proof (procesarMensaje_saludado_sin_privilegio _ _ _ _ _ _ _ Hs Ha H)
      as (_ & _ & _ & _ & _ & _ & _ & _ & Hn & _).
    exact Hn.
  - rewrite (procesarMensaje_no_saludado cfg remitente mensaje mensajeObj w Hs) in H.
    simplify_eq. eexists. split.
    + unfold trasEnviar, trasEstablecer. cbn. rewrite <- app_assoc. reflexivity.
    + repeat constructor.
Qed.

Lemma sin_privilegio_solo_responde_witness :
  let w' := fst (procesarMensaje columnasDeMuestra encargadoDeMuestra "bc hola"
                   (mensajeDeTexto "bc hola") mundoDeMuestra) in
  exists nuevos, enviados w' = enviados mundoDeMuestra ++ nuevos /\
                 Forall (paraEl encargadoDeMuestra) nuevos.
Proof.
  apply (sin_privilegio_solo_responde columnasDeMuestra encargadoDeMuestra "bc hola"
           (mensajeDeTexto "bc hola") mundoDeMuestra _ (inr tt)).
  - apply (bool_decide_eq_false_1 (encargadoDeMuestra ∈ admins mundoDeMuestra)).
    vm_compute. reflexivity.
  - vm_compute. reflexivity.
Defined.

(** *** Broadcasts *)

Lemma con_enviados_mismo (w : Mundo) : con_enviados (enviados w) w = w.
Proof. destruct w. reflexivity. Qed.

Lemma difundir_todos (destinatarios : list string) (mensaje : Difusion) (c : Contenido)
    (n : nat) (w : Mundo) :
  contenidoDifusion mensaje = inr (Some c) ->
  difundir destinatarios mensaje n w
  = (con_enviados (enviados w ++ map (fun d => (d, c)) destinatarios) w,
     inr (n + length destinatarios)%nat).
Proof.
  intros Hc. revert n w. induction destinatarios as [| d resto IH]; intros n w.
  - cbn. rewrite app_nil_r, con_enviados_mismo, Nat.add_0_r. reflexivity.
  - cbn [difundir]. rewrite Hc. unfold sendMessage. desplegar.
    rewrite IH. cbn [enviados con_enviados map length].
    rewrite <- app_assoc, Nat.add_succ_r. reflexivity.
Qed.

(** X21: a text broadcast reaches every recipient of the file, in the order
    of the file, each with the same text, and returns their number; nothing
    else changes. *)
Theorem difusion_de_texto (texto : string) (destinatarios : list string) (w : Mundo) :
  archivoEncargados w = Json (Some destinatarios) ->
  enviarBroadcast (DifusionTexto texto) w
  = (con_enviados (enviados w ++ map (fun d => (d, Texto texto)) destinatarios) w,
     inr (length destinatarios)).
Proof.
  intros Ha. unfold enviarBroadcast. rewrite bind_gets, Ha.
  apply (difundir_todos destinatarios (DifusionTexto texto) (Texto texto) 0 w).
  reflexivity.
Qed.

Lemma difusion_de_texto_witness :
  enviarBroadcast (DifusionTexto "Reunión el lunes") mundoDeMuestra
  = (con_enviados
       (enviados mundoDeMuestra ++
        map (fun d => (d, Texto "Reunión el lunes"))
            [encargadoDeMuestra; "50477770000@s.whatsapp.net"]) mundoDeMuestra,
     inr (length [encargadoDeMuestra; "50477770000@s.whatsapp.net"])).
Proof.
  apply (difusion_de_texto "Reunión el lunes"
           [encargadoDeMuestra; "50477770000@s.whatsapp.net"] mundoDeMuestra).
  reflexivity.
Defined.

Lemma difundir_cuenta (destinatarios : list string) (mensaje : Difusion) (n : nat)
    (w w' : Mundo) (r : Excepcion + nat) :
  difundir destinatarios mensaje n w = (w', r) ->
  exists nuevos, r = inr (n + length nuevos)%nat /\
    enviados w' = enviados w ++ nuevos /\
    Forall (fun p => fst p ∈ destinatarios) nuevos.
Proof.
  revert n w. induction destinatarios as [| d resto IH]; intros n w H.
  - cbn in H. desplegar. simplify_eq. exists []. rewrite app_nil_r, Nat.add_0_r.
    repeat split. constructor.
  - cbn [difundir] in H.
    destruct (contenidoDifusion mensaje) as [err | [c |]]; unfold sendMessage in H;
      desplegar; apply IH in H as (nuevos & -> & He & Hf).
    + exists nuevos. split; [reflexivity |]. split; [exact He |].
      eapply Forall_impl; [exact Hf |]. intros p Hp. right. exact Hp.
    + exists ((d, c) :: nuevos). cbn [length]. rewrite Nat.add_succ_r.
      split; [reflexivity |]. split.
      * rewrite He. cbn. rewrite <- app_assoc. reflexivity.
      * constructor; [left |
          eapply Forall_impl; [exact Hf |]; intros p Hp; right; exact Hp].
    + exists nuevos. split; [reflexivity |]. split; [exact He |].
      eapply Forall_impl; [exact Hf |]. intros p Hp. right. exact Hp.
Qed.

(** X22: enviarBroadcast throws only when the recipients file is JSON
    without a usable [encargados] property, and has then sent nothing;
    otherwise the number it returns is the number of messages it sent,
    every one of them to a recipient of the file; with the file missing,
    unreadable or not JSON that number is 0. *)
Theorem enviarBroadcast_cuenta (mensaje : Difusion) (w w' : Mundo) (r : Excepcion + nat) :
  enviarBroadcast mensaje w = (w', r) ->
  match r with
  | inl err => err = TypeError /\ archivoEncargados w = Json None /\ w' = w
  | inr n =>
    exists nuevos, n = length nuevos /\ enviados w' = enviados w ++ nuevos /\
      Forall (fun p => exists destinatarios,
                archivoEncargados w = Json (Some destinatarios) /\ fst p ∈ destinatarios)
             nuevos
  end.
Proof.
  unfold enviarBroadcast. rewrite bind_gets.
  destruct (archivoEncargados w) as [| | | [destinatarios |]] eqn:Ha; intros H.
  - apply difundir_cuenta in H as (nuevos & -> & He & Hf).
    exists nuevos. repeat split; [exact He |].
    eapply Forall_impl; [exact Hf |]. intros p Hp. inversion Hp.
  - unfold consoleError in H. desplegar. simplify_eq.
    exists []. cbn. rewrite app_nil_r. repeat split. constructor.
  - unfold consoleError in H. desplegar. simplify_eq.
    exists []. cbn. rewrite app_nil_r. repeat split. constructor.
  - apply difundir_cuenta in H as (nuevos & -> & He & Hf).
    exists nuevos. repeat split; [exact He |].
    eapply Forall_impl; [exact Hf |]. intros p Hp. eauto.
  - unfold throw in H. simplify_eq. auto.
Qed.

Lemma enviarBroadcast_cuenta_witness :
  let w' := fst (enviarBroadcast (DifusionObjeto (mensajeDeTexto "hola")) mundoDeMuestra) in
  exists nuevos, 2%nat = length nuevos /\
    enviados w' = enviados mundoDeMuestra ++ nuevos /\
    Forall (fun p => exists destinatarios,
              archivoEncargados mundoDeMuestra = Json (Some destinatarios) /\
              fst p ∈ destinatarios)
           nuevos.
Proof.
  apply (enviarBroadcast_cuenta (DifusionObjeto (mensajeDeTexto "hola")) mundoDeMuestra
           _ (inr 2%nat)).
  vm_compute. reflexivity.
Defined.

(** X23: a broadcast from the broadcast menu.  When an administrator who
    is in MENU_ADMIN_BROADCAST sends a message whose [conversation] is a
    non-empty text, every recipient of the file gets that text, untrimmed,
    whatever it says (the words "menu" and "menú" included); the
    administrator then gets the count and the main menu and is back in
    MENU_PRINCIPAL. *)
Theorem difusion_desde_el_menu (cfg : Columnas) (remitente mensaje : string)
    (mensajeObj : MensajeWA) (w : Mundo) (texto : string) (destinatarios : list string) :
  yaSaludadoHoy w remitente ->
  estado (estadoDe w remitente) = "MENU_ADMIN_BROADCAST" ->
  remitente ∈ admins w ->
  conversation (cuerpo mensajeObj) = Some texto -> texto <> "" ->
  extendedTextMessage (cuerpo mensajeObj) = None ->
  archivoEncargados w = Json (Some destinatarios) ->
  exists w', procesarMensaje cfg remitente mensaje mensajeObj w = (w', inr tt) /\
    enviados w' = enviados w ++ map (fun d => (d, Texto texto)) destinatarios ++
      [(remitente, BroadcastEnviado (length destinatarios));
       (remitente, MenuPrincipal (length (default [] (encargados w !! remitente))) true)] /\
    estadoDe w' remitente = {| estado := "MENU_PRINCIPAL"; datos := sinDatos |}.
Proof.
  unfold yaSaludadoHoy, estadoDe. intros Hs He Ha Hc Hne Hx Hf.
  assert (contenidoDifusion (DifusionObjeto mensajeObj) = inr (Some (Texto texto))) as Hd.
  { unfold contenidoDifusion. rewrite Hx, Hc. cbn [cadenaVerdadera default].
    apply String.eqb_neq in Hne. rewrite Hne. reflexivity. }
  unfold procesarMensaje, enviarBroadcast. correr.
  rewrite Hs, bool_decide_eq_true_2 by reflexivity. cbn [negb].
  rewrite He. cbn [String.eqb Ascii.eqb Bool.eqb].
  rewrite bool_decide_eq_true_2 by exact Ha. cbn [negb].
  rewrite Hf, (difundir_todos destinatarios _ _ 0 w Hd).
  eexists. split; [reflexivity |].
  cbn [enviados estados encargados admins con_enviados con_estados].
  rewrite lookup_insert_eq, bool_decide_eq_true_2 by exact Ha.
  rewrite <- !app_assoc. repeat split.
Qed.

Lemma difusion_desde_el_menu_witness :
  exists w', procesarMensaje columnasDeMuestra adminDeMuestra "menú"
               (mensajeDeTexto " menú ") mundoDeMuestra = (w', inr tt) /\
    enviados w' = enviados mundoDeMuestra ++
      map (fun d => (d, Texto " menú "))
          [encargadoDeMuestra; "50477770000@s.whatsapp.net"] ++
      [(adminDeMuestra,
        BroadcastEnviado (length [encargadoDeMuestra; "50477770000@s.whatsapp.net"]));
       (adminDeMuestra,
        MenuPrincipal (length (default [] (encargados mundoDeMuestra !! adminDeMuestra)))
                      true)] /\
    estadoDe w' adminDeMuestra = {| estado := "MENU_PRINCIPAL"; datos := sinDatos |}.
Proof.
  apply (difusion_desde_el_menu columnasDeMuestra adminDeMuestra "menú"
           (mensajeDeTexto " menú ") mundoDeMuestra " menú "
           [encargadoDeMuestra; "50477770000@s.whatsapp.net"]).
  - vm_compute. reflexivity.
  - vm_compute. reflexivity.
  - apply (bool_decide_eq_true_1 (adminDeMuestra ∈ admins mundoDeMuestra)).
    vm_compute. reflexivity.
  - reflexivity.
  - discriminate.
  - reflexivity.
  - reflexivity.
Defined.

(** X24: the handler looks at the first message of the batch only, and
    drops a message that has neither a [conversation] text nor an
    extendedTextMessage: a picture, video, audio, document or sticker sent
    on its own changes nothing and is answered by nothing, whatever the
    state of its sender, the broadcast menu included. *)
Theorem mensaje_sin_texto_se_ignora (cfg : Columnas) (msg : Msg) (resto : list Msg)
    (m : MensajeWA) (w : Mundo) :
  message msg = Some m ->
  cadenaVerdadera (conversation (cuerpo m)) = false ->
  extendedTextMessage (cuerpo m) = None ->
  alRecibirMensajes cfg (msg :: resto) w = (w, inr tt) /\
  forall otros w0, alRecibirMensajes cfg (msg :: otros) w0 = alRecibirMensajes cfg [msg] w0.
Proof.
  intros Hm Hc Hx. split; [| reflexivity].
  unfold alRecibirMensajes, textoDe. rewrite Hm, Hc, Hx.
  destruct (fromMe msg); reflexivity.
Qed.

Lemma mensaje_sin_texto_se_ignora_witness :
  alRecibirMensajes columnasDeMuestra [fotoConPie] mundoDeMuestra
  = (mundoDeMuestra, inr tt) /\
  forall otros w0,
    alRecibirMensajes columnasDeMuestra (fotoConPie :: otros) w0
    = alRecibirMensajes columnasDeMuestra [fotoConPie] w0.
Proof.
  apply (mensaje_sin_texto_se_ignora columnasDeMuestra fotoConPie []
           {| cuerpo := {| conversation := None; extendedTextMessage := None;
                           imageMessage := Some {| descarga := Some "JPEG";
                                                   mimetype := Some "image/jpeg";
                                                   fileName := None |};
                           videoMessage := None; audioMessage := None;
                           documentMessage := None; stickerMessage := None;
                           caption := Some "Aviso" |};
              quotedMessage := None |} mundoDeMuestra); reflexivity.
Defined.

Ltac correr_en H :=
  lazy beta iota zeta delta
    [mbind mret M_bind M_ret tryCatch gets modify throw lift
     obtenerEstado obtenerAlumnosEncargado obtenerUltimoSaludo isAdmin
     establecerEstado establecerUltimoSaludo enviarMensajeConDelay sendMessage
     setTimeout consoleError nombreDe] in H.

(** X25: in state REGISTRO_PIN a text other than the PIN bound to the
    carried identifier is answered with the PIN error and changes nothing.
    With the right PIN the link is recorded before the ledger is consulted:
    it is there however the handling ends, a throw of the lookup included;
    the state is still REGISTRO_PIN when the handling ends, and a handling
    that returns has sent the confirmation and scheduled the main menu. *)
Theorem registro_de_pin (cfg : Columnas) (remitente mensaje : string)
    (mensajeObj : MensajeWA) (w : Mundo) (ident : string) :
  yaSaludadoHoy w remitente ->
  esComandoBroadcast mensaje = false -> esPalabraMenu mensaje = false ->
  estado (estadoDe w remitente) = "REGISTRO_PIN" ->
  idEstudiante (datos (estadoDe w remitente)) = Some ident ->
  (pines w !! ident <> Some mensaje ->
   procesarMensaje cfg remitente mensaje mensajeObj w
   = (trasEnviar remitente PinIncorrecto w, inr tt)) /\
  (pines w !! ident = Some mensaje ->
   forall w' r, procesarMensaje cfg remitente mensaje mensajeObj w = (w', r) ->
     ident ∈ default [] (encargados w' !! remitente) /\
     estadoDe w' remitente = estadoDe w remitente /\
     (r = inr tt ->
      exists nom, enviados w' = enviados w ++ [(remitente, RegistroExitoso nom)] /\
                  temporizadores w' = temporizadores w ++ [MenuPrincipalPara remitente])).
Proof.
  intros Hs Hc Hm He Hi.
  assert (procesarMensaje cfg remitente mensaje mensajeObj w
          = registroPin cfg remitente mensaje (estadoDe w remitente) w) as Hd.
  { rewrite procesarMensaje_despacho; try assumption; [| rewrite He; discriminate].
    unfold segunEstado. rewrite He. reflexivity. }
  rewrite Hd. unfold registroPin, validarPIN, registrarEncargado. rewrite Hi. split.
  - intros Hp. correr. rewrite bool_decide_eq_false_2 by exact Hp. reflexivity.
  - intros Hp w' r H. correr_en H.
    rewrite bool_decide_eq_true_2 in H by exact Hp.
    match type of H with
    | context [buscarEstudiante cfg ident ?w1] =>
      assert (ident ∈ default [] (encargados w1 !! remitente) /\
              estados w1 = estados w /\ enviados w1 = enviados w /\
              temporizadores w1 = temporizadores w) as (Hin & Hest & Henv & Htem);
      [| destruct (buscarEstudiante cfg ident w1) as [w2 [err | [e |]]] eqn:Hb;
         apply buscarEstudiante_libro in Hb
           as (_ & _ & _ & _ & Hest2 & _ & Henc2 & _ & _ & Henv2 & Htem2) ]
    end.
    + case_bool_decide as Hya; [repeat split; exact Hya |].
      cbn [encargados estados enviados temporizadores con_encargados].
      rewrite lookup_insert_eq. repeat split. cbn [default].
      apply elem_of_app. right. left.
    + simplify_eq. rewrite Henc2. unfold estadoDe. rewrite Hest2, Hest.
      repeat split; [exact Hin | discriminate].
    + simplify_eq. cbn [encargados estados con_enviados con_temporizadores].
      rewrite Henc2. unfold estadoDe.
      cbn [estados enviados temporizadores con_enviados con_temporizadores].
      rewrite Hest2, Hest, Henv2, Henv, Htem2, Htem.
      repeat split; [exact Hin |]. intros _. eexists. split; reflexivity.
    + simplify_eq. rewrite Henc2. unfold estadoDe. rewrite Hest2, Hest.
      repeat split; [exact Hin | discriminate].
Qed.

Lemma registro_de_pin_witness :
  (pines mundoEnPin !! "0801201012345" <> Some "4321" ->
   procesarMensaje columnasDeMuestra encargadoDeMuestra "4321" (mensajeDeTexto "4321")
     mundoEnPin
   = (trasEnviar encargadoDeMuestra PinIncorrecto mundoEnPin, inr tt)) /\
  (pines mundoEnPin !! "0801201012345" = Some "4321" ->
   forall w' r,
     procesarMensaje columnasDeMuestra encargadoDeMuestra "4321" (mensajeDeTexto "4321")
       mundoEnPin = (w', r) ->
     "0801201012345" ∈ default [] (encargados w' !! encargadoDeMuestra) /\
     estadoDe w' encargadoDeMuestra = estadoDe mundoEnPin encargadoDeMuestra /\
     (r = inr tt ->
      exists nom,
        enviados w' = enviados mundoEnPin ++ [(encargadoDeMuestra, RegistroExitoso nom)] /\
        temporizadores w'
        = temporizadores mundoEnPin ++ [MenuPrincipalPara encargadoDeMuestra])).
Proof.
  apply (registro_de_pin columnasDeMuestra encargadoDeMuestra "4321" (mensajeDeTexto "4321")
           mundoEnPin "0801201012345").
  - vm_compute. reflexivity.
  - reflexivity.
  - reflexivity.
  - vm_compute. reflexivity.
  - vm_compute. reflexivity.
Defined.

(** *** The ledger is out of reach *)

(** X26: options 2 and 5 of the main menu consult the ledger for the first
    linked student before anything is sent; when the workbook cannot be
    downloaded (no fresh cache and three failing requests), the handling
    throws the download error: no message is sent, nothing is scheduled
    and the conversation records stay as they were. *)
Theorem consulta_sin_libro (cfg : Columnas) (remitente mensaje : string)
    (mensajeObj : MensajeWA) (w : Mundo) (resto : list (option (option Libro)))
    (primero : string) (otros : list string) :
  yaSaludadoHoy w remitente ->
  estado (estadoDe w remitente) = "MENU_PRINCIPAL" ->
  mensaje = "2" \/ mensaje = "5" ->
  default [] (encargados w !! remitente) = primero :: otros ->
  cachedWorkbook w = None \/
    (StudentExcelService.CACHE_REFRESH_INTERVAL < reloj w - lastFetchTime w)%Z ->
  red w = None :: None :: None :: resto ->
  exists w',
    procesarMensaje cfg remitente mensaje mensajeObj w
    = (w', inl (ErrorDe "No se pudo descargar el archivo Excel después de varios intentos.")) /\
    enviados w' = enviados w /\ temporizadores w' = temporizadores w /\
    estados w' = estados w /\ encargados w' = encargados w /\ red w' = resto.
Proof.
  intros Hs He Hm Hv Hc Hr.
  set (w1 := con_consola (consola w ++ replicate 3 "Error en descarga intento")
                          (con_red resto w)).
  assert (forall ident,
            buscarEstudiante cfg ident w
            = (con_consola (consola w1 ++ ["Error en buscarEstudiante:"]) w1,
               inl (ErrorDe
                 "No se pudo descargar el archivo Excel después de varios intentos.")))
    as Hb.
  { intros ident. unfold buscarEstudiante. desplegar.
    rewrite (getWorkbook_falla w resto Hc Hr). reflexivity. }
  exists (con_consola (consola w1 ++ ["Error en buscarEstudiante:"]) w1).
  split; [| repeat split].
  rewrite procesarMensaje_despacho; try assumption;
    [| rewrite He; discriminate | destruct Hm as [-> | ->]; reflexivity
     | destruct Hm as [-> | ->]; reflexivity].
  unfold segunEstado. rewrite He, Hv.
  change (String.eqb "MENU_PRINCIPAL" "MENU_PRINCIPAL") with true. cbv iota.
  unfold menuPrincipal.
  destruct Hm as [-> | ->].
  - change (String.eqb "2" "1") with false. change (String.eqb "2" "6") with false.
    change (String.eqb "2" "2") with true. cbv iota.
    destruct otros as [| segundo otros]; [| cbn [listarAlumnos]]; desplegar;
      rewrite Hb; reflexivity.
  - change (String.eqb "5" "1") with false. change (String.eqb "5" "6") with false.
    change (String.eqb "5" "2") with false. change (String.eqb "5" "3") with false.
    change (String.eqb "5" "4") with false. change (String.eqb "5" "5") with true.
    cbv iota. cbn [listarAlumnos]. desplegar. rewrite Hb. reflexivity.
Qed.

Lemma consulta_sin_libro_witness :
  exists w',
    procesarMensaje columnasDeMuestra encargadoDeMuestra "5" (mensajeDeTexto "5")
      mundoSinLibro
    = (w', inl (ErrorDe "No se pudo descargar el archivo Excel después de varios intentos.")) /\
    enviados w' = enviados mundoSinLibro /\
    temporizadores w' = temporizadores mundoSinLibro /\
    estados w' = estados mundoSinLibro /\ encargados w' = encargados mundoSinLibro /\
    red w' = [].
Proof.
  apply (consulta_sin_libro columnasDeMuestra encargadoDeMuestra "5" (mensajeDeTexto "5")
           mundoSinLibro [] "0801201012345" ["0801201099999"]).
  - vm_compute. reflexivity.
  - vm_compute. reflexivity.
  - right. reflexivity.
  - vm_compute. reflexivity.
  - right. vm_compute. reflexivity.
  - reflexivity.
Defined.

(** *** Entering the broadcast menu *)

Lemma sinEntrar_refl (remitente : string) (w : Mundo) : sinEntrar remitente w w.
Proof. intros H. exact H. Qed.

Lemma sinEntrar_trans (remitente : string) (w1 w2 w3 : Mundo) :
  sinEntrar remitente w1 w2 -> sinEntrar remitente w2 w3 -> sinEntrar remitente w1 w3.
Proof. unfold sinEntrar. auto. Qed.

Lemma soloLibro_sinEntrar (remitente : string) (w w' : Mundo) :
  soloLibro w w' -> sinEntrar remitente w w'.
Proof.
  intros (_ & _ & _ & _ & He & _). unfold sinEntrar, estadoDe. rewrite He. auto.
Qed.

Ltac entrar_fin :=
  try (unfold sinEntrar, estadoDe;
       repeat case_match;
       cbn [estados con_estados con_saludos con_encargados con_enviados
            con_temporizadores con_consola];
       rewrite ?lookup_insert_eq; cbn [default estado];
       intros Hent; first [exact Hent | discriminate Hent]).

Ltac marco_entrar remitente :=
  unfold obtenerEstado, obtenerAlumnosEncargado, obtenerUltimoSaludo, isAdmin,
    establecerEstado, establecerUltimoSaludo, registrarEncargado, eliminarRelacion,
    validarPIN, enviarMensajeConDelay, sendMessage, setTimeout, consoleError, nombreDe;
  marco (sinEntrar_refl remitente) (sinEntrar_trans remitente);
  entrar_fin; auto with entrar.

Create HintDb entrar.

Lemma buscarEstudiante_entrar (cfg : Columnas) (remitente ident : string) :
  preserva (sinEntrar remitente) (buscarEstudiante cfg ident).
Proof.
  eapply preserva_mas_debil; [apply soloLibro_sinEntrar | apply buscarEstudiante_libro].
Qed.

#[local] Hint Resolve buscarEstudiante_entrar : entrar.

Lemma enviarMenuPrincipal_entrar (remitente : string) :
  preserva (sinEntrar remitente) (enviarMenuPrincipal remitente).
Proof. unfold enviarMenuPrincipal. marco_entrar remitente. Qed.

#[local] Hint Resolve enviarMenuPrincipal_entrar : entrar.

Lemma enviarEstadoPagos_entrar (cfg : Columnas) (remitente : string)
    (estudiante : option Estudiante) :
  preserva (sinEntrar remitente) (enviarEstadoPagos cfg remitente estudiante).
Proof. unfold enviarEstadoPagos. marco_entrar remitente. Qed.

#[local] Hint Resolve enviarEstadoPagos_entrar : entrar.

Lemma listarAlumnos_entrar (cfg : Columnas) (remitente : string) (ids : list string)
    (lineas : list (Valor * Valor)) :
  preserva (sinEntrar remitente) (listarAlumnos cfg ids lineas).
Proof.
  revert lineas. induction ids as [| i resto IH]; intros lineas; cbn [listarAlumnos];
    marco_entrar remitente.
Qed.

#[local] Hint Resolve listarAlumnos_entrar : entrar.

Lemma alumnoElegido_entrar (remitente mensaje : string) (lista : option (list string)) :
  preserva (sinEntrar remitente) (alumnoElegido mensaje lista).
Proof. unfold alumnoElegido. marco_entrar remitente. Qed.

#[local] Hint Resolve alumnoElegido_entrar : entrar.

(** Without the privilege the handler of a state never sets the state to
    the broadcast menu. *)
Lemma segunEstado_entrar (cfg : Columnas) (remitente mensaje : string) (est : EstadoConv)
    (vinculados : list string) (primero : bool) (w w' : Mundo) (r : Excepcion + unit) :
  remitente ∉ admins w ->
  segunEstado cfg remitente mensaje est vinculados primero w = (w', r) ->
  sinEntrar remitente w w'.
Proof.
  intros Ha H. unfold segunEstado in H.
  destruct (String.eqb (estado est) "MENU_PRINCIPAL").
  - unfold menuPrincipal in H.
    destruct (String.eqb mensaje "1");
      [| destruct (String.eqb mensaje "6");
         [unfold isAdmin in H; rewrite bind_gets in H; cbv beta in H;
          rewrite bool_decide_eq_false_2 in H by exact Ha |]];
      (match type of H with
       | ?c w = _ => assert (preserva (sinEntrar remitente) c) as Hp
       end; [| eapply Hp, H]);
      clear; marco_entrar remitente.
  - match type of H with
    | ?c w = _ => assert (preserva (sinEntrar remitente) c) as Hp
    end; [| eapply Hp, H].
    clear. unfold registroId, registroPin, seleccionAlumno, eliminarAlumno.
    marco_entrar remitente.
Qed.

(** X27: only an administrator is ever in the broadcast menu after one of
    its messages was handled: whatever the text and the state before, and
    whether the handling returns or throws, a sender whose state is then
    MENU_ADMIN_BROADCAST held the privilege when the message arrived. *)
Theorem menu_de_difusion_solo_admin (cfg : Columnas) (remitente mensaje : string)
    (mensajeObj : MensajeWA) (w w' : Mundo) (r : Excepcion + unit) :
  procesarMensaje cfg remitente mensaje mensajeObj w = (w', r) ->
  estado (estadoDe w' remitente) = "MENU_ADMIN_BROADCAST" ->
  remitente ∈ admins w.
Proof.
  intros H Hfin.
  destruct (decide (remitente ∈ admins w)) as [Ha | Ha]; [exact Ha | exfalso].
  destruct (decide (saludos w !! remitente = Some (fechaIso w))) as [Hs | Hs].
  2:{ rewrite (procesarMensaje_no_saludado cfg remitente mensaje mensajeObj w Hs) in H.
      simplify_eq. unfold estadoDe, trasEnviar, trasEstablecer in Hfin. cbn in Hfin.
      rewrite lookup_insert_eq in Hfin. discriminate Hfin. }
  destruct (String.eqb_spec (estado (estadoDe w remitente)) "MENU_ADMIN_BROADCAST")
    as [He | He].
  - unfold procesarMensaje, enviarMenuPrincipal in H. correr_en H. unfold estadoDe in He.
    rewrite Hs, bool_decide_eq_true_2 in H by reflexivity. cbn [negb] in H.
    rewrite He in H. cbn [String.eqb Ascii.eqb Bool.eqb] in H.
    rewrite bool_decide_eq_false_2 in H by exact Ha. cbn [negb] in H.
    simplify_eq. unfold estadoDe in Hfin. cbn in Hfin.
    rewrite lookup_insert_eq in Hfin. discriminate Hfin.
  - destruct (esComandoBroadcast mensaje) eqn:Hc.
    + unfold procesarMensaje in H. correr_en H. unfold estadoDe in He.
      apply String.eqb_neq in He.
      rewrite Hs, bool_decide_eq_true_2 in H by reflexivity. cbn [negb] in H.
      unfold esComandoBroadcast in Hc. rewrite He, Hc in H.
      rewrite bool_decide_eq_false_2 in H by exact Ha. cbn [negb] in H.
      simplify_eq. apply String.eqb_neq in He. apply He. exact Hfin.
    + destruct (esPalabraMenu mensaje) eqn:Hm.
      * rewrite procesarMensaje_palabra_menu in H by assumption.
        simplify_eq. unfold estadoDe, trasEnviar, trasEstablecer in Hfin. cbn in Hfin.
        rewrite lookup_insert_eq in Hfin. discriminate Hfin.
      * rewrite procesarMensaje_despacho in H by assumption.
        apply He. eapply segunEstado_entrar; eassumption.
Qed.

Lemma menu_de_difusion_solo_admin_witness :
  adminDeMuestra
  ∈ admins (trasEstablecer adminDeMuestra "MENU_PRINCIPAL" sinDatos mundoDeMuestra).
Proof.
  apply (menu_de_difusion_solo_admin columnasDeMuestra adminDeMuestra "6"
           (mensajeDeTexto "6")
           (trasEstablecer adminDeMuestra "MENU_PRINCIPAL" sinDatos mundoDeMuestra)
           (fst (procesarMensaje columnasDeMuestra adminDeMuestra "6" (mensajeDeTexto "6")
                   (trasEstablecer adminDeMuestra "MENU_PRINCIPAL" sinDatos mundoDeMuestra)))
           (inr tt)).
  - vm_compute. reflexivity.
  - vm_compute. reflexivity.
Defined.

(** *** Choosing from a list *)

(** X28: in SELECCION_ALUMNO and in ELIMINAR_ALUMNO, a text that does not
    begin with a number (after white space and a sign), or whose number is
    below 1 or above the length of the carried list, is answered with the
    selection error and changes nothing else: the user stays in the state
    and keeps its links. *)
Theorem seleccion_no_valida (cfg : Columnas) (remitente mensaje : string)
    (mensajeObj : MensajeWA) (w : Mundo) (lista : list string) :
  yaSaludadoHoy w remitente ->
  esComandoBroadcast mensaje = false -> esPalabraMenu mensaje = false ->
  estado (estadoDe w remitente) = "SELECCION_ALUMNO" \/
    estado (estadoDe w remitente) = "ELIMINAR_ALUMNO" ->
  alumnos (datos (estadoDe w remitente)) = Some lista ->
  match parseInt10 mensaje with
  | None => True
  | Some n => (n < 1)%Z \/ (Z.of_nat (length lista) < n)%Z
  end ->
  procesarMensaje cfg remitente mensaje mensajeObj w
  = (trasEnviar remitente SeleccionNoValida w, inr tt).
Proof.
  intros Hs Hc Hm He Hl Hn.
  assert (alumnoElegido mensaje (Some lista) w = (w, inr None)) as Ha.
  { unfold alumnoElegido. destruct (parseInt10 mensaje) as [n |]; [| reflexivity].
    destruct (Z.ltb_spec (n - 1) 0) as [Hneg | Hpos]; [reflexivity |].
    desplegar. rewrite lookup_ge_None_2 by lia. reflexivity. }
  rewrite procesarMensaje_despacho; try assumption;
    [| destruct He as [He | He]; rewrite He; discriminate].
  unfold segunEstado.
  destruct He as [He | He]; rewrite He;
    [change (String.eqb "SELECCION_ALUMNO" "MENU_PRINCIPAL") with false;
     change (String.eqb "SELECCION_ALUMNO" "REGISTRO_ID") with false;
     change (String.eqb "SELECCION_ALUMNO" "REGISTRO_PIN") with false;
     change (String.eqb "SELECCION_ALUMNO" "SELECCION_ALUMNO") with true
    |change (String.eqb "ELIMINAR_ALUMNO" "MENU_PRINCIPAL") with false;
     change (String.eqb "ELIMINAR_ALUMNO" "REGISTRO_ID") with false;
     change (String.eqb "ELIMINAR_ALUMNO" "REGISTRO_PIN") with false;
     change (String.eqb "ELIMINAR_ALUMNO" "SELECCION_ALUMNO") with false;
     change (String.eqb "ELIMINAR_ALUMNO" "ELIMINAR_ALUMNO") with true];
    cbv iota; unfold seleccionAlumno, eliminarAlumno; rewrite Hl; desplegar;
    rewrite Ha; reflexivity.
Qed.

Lemma seleccion_no_valida_witness :
  procesarMensaje columnasDeMuestra encargadoDeMuestra "3" (mensajeDeTexto "3")
    mundoDeMuestra
  = (trasEnviar encargadoDeMuestra SeleccionNoValida mundoDeMuestra, inr tt).
Proof.
  apply (seleccion_no_valida columnasDeMuestra encargadoDeMuestra "3" (mensajeDeTexto "3")
           mundoDeMuestra ["0801201012345"; "0801201099999"]).
  - vm_compute. reflexivity.
  - reflexivity.
  - reflexivity.
  - right. vm_compute. reflexivity.
  - vm_compute. reflexivity.
  - vm_compute. right. reflexivity.
Defined.

End Alcance.
